(** * MemoryAgent: users, sessions and the preference graph

    A shallow embedding of [src/memory.py] (class [MemoryAgent]), of the
    pages and handlers of [src/main.py], and of
    [WeatherAgent.get_user_location_preferences] of [src/agents.py].

    - Python [str] is a byte string ([string]); [str.encode()] is the identity.
    - [datetime] is a number of microseconds ([Z]); a [timedelta] is a
      difference of two such numbers.
    - The Neo4j store is a property graph (nodes, edges, a node id counter);
      each Cypher query of the source is a function on that graph, with
      the parameters that its text names. The driver is the synchronous
      one that [GraphDatabase.driver] builds: a call sends one query, with
      its keyword arguments as the parameters, in a transaction of its
      own, and returns an [EagerResult] with the records; or it raises,
      on a fault of the store or when the server refuses a query one of
      whose parameters is not bound, and leaves the graph as it was.
    - What the environment decides is an argument of the method that asks
      for it: the clock readings, the token [secrets.token_urlsafe] draws,
      the outcome of the entity extractor; the faults of the graph store
      are scheduled in the driver.
    - A Python exception is a value; code that may raise runs in a small
      state-and-exception monad; [print] appends a line to [stdout]. *)

From Stdlib Require Import ZArith String Ascii List.
From stdpp Require Import gmap strings list fin_maps.

Open Scope string_scope.
Open Scope list_scope.
Open Scope Z_scope.

(** ** hashlib.sha256 (FIPS 180-4) *)

Module SHA256.

Definition w32 (x : Z) : Z := x mod 2 ^ 32.

Definition add32 (x y : Z) : Z := w32 (x + y).

Definition rotr (n x : Z) : Z :=
  Z.lor (Z.shiftr x n) (w32 (Z.shiftl x (32 - n))).

Definition Ch (x y z : Z) : Z :=
  Z.lxor (Z.land x y) (Z.land (Z.lxor x 0xffffffff) z).

Definition Maj (x y z : Z) : Z :=
  Z.lxor (Z.lxor (Z.land x y) (Z.land x z)) (Z.land y z).

Definition Sigma0 (x : Z) : Z := Z.lxor (Z.lxor (rotr 2 x) (rotr 13 x)) (rotr 22 x).
Definition Sigma1 (x : Z) : Z := Z.lxor (Z.lxor (rotr 6 x) (rotr 11 x)) (rotr 25 x).
Definition sigma0 (x : Z) : Z := Z.lxor (Z.lxor (rotr 7 x) (rotr 18 x)) (Z.shiftr x 3).
Definition sigma1 (x : Z) : Z := Z.lxor (Z.lxor (rotr 17 x) (rotr 19 x)) (Z.shiftr x 10).

(** The primes below [2 + fuel], by trial division. *)
Fixpoint primes_from (fuel : nat) (n : Z) (found : list Z) : list Z :=
  match fuel with
  | O => found
  | S fuel' =>
      primes_from fuel' (n + 1)
        (if forallb (fun p => negb (n mod p =? 0)) found then found ++ [n] else found)
  end.

Definition primes64 : list Z := primes_from 310 2 [].

(** The integer cube root of [x], bit by bit below bit [bits]. *)
Fixpoint cube_root (bits : nat) (x r : Z) : Z :=
  match bits with
  | O => r
  | S bits' =>
      let r' := r + 2 ^ Z.of_nat bits' in
      cube_root bits' x (if r' * r' * r' <=? x then r' else r)
  end.

(** The first 32 bits of the fractional part of the cube root of each of
    the first 64 primes. *)
Definition K : list Z :=
  Eval vm_compute in map (fun p => w32 (cube_root 36 (p * 2 ^ 96) 0)) primes64.

(** The same of the square root of each of the first 8 primes. *)
Definition H0 : list Z :=
  Eval vm_compute in map (fun p => w32 (Z.sqrt (p * 2 ^ 64))) (take 8 primes64).

(** Big-endian bytes of a [n]-byte number, most significant first. *)
Fixpoint be_bytes (n : nat) (x : Z) : list Z :=
  match n with
  | O => []
  | S n' => (Z.shiftr x (8 * Z.of_nat n')) mod 256 :: be_bytes n' x
  end.

Definition be_word (bs : list Z) : Z :=
  fold_left (fun acc b => acc * 256 + b) bs 0.

(** The message, a 1 bit, zeros up to 56 mod 64, then the bit length. *)
Definition pad (msg : list Z) : list Z :=
  let len := Z.of_nat (length msg) in
  let zeros := Z.to_nat ((55 - len) mod 64) in
  msg ++ 0x80 :: repeat 0 zeros ++ be_bytes 8 (8 * len).

Fixpoint chunks (fuel k : nat) (l : list Z) : list (list Z) :=
  match fuel, l with
  | O, _ | _, [] => []
  | S fuel', _ => take k l :: chunks fuel' k (drop k l)
  end.

(** [schedule n w]: extends the reversed word list [w] by [n] words. *)
Fixpoint schedule (n : nat) (w : list Z) : list Z :=
  match n with
  | O => w
  | S n' =>
      let at_ i := nth i w 0 in
      schedule n'
        (add32 (add32 (sigma1 (at_ 1%nat)) (at_ 6%nat))
               (add32 (sigma0 (at_ 14%nat)) (at_ 15%nat)) :: w)
  end.

Definition round (st : list Z) (kw : Z * Z) : list Z :=
  match st with
  | [a; b; c; d; e; f; g; h] =>
      let t1 := add32 (add32 (add32 h (Sigma1 e)) (add32 (Ch e f g) (fst kw))) (snd kw) in
      let t2 := add32 (Sigma0 a) (Maj a b c) in
      [add32 t1 t2; a; b; c; add32 d t1; e; f; g]
  | _ => st
  end.

Definition compress (st block : list Z) : list Z :=
  let w16 := map be_word (chunks 16 4 block) in
  let w := rev (schedule 48 (rev w16)) in
  zip_with add32 st (fold_left round (combine K w) st).

Definition digest (msg : list Z) : list Z :=
  let p := pad msg in
  let st := fold_left compress (chunks (length p) 64 p) H0 in
  concat (map (be_bytes 4) st).

Definition hex_digit (d : Z) : ascii :=
  ascii_of_N (Z.to_N (if d <? 10 then 48 + d else 87 + d)).

Fixpoint hex (bs : list Z) : string :=
  match bs with
  | [] => EmptyString
  | b :: bs' => String (hex_digit (b / 16)) (String (hex_digit (b mod 16)) (hex bs'))
  end.

Definition bytes_of_string (s : string) : list Z :=
  map (fun c => Z.of_N (N_of_ascii c)) (list_ascii_of_string s).

(** [hashlib.sha256(data).hexdigest()] *)
Definition hexdigest (data : string) : string := hex (digest (bytes_of_string data)).

End SHA256.

(** ** Python values and control *)

(** An exception object: its class and [str(e)]. Only instances of
    [Exception] are modelled, which is what [except Exception] catches. *)
Record Exception := mkException { exc_class : string; exc_str : string }.

Inductive Result (A : Type) :=
| Return (a : A)
| Raise (e : Exception).
Arguments Return {A} a.
Arguments Raise {A} e.

(** A computation over a state [S] that returns or raises; the state
    reached when it raises is kept, as Python keeps mutations. *)
Definition M (S A : Type) : Type := S -> Result A * S.

#[global] Instance M_ret {S} : MRet (M S) := fun A a s => (Return a, s).

#[global] Instance M_bind {S} : MBind (M S) := fun A B f m s =>
  match m s with
  | (Return a, s') => f a s'
  | (Raise e, s') => (Raise e, s')
  end.

Definition raise {S A} (e : Exception) : M S A := fun s => (Raise e, s).

(** [try: body except Exception as e: handler e] *)
Definition try_except {S A} (body : M S A) (handler : Exception -> M S A) : M S A :=
  fun s =>
    match body s with
    | (Return a, s') => (Return a, s')
    | (Raise e, s') => handler e s'
    end.

(** Truthiness of a sequence: [bool(l)]. *)
Definition truthy {A} (l : list A) : bool :=
  match l with [] => false | _ :: _ => true end.

(** [repr] of a [str] without quotes, backslashes or control characters. *)
Definition repr_str (s : string) : string := "'" +:+ s +:+ "'".

(** [repr] of a [dict] of strings, in insertion order. *)
Fixpoint repr_items (kvs : list (string * string)) : string :=
  match kvs with
  | [] => ""
  | [(k, v)] => repr_str k +:+ ": " +:+ repr_str v
  | (k, v) :: rest => repr_str k +:+ ": " +:+ repr_str v +:+ ", " +:+ repr_items rest
  end.

Definition repr_dict (kvs : list (string * string)) : string :=
  "{" +:+ repr_items kvs +:+ "}".

(** [d[k]] on a dict kept in insertion order. *)
Fixpoint assoc (k : string) (kvs : list (string * string)) : option string :=
  match kvs with
  | [] => None
  | (k', v) :: rest => if bool_decide (k' = k) then Some v else assoc k rest
  end.

(** ** The property graph *)

Inductive Prim :=
| PStr (s : string)
| PTime (t : Z).

#[global] Instance Prim_eq_dec : EqDecision Prim.
Proof. solve_decision. Defined.

Record Node := mkNode {
  node_id : nat;
  node_labels : list string;
  node_props : gmap string Prim }.

Record Edge := mkEdge {
  edge_src : nat;
  edge_type : string;
  edge_dst : nat }.

Record Graph := mkGraph {
  nodes : list Node;
  edges : list Edge;
  next_id : nat }.

(** A field of a result record, and a record: its fields in [RETURN] order. *)
Inductive Field :=
| FStr (s : string)
| FNode (n : Node)
| FNodes (ns : list Node).

Definition Row : Type := list (string * Field).

(** What [execute_query] returns: an [EagerResult], the named tuple
    [(records, summary, keys)]. The code reads [result[0]], its records,
    and its truth value only. *)
Record EagerResult := mkEagerResult { records : list Row }.

(** [bool(result)]: a tuple of three fields is true. *)
Definition result_truthy (result : EagerResult) : bool := true.

(** A Cypher query: the parameters that its text names ([$username], ...)
    and, once they are bound, what it does to the graph and returns. *)
Record Cypher := mkCypher {
  parameters : list string;
  effect : Graph -> Graph * list Row }.

Definition has_label (l : string) (n : Node) : bool :=
  bool_decide (l ∈ node_labels n).

Definition has_prop (k : string) (v : Prim) (n : Node) : bool :=
  bool_decide (node_props n !! k = Some v).

Definition set_prop (k : string) (v : Prim) (n : Node) : Node :=
  mkNode (node_id n) (node_labels n) (<[k := v]> (node_props n)).

(** [(u:User {username: $username})] *)
Definition is_user (username : string) (n : Node) : bool :=
  has_label "User" n && has_prop "username" (PStr username) n.

(** [(u:User {username: $username, password: $password})] *)
Definition is_user_with (username password : string) (n : Node) : bool :=
  is_user username n && has_prop "password" (PStr password) n.

Definition update_where (p : Node -> bool) (f : Node -> Node) (g : Graph) : Graph :=
  mkGraph (map (fun n => if p n then f n else n) (nodes g)) (edges g) (next_id g).

Definition username_row (username : string) : Row := [("u.username", FStr username)].

(** [[
MERGE (u:User {username: $username})
ON CREATE SET u.password = $password,
            u.created_at = datetime(),
            u.last_active = datetime()
ON MATCH SET u.last_active = datetime()
RETURN u.username
]] [now] is the server's [datetime()]. *)
Definition merge_user (now : Z) (username password : string) (g : Graph)
  : Graph * list Row :=
  if existsb (is_user username) (nodes g) then
    (update_where (is_user username) (set_prop "last_active" (PTime now)) g,
     map (fun _ => username_row username) (filter (fun n => is_user username n) (nodes g)))
  else
    let u := mkNode (next_id g) ["User"]
      (<["username" := PStr username]>
       (<["password" := PStr password]>
        (<["created_at" := PTime now]>
         (<["last_active" := PTime now]> ∅)))) in
    (mkGraph (nodes g ++ [u]) (edges g) (S (next_id g)), [username_row username]).

(** [[
MATCH (u:User {username: $username, password: $password})
SET u.last_active = datetime()
RETURN u.username
]] *)
Definition match_user_set_active (now : Z) (username password : string) (g : Graph)
  : Graph * list Row :=
  (update_where (is_user_with username password) (set_prop "last_active" (PTime now)) g,
   map (fun _ => username_row username)
       (filter (fun n => is_user_with username password n) (nodes g))).

(** [MATCH (u:User {username: $username}) CREATE (u)-[:rel]->(n:label props)],
    once per matched user node. *)
Definition create_linked (username rel label : string) (props : gmap string Prim)
    (g : Graph) : Graph :=
  fold_left
    (fun g' u =>
       mkGraph (nodes g' ++ [mkNode (next_id g') [label] props])
               (edges g' ++ [mkEdge (node_id u) rel (next_id g')])
               (S (next_id g')))
    (filter (fun n => is_user username n) (nodes g)) g.

(** [[
MATCH (u:User {username: $username})
CREATE (m:Memory {text: $text, timestamp: $timestamp})
CREATE (u)-[:REMEMBERS]->(m)
]] *)
Definition create_memory (username text : string) (timestamp : Z) (g : Graph)
  : Graph * list Row :=
  (create_linked username "REMEMBERS" "Memory"
     (<["text" := PStr text]> (<["timestamp" := PTime timestamp]> ∅)) g, []).

(** [[
MATCH (u:User {username: $username})
CREATE (u)-[:INTERESTED_IN]->(n:Preference {text: $text})
]] *)
Definition create_interest (username text : string) (g : Graph) : Graph * list Row :=
  (create_linked username "INTERESTED_IN" "Preference" (<["text" := PStr text]> ∅) g, []).

(** The distinct nodes labelled [label] that [u] reaches by a [rel] edge. *)
Definition linked (g : Graph) (u : Node) (rel label : string) : list Node :=
  filter
    (fun n =>
       has_label label n = true ∧
       existsb (fun e => bool_decide (edge_src e = node_id u ∧ edge_type e = rel ∧
                                       edge_dst e = node_id n)) (edges g) = true)
    (nodes g).

(** The record of one matched user node [u]. *)
Definition preferences_row (g : Graph) (u : Node) : Row :=
  [("u", FNode u);
   ("preferences", FNodes (linked g u "HAS_PREFERENCE" "Preference"));
   ("visited_cities", FNodes (linked g u "VISITED" "City"));
   ("interests", FNodes (linked g u "INTERESTED_IN" "Activity"))].

(** [[
MATCH (u:User {username: $username})
OPTIONAL MATCH (u)-[:HAS_PREFERENCE]->(p:Preference)
OPTIONAL MATCH (u)-[:VISITED]->(c:City)
OPTIONAL MATCH (u)-[:INTERESTED_IN]->(a:Activity)
RETURN u, collect(distinct p) as preferences,
       collect(distinct c) as visited_cities,
       collect(distinct a) as interests
]] one record per matched user node; it writes nothing. *)
Definition collect_preferences (username : string) (g : Graph) : Graph * list Row :=
  (g, map (preferences_row g) (filter (fun n => is_user username n) (nodes g))).

(** ** The process state *)

(** [self.driver]: the graph it is connected to, and what the next calls
    meet there: [Some e] makes a call raise [e], [None] (or no entry) lets
    it reach the server. A call that raises leaves the graph as it was. *)
Record Driver := mkDriver {
  graph : Graph;
  faults : list (option Exception) }.

(** Stand-ins for the objects [initialize] builds. *)
Inductive SchemaConfig := schema_config.
Inductive Text2CypherRetriever := text2cypher_retriever.

(** An attribute that [__init__] does not set is [None] until assigned. *)
Record MemoryAgent := mkMemoryAgent {
  driver : Driver;
  user_sessions : gmap string Z;
  session_timeout : Z;
  schema : option SchemaConfig;
  retriever : option Text2CypherRetriever }.

(** [st.session_state], without the chat lists. *)
Module st.

Record SessionState := mkSessionState {
  memory_agent : MemoryAgent;
  authenticated : bool;
  username : option string;
  session_token : option string }.

End st.

Record World := mkWorld {
  session_state : st.SessionState;
  stdout : list string }.

Definition agent (w : World) : MemoryAgent := st.memory_agent (session_state w).

Definition set_agent (a : MemoryAgent) (w : World) : World :=
  mkWorld (st.mkSessionState a (st.authenticated (session_state w))
             (st.username (session_state w)) (st.session_token (session_state w)))
          (stdout w).

Definition set_driver (d : Driver) (a : MemoryAgent) : MemoryAgent :=
  mkMemoryAgent d (user_sessions a) (session_timeout a) (schema a) (retriever a).

Definition set_user_sessions (t : gmap string Z) (a : MemoryAgent) : MemoryAgent :=
  mkMemoryAgent (driver a) t (session_timeout a) (schema a) (retriever a).

Definition timedelta_hours (h : Z) : Z := h * 3600 * 1000000.

(** [MemoryAgent.__init__] *)
Definition MemoryAgent_init (d : Driver) : MemoryAgent :=
  mkMemoryAgent d ∅ (timedelta_hours 24) None None.

(** [MemoryAgent.initialize], when the schema builder returns. *)
Definition initialize (a : MemoryAgent) : MemoryAgent :=
  mkMemoryAgent (driver a) (user_sessions a) (session_timeout a)
                (Some schema_config) (Some text2cypher_retriever).

Definition print (line : string) : M World unit :=
  fun w => (Return tt, mkWorld (session_state w) (stdout w ++ [line])).

(** The parameters of [q] that the keyword arguments [kwargs] leave unbound. *)
Definition missing_parameters (q : Cypher) (kwargs : list string) : list string :=
  List.filter (fun name => negb (bool_decide (name ∈ kwargs))) (parameters q).

(** [str(e)] of the [ClientError] with which the server refuses a query. *)
Definition ParameterMissing (names : list string) : Exception :=
  mkException "ClientError"
    ("{code: Neo.ClientError.Statement.ParameterMissing} {message: Expected parameter(s): "
     +:+ String.concat ", " names +:+ "}").

(** [self.driver.execute_query(query, **kwargs)] on the driver that
    [__init__] builds with [GraphDatabase.driver]: it is synchronous and
    returns an [EagerResult]. Its keyword arguments, the driver's own
    ([database_]) apart, are sent as the parameters of the query under
    their names, here [kwargs]; the server refuses a query that names a
    parameter which is not among them. *)
Definition execute_query (q : Cypher) (kwargs : list string) : M World EagerResult :=
  fun w =>
    let d := driver (agent w) in
    match faults d with
    | Some e :: rest =>
        (Raise e, set_agent (set_driver (mkDriver (graph d) rest) (agent w)) w)
    | _ =>
        match missing_parameters q kwargs with
        | [] =>
            let '(g', rows) := effect q (graph d) in
            (Return (mkEagerResult rows),
             set_agent (set_driver (mkDriver g' (tail (faults d))) (agent w)) w)
        | name :: names =>
            (Raise (ParameterMissing (name :: names)),
             set_agent (set_driver (mkDriver (graph d) (tail (faults d))) (agent w)) w)
        end
    end.

(** A call whose result or exception is given. *)
Definition outcome {S A} (r : Result A) : M S A := fun s => (r, s).

Definition modify {S} (f : S -> S) : M S unit := fun s => (Return tt, f s).

(** An update of [self.user_sessions] in place. *)
Definition modify_sessions (f : gmap string Z -> gmap string Z) : M World unit :=
  modify (fun w => set_agent (set_user_sessions (f (user_sessions (agent w))) (agent w)) w).

(** ** MemoryAgent: users and sessions *)

Definition _hash_password (password : string) : string := SHA256.hexdigest password.

(** [create_user]; [now] is the server's [datetime()]. *)
Definition create_user (now : Z) (username password : string) : M World bool :=
  let hashed_password := _hash_password password in
  try_except
    (result ← execute_query
                (mkCypher ["username"; "password"] (merge_user now username hashed_password))
                ["username"; "password"];
     mret (if result_truthy result then truthy (records result) else false))
    (fun e => print ("Error creating user: " +:+ exc_str e);; mret false).

(** [authenticate_user]; [db_now] is the server's [datetime()], [token] the
    value [secrets.token_urlsafe(32)] draws and [now] what [datetime.now()]
    reads, both used only on success. *)
Definition authenticate_user (db_now : Z) (token : string) (now : Z)
    (username password : string) : M World (option string) :=
  let hashed_password := _hash_password password in
  try_except
    (result ← execute_query
                (mkCypher ["username"; "password"]
                          (match_user_set_active db_now username hashed_password))
                ["username"; "password"];
     if result_truthy result && truthy (records result) then
       let session_token := token in
       modify_sessions (insert session_token now);;
       mret (Some session_token)
     else mret None)
    (fun e => print ("Authentication error: " +:+ exc_str e);; mret None).

(** [validate_session]; [now] is what [datetime.now()] reads. *)
Definition validate_session (now : Z) (session_token : string) : M World bool :=
  fun w =>
    match user_sessions (agent w) !! session_token with
    | None => (Return false, w)
    | Some session_time =>
        if bool_decide (now - session_time > session_timeout (agent w)) then
          (modify_sessions (delete session_token);; mret false) w
        else (Return true, w)
    end.

(** ** MemoryAgent: memories and preferences *)

(** What the entity extractor returns: nodes with their [properties]
    (in insertion order) and relationships (by their [str]). *)
Record Entity := mkEntity { properties : list (string * string) }.
Record Relationship := mkRelationship { rel_str : string }.
Record Neo4jGraph := mkNeo4jGraph {
  graph_nodes : list Entity;
  graph_relationships : list Relationship }.

(** One dict of [extracted_data]: the keys it has, with their values. *)
Record Data := mkData {
  data_entities : option (list Entity);
  data_relationships : option (list Relationship) }.

Definition AttributeError (name : string) : Exception :=
  mkException "AttributeError" ("'MemoryAgent' object has no attribute '" +:+ name +:+ "'").

Definition KeyError (key : string) : Exception :=
  mkException "KeyError" (repr_str key).

Definition TypeError (msg : string) : Exception := mkException "TypeError" msg.

Definition UnboundLocalError (name : string) : Exception :=
  mkException "UnboundLocalError"
    ("cannot access local variable '" +:+ name +:+ "' where it is not associated with a value").

(** [self.name], for an attribute set outside [__init__]. *)
Definition getattr {A} (field : MemoryAgent -> option A) (name : string) : M World A :=
  fun w =>
    match field (agent w) with
    | Some v => (Return v, w)
    | None => (Raise (AttributeError name), w)
    end.

(** [extract_preferences]; [run] is the outcome of [await extractor.run(...)]. *)
Definition extract_preferences (run : Result Neo4jGraph) (username text : string)
  : M World (list Data) :=
  _ ← getattr schema "schema";
  result ← outcome run;
  let extracted_data := [] in
  let extracted_data :=
    if truthy (graph_nodes result)
    then extracted_data ++ [mkData (Some (graph_nodes result)) None]
    else extracted_data in
  let extracted_data :=
    if truthy (graph_relationships result)
    then extracted_data ++ [mkData None (Some (graph_relationships result))]
    else extracted_data in
  mret extracted_data.

(** Local variables of a call, next to the process state. *)
Definition lift {L A} (m : M World A) : M (L * World) A :=
  fun lw =>
    match m (snd lw) with
    | (r, w') => (r, (fst lw, w'))
    end.

Definition set_local {L} (l : L) : M (L * World) unit :=
  fun lw => (Return tt, (l, snd lw)).

Definition get_local {L} : M (L * World) L :=
  fun lw => (Return (fst lw), lw).

Definition with_locals {L A} (init : L) (m : M (L * World) A) : M World A :=
  fun w =>
    match m (init, w) with
    | (r, lw') => (r, snd lw')
    end.

Definition nl : string := String "010"%char "".

Definition interest_query : string :=
  nl +:+ "                        MATCH (u:User {username: $username}) " +:+
  nl +:+ "                        CREATE (u)-[:INTERESTED_IN]->(n:Preference {text: $text})" +:+
  nl +:+ "                        ".

(** The local [params] of [_store_preferences]: unbound until assigned. *)
Definition Params : Type := option (list (string * string)).

(** [for entity in data['entities']: ...]. The call passes the dict as
    the keyword argument [parameters=params], so the query is sent with
    one parameter, named [parameters]. *)
Fixpoint store_entities (username : string) (entities : list Entity)
  : M (Params * World) unit :=
  match entities with
  | [] => mret tt
  | entity :: rest =>
      lift (print (nl +:+ "--- Debug Info ---"));;
      lift (print ("Username: " +:+ username));;
      lift (print ("Entity properties: " +:+ repr_dict (properties entity)));;
      text ← match assoc "text" (properties entity) with
             | Some v => mret v
             | None => raise (KeyError "text")
             end;
      let params := [("username", username); ("text", text)] in
      set_local (Some params);;
      lift (print ("Query: " +:+ interest_query));;
      lift (print ("Parameters: " +:+ repr_dict params));;
      lift (execute_query (mkCypher ["username"; "text"] (create_interest username text))
                          ["parameters"]);;
      store_entities username rest
  end.

(** [for rel in data['relationships']: print(...)] *)
Fixpoint print_relationships (rels : list Relationship) : M World unit :=
  match rels with
  | [] => mret tt
  | rel :: rest =>
      print ("Processing relationship: " +:+ rel_str rel);;
      print_relationships rest
  end.

(** [for data in extracted_data: ...] *)
Fixpoint store_data (username : string) (extracted_data : list Data)
  : M (Params * World) unit :=
  match extracted_data with
  | [] => mret tt
  | data :: rest =>
      match data_entities data with
      | Some entities => store_entities username entities
      | None => mret tt
      end;;
      match data_relationships data with
      | Some rels => lift (print_relationships rels)
      | None => mret tt
      end;;
      store_data username rest
  end.

(** [_store_preferences]. The handler reads [params], which is unbound
    when the failure came before its first assignment.
    [traceback.print_exc()] writes to stderr. *)
Definition _store_preferences (username : string) (extracted_data : list Data)
  : M World unit :=
  with_locals (None : Params)
    (try_except
       (store_data username extracted_data)
       (fun e =>
          lift (print ("Error storing preferences: " +:+ exc_str e));;
          params ← get_local;
          match params with
          | Some ps => lift (print ("Parameters that were attempted: " +:+ repr_dict ps))
          | None => raise (UnboundLocalError "params")
          end)).

(** [store_user_memory]: first the body of its [try], then the whole;
    [run] is the outcome of the extractor and [now] what [datetime.now()]
    reads. *)
Definition store_user_memory_try (run : Result Neo4jGraph) (now : Z)
    (username text : string) : M World unit :=
  extracted_data ← extract_preferences run username text;
  _ ← getattr retriever "retriever";
  let timestamp := now in
  execute_query (mkCypher ["username"; "text"; "timestamp"]
                          (create_memory username text timestamp))
                ["username"; "text"; "timestamp"];;
  if truthy extracted_data
  then _store_preferences username extracted_data
  else mret tt.

Definition store_user_memory (run : Result Neo4jGraph) (now : Z) (username text : string)
  : M World unit :=
  try_except
    (store_user_memory_try run now username text)
    (fun e => print ("Error storing memory: " +:+ exc_str e)).

(** A Python dict with [str] keys whose values are lists of property dicts. *)
Abbreviation Preferences := (gmap string (list (gmap string Prim))).

#[global] Instance Result_ret : MRet Result := fun A a => Return a.

#[global] Instance Result_bind : MBind Result := fun A B f r =>
  match r with
  | Return a => f a
  | Raise e => Raise e
  end.

(** [record[key]] where [record] is a list: a list is not indexed by a
    [str]. *)
Definition list_getitem (key : string) (record : list Row) : Result (list Node) :=
  Raise (TypeError "list indices must be integers or slices, not str").

(** [[dict(p) for p in record[key]]] *)
Definition dicts_of (key : string) (record : list Row) : Result (list (gmap string Prim)) :=
  field ← list_getitem key record;
  Return (map node_props field).

(** [_format_preferences], on the [EagerResult] that [execute_query]
    returns: [result[0]] is the list of its records. *)
Definition _format_preferences (result : EagerResult) : Result Preferences :=
  if negb (result_truthy result) || negb (truthy (records result)) then Return ∅
  else
    let record := records result in
    preferences ← dicts_of "preferences" record;
    visited_cities ← dicts_of "visited_cities" record;
    interests ← dicts_of "interests" record;
    Return (<["preferences" := preferences]>
            (<["visited_cities" := visited_cities]>
             (<["interests" := interests]> ∅))).

Definition not_awaitable : Exception :=
  TypeError "object EagerResult can't be used in 'await' expression".

(** [await result], where [result] is what the synchronous driver
    returned: an [EagerResult] is no awaitable. *)
Definition await (result : EagerResult) : M World EagerResult := raise not_awaitable.

(** [get_user_preferences]: the call of the driver is evaluated first,
    then awaited. *)
Definition get_user_preferences (username : string) : M World Preferences :=
  result ← (returned ← execute_query (mkCypher ["username"] (collect_preferences username))
                                     ["username"];
            await returned);
  outcome (_format_preferences result).

(** ** The login, signup and logout paths of the UI *)

Definition set_login (name token : string) (w : World) : World :=
  mkWorld (st.mkSessionState (agent w) true (Some name) (Some token)) (stdout w).

(** [handle_login] *)
Definition handle_login (db_now : Z) (token : string) (now : Z)
    (username password : string) : M World bool :=
  session_token ← authenticate_user db_now token now username password;
  match session_token with
  | Some t =>
      if bool_decide (t = "") then mret false
      else modify (set_login username t);; mret true
  | None => mret false
  end.

(** [handle_signup]; [db_now0] is the server's clock at [create_user]. *)
Definition handle_signup (db_now0 db_now : Z) (token : string) (now : Z)
    (username password : string) : M World bool :=
  success ← create_user db_now0 username password;
  if (success : bool) then handle_login db_now token now username password
  else mret false.

(** The body of [if st.button("Logout"):] in [chat_interface]. *)
Definition logout : M World unit :=
  modify (fun w => mkWorld (st.mkSessionState (agent w) false None None) (stdout w)).

(** ** Vocabulary of the statements *)

Definition graph_of (w : World) : Graph := graph (driver (agent w)).

Definition sessions_of (w : World) : gmap string Z := user_sessions (agent w).

(** The next [n] calls of the driver reach the server: none of them
    meets a fault. *)
Definition answers (n : nat) (w : World) : bool :=
  forallb (fun f => match f with None => true | Some _ => false end)
          (take n (faults (driver (agent w)))).

(** What the call of the driver in [_store_preferences] meets in [w]: the
    fault that is next, or else the refusal of the server. *)
Definition refusal (w : World) : Exception :=
  match faults (driver (agent w)) with
  | Some e :: _ => e
  | _ => ParameterMissing ["username"; "text"]
  end.

(** The state after a call of the driver that ran and left the graph [g']. *)
Definition after_query (g' : Graph) (w : World) : World :=
  set_agent (set_driver (mkDriver g' (tail (faults (driver (agent w))))) (agent w)) w.

(** The state after a call of the driver that raised: a fault, or a query
    that the server refused. *)
Definition after_fault (w : World) : World :=
  set_agent (set_driver (mkDriver (graph_of w) (tail (faults (driver (agent w)))))
                        (agent w)) w.

Definition with_sessions (t : gmap string Z) (w : World) : World :=
  set_agent (set_user_sessions t (agent w)) w.

Definition with_line (line : string) (w : World) : World :=
  mkWorld (session_state w) (stdout w ++ [line]).

Definition user_exists (username : string) (g : Graph) : bool :=
  existsb (is_user username) (nodes g).

(** Some user node carries this name and the digest of this password. *)
Definition credentials_match (username password : string) (g : Graph) : bool :=
  existsb (is_user_with username (_hash_password password)) (nodes g).

(** The session timeout is the one [__init__] sets. *)
Definition configured (w : World) : Prop :=
  session_timeout (agent w) = timedelta_hours 24.

(** A token of the table that [validate_session] still accepts at [now]. *)
Definition unexpired (now : Z) (token : string) (w : World) : Prop :=
  exists issued, sessions_of w !! token = Some issued /\
                 ~ (now - issued > session_timeout (agent w)).

(** The relationship types [get_user_preferences] follows. *)
Definition fact_edge_types : list string := ["HAS_PREFERENCE"; "VISITED"; "INTERESTED_IN"].

(** No edge of these types leaves a node of this user. *)
Definition no_recorded_facts (username : string) (g : Graph) : bool :=
  forallb
    (fun e =>
       negb (bool_decide (edge_type e ∈ fact_edge_types) &&
             existsb (fun n => is_user username n && bool_decide (edge_src e = node_id n))
                     (nodes g)))
    (edges g).

Definition user_count (username : string) (g : Graph) : nat :=
  length (filter (fun n => is_user username n) (nodes g)).

Definition preference_count (g : Graph) : nat :=
  length (filter (fun n => has_label "Preference" n) (nodes g)).

(** The [INTERESTED_IN] edges that leave a node of this user. *)
Definition interest_count (username : string) (g : Graph) : nat :=
  length (filter
            (fun e => bool_decide (edge_type e = "INTERESTED_IN") &&
                      existsb (fun n => is_user username n &&
                                        bool_decide (edge_src e = node_id n)) (nodes g))
            (edges g)).

(** An [INTERESTED_IN] edge that leaves a node of this user in [g]. *)
Definition interest_edge (username : string) (g : Graph) (e : Edge) : Prop :=
  edge_type e = "INTERESTED_IN" /\
  exists u, u ∈ nodes g /\ is_user username u = true /\ edge_src e = node_id u.

(** [g'] is [g] with [m] more nodes, all labelled [Preference] and numbered
    from [next_id g] on, and [m] more edges, each an [INTERESTED_IN] edge
    from a node of the user to one of the new nodes. *)
Definition extends_by (username : string) (m : nat) (g g' : Graph) : Prop :=
  exists new newe,
    nodes g' = nodes g ++ new /\ edges g' = edges g ++ newe /\
    next_id g' = (next_id g + m)%nat /\
    map node_id new = seq (next_id g) m /\
    Forall (fun n => node_labels n = ["Preference"]) new /\
    map edge_dst newe = seq (next_id g) m /\
    Forall (interest_edge username g) newe.

(** Node ids are unique and below the counter of the graph. *)
Definition wf_graph (g : Graph) : Prop :=
  NoDup (map node_id (nodes g)) /\
  Forall (fun n => (node_id n < next_id g)%nat) (nodes g).

(** The ways [authenticate_user] fails: the user exists under another
    password digest, no such user exists, or the call of the driver raises. *)
Inductive AuthFailure :=
| WrongPassword
| MissingUser
| BackendFailure (e : Exception).

Definition auth_failure (f : AuthFailure) (username password : string) (w : World) : Prop :=
  match f with
  | WrongPassword =>
      answers 1 w = true /\ user_exists username (graph_of w) = true /\
      credentials_match username password (graph_of w) = false
  | MissingUser =>
      answers 1 w = true /\ user_exists username (graph_of w) = false
  | BackendFailure e =>
      exists rest, faults (driver (agent w)) = Some e :: rest
  end.

(** ** Further vocabulary *)

Definition hex_alphabet : list ascii := list_ascii_of_string "0123456789abcdef".

(** Both ends of every edge are ids the graph has handed out. *)
Definition edges_closed (g : Graph) : Prop :=
  Forall (fun e => (edge_src e < next_id g)%nat /\ (edge_dst e < next_id g)%nat) (edges g).

(** No username has two User nodes. *)
Definition unique_users (g : Graph) : Prop :=
  forall name, (user_count name g <= 1)%nat.

Definition graph_ok (g : Graph) : Prop :=
  wf_graph g /\ edges_closed g /\ unique_users g.

(** [g'] is [g] with more nodes, none of them a User node and all numbered
    from [next_id g] on, and more edges, each from a node of [g'] to one of
    the new nodes. *)
Definition appended (g g' : Graph) : Prop :=
  exists new newe,
    nodes g' = nodes g ++ new /\ edges g' = edges g ++ newe /\
    next_id g' = (next_id g + length new)%nat /\
    map node_id new = seq (next_id g) (length new) /\
    Forall (fun n => has_label "User" n = false) new /\
    Forall (fun e => (exists u, u ∈ nodes g' /\ edge_src e = node_id u) /\
                     (next_id g <= edge_dst e < next_id g')%nat) newe.

(** [w'] differs from [w] at most in the driver and in what was printed. *)
Definition same_sessions_and_ui (w w' : World) : Prop :=
  user_sessions (agent w') = user_sessions (agent w) /\
  session_timeout (agent w') = session_timeout (agent w) /\
  schema (agent w') = schema (agent w) /\
  retriever (agent w') = retriever (agent w) /\
  st.authenticated (session_state w') = st.authenticated (session_state w) /\
  st.username (session_state w') = st.username (session_state w) /\
  st.session_token (session_state w') = st.session_token (session_state w).

(** The entities of [extracted_data], in the order the loops visit them. *)
Definition all_entities (extracted_data : list Data) : list Entity :=
  flat_map (fun data => default [] (data_entities data)) extracted_data.

(** One call of a method of the agent or of a handler of the UI, with
    what the environment gives it. *)
Inductive Call :=
| CallCreateUser (now : Z) (username password : string)
| CallAuthenticateUser (db_now : Z) (token : string) (now : Z) (username password : string)
| CallValidateSession (now : Z) (token : string)
| CallGetUserPreferences (username : string)
| CallStoreUserMemory (run : Result Neo4jGraph) (now : Z) (username text : string)
| CallStorePreferences (username : string) (extracted_data : list Data)
| CallHandleLogin (db_now : Z) (token : string) (now : Z) (username password : string)
| CallHandleSignup (db_now0 db_now : Z) (token : string) (now : Z)
                   (username password : string)
| CallLogout.

(** The state a call leaves, whether it returned or raised. *)
Definition run_call (c : Call) (w : World) : World :=
  match c with
  | CallCreateUser now u p => snd (create_user now u p w)
  | CallAuthenticateUser db_now token now u p =>
      snd (authenticate_user db_now token now u p w)
  | CallValidateSession now token => snd (validate_session now token w)
  | CallGetUserPreferences u => snd (get_user_preferences u w)
  | CallStoreUserMemory run now u text => snd (store_user_memory run now u text w)
  | CallStorePreferences u data => snd (_store_preferences u data w)
  | CallHandleLogin db_now token now u p => snd (handle_login db_now token now u p w)
  | CallHandleSignup db_now0 db_now token now u p =>
      snd (handle_signup db_now0 db_now token now u p w)
  | CallLogout => snd (logout w)
  end.

Definition run_calls (calls : list Call) (w : World) : World :=
  fold_left (fun w' c => run_call c w') calls w.

(** The calls that may bind [token] in the session table. *)
Definition draws (token : string) (c : Call) : bool :=
  match c with
  | CallAuthenticateUser _ t _ _ _ => bool_decide (t = token)
  | CallHandleLogin _ t _ _ _ => bool_decide (t = token)
  | CallHandleSignup _ _ t _ _ _ => bool_decide (t = token)
  | _ => false
  end.

(** Login attempts with one username and password; each has its clock
    readings and its token. *)
Definition attempts (username password : string) (tries : list (Z * string * Z))
  : list Call :=
  map (fun a => CallAuthenticateUser (fst (fst a)) (snd (fst a)) (snd a) username password)
      tries.

(** The state [w] with a graph store that meets [fs] on its next calls. *)
Definition with_faults (fs : list (option Exception)) (w : World) : World :=
  set_agent (set_driver (mkDriver (graph_of w) fs) (agent w)) w.
(** ** str.lower and the [in] operator on strings *)

(** [str.lower], on the ASCII letters; other bytes are kept. *)
Definition lower_char (c : ascii) : ascii :=
  let n := N_of_ascii c in
  if (65 <=? n)%N && (n <=? 90)%N then ascii_of_N (n + 32) else c.

Fixpoint lower (s : string) : string :=
  match s with
  | EmptyString => EmptyString
  | String c s' => String (lower_char c) (lower s')
  end.

(** [needle in hay] *)
Fixpoint contains (needle hay : string) : bool :=
  String.prefix needle hay ||
  match hay with
  | EmptyString => false
  | String _ rest => contains needle rest
  end.

(** ** main.py: the reply to a message *)

Definition weather_keywords : list string :=
  ["weather"; "temperature"; "rain"; "sunny"; "forecast";
   "hot"; "cold"; "climate"; "humidity"].

(** [any(keyword in message.lower() for keyword in weather_keywords)] *)
Definition is_weather_query (message : string) : bool :=
  existsb (fun keyword => contains keyword (lower message)) weather_keywords.

(** The reply
    [f"I understand your message. Based on your preferences: {preferences}"],
    kept as the value it formats. *)
Inductive Response :=
| BasedOnPreferences (preferences : Preferences).

(** Reading [st.session_state.name] for a key that was never set. *)
Definition session_state_missing (name : string) : Exception :=
  mkException "AttributeError" ("st.session_state has no attribute " +:+ name).

Definition get {S} : M S S := fun s => (Return s, s).

(** [get_user_preferences(None)]: the pattern [{username: null}] matches
    no node, so the query returns no record. *)
Definition collect_preferences_null (g : Graph) : Graph * list Row := (g, []).

(** [process_message]. Nothing in [main.py] sets
    [st.session_state.weather_agent] (its initialisation in [init_agents]
    is commented out), so reading it raises. *)
Definition process_message (message : string) : M World Response :=
  w ← get;
  let username := st.username (session_state w) in
  if is_weather_query message then
    raise (session_state_missing "weather_agent")
  else
    preferences ← match username with
                  | Some name => get_user_preferences name
                  | None =>
                      result ← (returned ← execute_query
                                              (mkCypher ["username"] collect_preferences_null)
                                              ["username"];
                                await returned);
                      outcome (_format_preferences result)
                  end;
    mret (BasedOnPreferences preferences).

(** ** main.py: the forms of the login page *)

Inductive Notice :=
| Success (text : string)
| Error (text : string).

(** What a run of the script shows of the notices, and whether it ends in
    [st.rerun()]. *)
Record Outcome := mkOutcome { notice : option Notice; rerun : bool }.

Definition nonempty (s : string) : bool := negb (bool_decide (s = "")).

(** The login form of [login_page]; [submit] is what
    [st.form_submit_button("Login")] returns. *)
Definition login_form (db_now : Z) (token : string) (now : Z)
    (submit : bool) (username password : string) : M World Outcome :=
  if submit && nonempty username && nonempty password then
    ok ← handle_login db_now token now username password;
    if (ok : bool)
    then mret (mkOutcome (Some (Success "Login successful!")) true)
    else mret (mkOutcome (Some (Error "Invalid username or password")) false)
  else mret (mkOutcome None false).

(** The signup form of [login_page]. *)
Definition signup_form (db_now0 db_now : Z) (token : string) (now : Z)
    (submit : bool) (new_username new_password confirm_password : string)
  : M World Outcome :=
  if submit then
    if negb (bool_decide (new_password = confirm_password)) then
      mret (mkOutcome (Some (Error "Passwords don't match")) false)
    else if negb (nonempty new_username) || negb (nonempty new_password) then
      mret (mkOutcome (Some (Error "Please fill all fields")) false)
    else
      ok ← handle_signup db_now0 db_now token now new_username new_password;
      if (ok : bool)
      then mret (mkOutcome (Some (Success "Account created successfully!")) true)
      else mret (mkOutcome (Some (Error "Error creating account")) false)
  else mret (mkOutcome None false).

(** ** main.py: the chat page *)

Inductive Content :=
| Text (text : string)
| Reply (response : Response).

Record Message := mkMessage { role : string; content : Content }.

(** The chat lists of [st.session_state]. Python lists are objects:
    [lists] maps each list object to its elements, [current_chat] is the
    object the session state holds, and each entry of [chat_history] is a
    date with the object its [messages] key holds. *)
Record Chats := mkChats {
  lists : gmap nat (list Message);
  next_list : nat;
  current_chat : nat;
  chat_history : list (string * nat) }.

Record Ui := mkUi { world : World; chats : Chats }.

(** [init_session_state] on a new session: two empty lists. *)
Definition init_chats : Chats := mkChats (<[0%nat := []]> ∅) 1 0 [].

Definition on_world {A} (m : M World A) : M Ui A :=
  fun ui =>
    match m (world ui) with
    | (r, w') => (r, mkUi w' (chats ui))
    end.

(** The elements of a list object. *)
Definition elements_of (c : Chats) (l : nat) : list Message := default [] (lists c !! l).

(** A new list object with the elements [l]. *)
Definition new_list (l : list Message) : M Ui nat :=
  fun ui =>
    let c := chats ui in
    (Return (next_list c),
     mkUi (world ui)
          (mkChats (<[next_list c := l]> (lists c)) (S (next_list c))
                   (current_chat c) (chat_history c))).

(** [st.session_state.current_chat.append(m)] *)
Definition append_current (m : Message) : M Ui unit :=
  modify (fun ui =>
    let c := chats ui in
    mkUi (world ui)
         (mkChats (<[current_chat c := elements_of c (current_chat c) ++ [m]]> (lists c))
                  (next_list c) (current_chat c) (chat_history c))).

(** [st.session_state.current_chat = l] *)
Definition set_current (l : nat) : M Ui unit :=
  modify (fun ui =>
    let c := chats ui in
    mkUi (world ui) (mkChats (lists c) (next_list c) l (chat_history c))).

(** [st.session_state.chat_history.append({"date": date, "messages": l})] *)
Definition append_history (date : string) (l : nat) : M Ui unit :=
  modify (fun ui =>
    let c := chats ui in
    mkUi (world ui)
         (mkChats (lists c) (next_list c) (current_chat c) (chat_history c ++ [(date, l)]))).

(** What the widgets of one run of the script return: at most one of them
    is clicked or submitted. *)
Inductive Event :=
| EvNone
| EvLogin (username password : string)
| EvSignup (new_username new_password confirm_password : string)
| EvLogout
| EvNewChat
| EvOpenChat (idx : nat)
| EvPrompt (prompt : string).

(** What the environment gives one run. *)
Record Env := mkEnv {
  env_now : Z;
  env_db_now0 : Z;
  env_db_now : Z;
  env_token : string;
  env_date : string }.

(** [validate_session(st.session_state.session_token)]; [None] is no key of
    the session table. *)
Definition validate_stored_token (now : Z) : M World bool :=
  w ← get;
  match st.session_token (session_state w) with
  | Some t => validate_session now t
  | None => mret false
  end.

Definition set_authenticated (b : bool) : M World unit :=
  modify (fun w =>
    mkWorld (st.mkSessionState (agent w) b (st.username (session_state w))
                               (st.session_token (session_state w)))
            (stdout w)).

(** The chat input of [chat_interface], for a prompt that was submitted. *)
Definition chat_turn (date : string) (prompt : string) : M Ui Outcome :=
  append_current (mkMessage "user" (Text prompt));;
  ai_response ← on_world (process_message prompt);
  append_current (mkMessage "assistant" (Reply ai_response));;
  ui ← get;
  (if bool_decide (length (elements_of (chats ui) (current_chat (chats ui))) = 2%nat)
   then copy ← new_list (elements_of (chats ui) (current_chat (chats ui)));
        append_history date copy
   else mret tt);;
  mret (mkOutcome None true).

(** [chat_interface] *)
Definition chat_interface (env : Env) (ev : Event) : M Ui Outcome :=
  valid ← on_world (validate_stored_token (env_now env));
  if negb valid then
    on_world (set_authenticated false);;
    mret (mkOutcome None true)
  else
    match ev with
    | EvLogout => on_world logout;; mret (mkOutcome None true)
    | EvNewChat =>
        l ← new_list [];
        set_current l;;
        mret (mkOutcome None true)
    | EvOpenChat idx =>
        ui ← get;
        match chat_history (chats ui) !! idx with
        | Some chat => set_current (snd chat);; mret (mkOutcome None true)
        | None => mret (mkOutcome None false)
        end
    | EvPrompt prompt =>
        if nonempty prompt then chat_turn (env_date env) prompt
        else mret (mkOutcome None false)
    | _ => mret (mkOutcome None false)
    end.

(** [login_page] *)
Definition login_page (env : Env) (ev : Event) : M Ui Outcome :=
  match ev with
  | EvLogin username password =>
      on_world (login_form (env_db_now env) (env_token env) (env_now env)
                           true username password)
  | EvSignup new_username new_password confirm_password =>
      on_world (signup_form (env_db_now0 env) (env_db_now env) (env_token env)
                            (env_now env) true new_username new_password confirm_password)
  | _ => mret (mkOutcome None false)
  end.

(** [main], once the agent and the session state are initialised. *)
Definition main (env : Env) (ev : Event) : M Ui Outcome :=
  ui ← get;
  if negb (st.authenticated (session_state (world ui)))
  then login_page env ev
  else chat_interface env ev.

(** A sequence of runs of the script; a run that raises ends there. *)
Definition run_main (ui : Ui) (step : Env * Event) : Ui :=
  snd (main (fst step) (snd step) ui).

Definition runs (steps : list (Env * Event)) (ui : Ui) : Ui :=
  fold_left run_main steps ui.

(** ** agents.py: WeatherAgent.get_user_location_preferences *)

(** [i.get("type", "").lower()] *)
Definition type_lower (i : gmap string Prim) : Result string :=
  match i !! "type" with
  | None => Return (lower "")
  | Some (PStr s) => Return (lower s)
  | Some (PTime _) =>
      Raise (mkException "AttributeError" "'DateTime' object has no attribute 'lower'")
  end.

(** [[i for i in interests if "city" in i.get("type", "").lower()]] *)
Fixpoint city_interests (interests : list (gmap string Prim))
  : Result (list (gmap string Prim)) :=
  match interests with
  | [] => Return []
  | i :: rest =>
      t ← type_lower i;
      kept ← city_interests rest;
      Return (if contains "city" t then i :: kept else kept)
  end.

(** [get_user_location_preferences] *)
Definition get_user_location_preferences (username : string) : M World Preferences :=
  preferences ← get_user_preferences username;
  interests ← outcome (city_interests (default [] (preferences !! "interests")));
  mret (<["visited_cities" := default [] (preferences !! "visited_cities")]>
        (<["interests" := interests]> ∅)).

(** ** Vocabulary for the UI *)

(** The three login fields of the UI state. *)
Definition ui_fields (w : World) : bool * option string * option string :=
  (st.authenticated (session_state w), st.username (session_state w),
   st.session_token (session_state w)).



(** The chat lists after a turn: the user's message is appended to the
    current list object, then the reply, if there is one; and when that
    makes two elements, a new list object with these two elements is made
    and appended to the history under [date]. *)
Definition chats_after_turn (date : string) (user : Message) (reply : option Message)
    (c : Chats) : Chats :=
  let cur := current_chat c in
  let l := elements_of c cur in
  match reply with
  | None => mkChats (<[cur := l ++ [user]]> (lists c)) (next_list c) cur (chat_history c)
  | Some assistant =>
      let l' := (l ++ [user]) ++ [assistant] in
      if bool_decide (length l' = 2%nat)
      then mkChats (<[next_list c := l']> (<[cur := l']> (lists c))) (S (next_list c)) cur
                   (chat_history c ++ [(date, next_list c)])
      else mkChats (<[cur := l']> (lists c)) (next_list c) cur (chat_history c)
  end.

(** The chat page is shown at [now]: the UI is authenticated under a token
    that [validate_session] accepts. *)
Definition live_session (now : Z) (w : World) : Prop :=
  st.authenticated (session_state w) = true /\
  exists t, st.session_token (session_state w) = Some t /\ unexpired now t w.

(** What a turn of the chat appends to the current list object. *)
Definition turn_messages (prompt : string) (reply : Result Response) : list Message :=
  mkMessage "user" (Text prompt) ::
  match reply with
  | Return response => [mkMessage "assistant" (Reply response)]
  | Raise _ => []
  end.

(** The events that leave [st.session_state.current_chat] the object it is. *)
Definition keeps_current (ev : Event) : bool :=
  match ev with
  | EvNewChat | EvOpenChat _ => false
  | _ => true
  end.

(** The entry that a turn appends to [st.session_state.chat_history]: one,
    when the current list was empty and the reply came. *)
Definition saved_by_turn (date : string) (reply : Result Response) (c : Chats)
  : list (string * nat) :=
  match elements_of c (current_chat c), reply with
  | [], Return _ => [(date, next_list c)]
  | _, _ => []
  end.

(** [validate_session] refuses the token that the UI holds at [now]. *)
Definition dead_session (now : Z) (w : World) : Prop :=
  match st.session_token (session_state w) with
  | None => True
  | Some t =>
      match sessions_of w !! t with
      | None => True
      | Some issued => now - issued > session_timeout (agent w)
      end
  end.

(** The session table once [validate_session] has refused the UI's token. *)
Definition without_token (w : World) : gmap string Z :=
  match st.session_token (session_state w) with
  | None => sessions_of w
  | Some t => delete t (sessions_of w)
  end.

(** An interest dict that the comprehension of
    [get_user_location_preferences] keeps. *)
Definition city_typed (i : gmap string Prim) : bool :=
  match i !! "type" with
  | Some (PStr s) => contains "city" (lower s)
  | _ => false
  end.

(** The [type] of an interest dict, when it has one, is a string. *)
Definition type_is_str (i : gmap string Prim) : bool :=
  match i !! "type" with
  | Some (PTime _) => false
  | _ => true
  end.

(** ** The scenario of the specification *)

Definition empty_graph : Graph := mkGraph [] [] 0.

(** A process that has just built and initialised its agent. *)
Definition fresh_world : World :=
  mkWorld (st.mkSessionState (initialize (MemoryAgent_init (mkDriver empty_graph [])))
                             false None None) [].

(** After [handle_signup("alice", "s3cret")], which draws the token [T1]. *)
Definition alice_world : World :=
  snd (handle_signup 1000 1001 "T1" 1002 "alice" "s3cret" fresh_world).

(** The same state with a graph store that fails on the next call. *)
Definition outage (e : Exception) (w : World) : World :=
  set_agent (set_driver (mkDriver (graph_of w) [Some e]) (agent w)) w.

Definition ServiceUnavailable : Exception :=
  mkException "ServiceUnavailable" "Unable to retrieve routing information".

(** [[{"entities": [node]}]] with [node.properties = {"text": "likes hiking"}]. *)
Definition likes_hiking : list Data :=
  [mkData (Some [mkEntity [("text", "likes hiking")]]) None].

Definition two_facts : list Data :=
  [mkData (Some [mkEntity [("text", "likes hiking")];
                 mkEntity [("text", "likes museums")]]) None].

(** ** Further scenarios *)

(** What the extractor returns for a text about hiking. *)
Definition hiking_graph : Neo4jGraph :=
  mkNeo4jGraph [mkEntity [("text", "likes hiking")]] [].


Definition alice_ui : Ui := mkUi alice_world init_chats.

(** A run of the script at [now], in which a login would draw [token]. *)
Definition run_at (now : Z) (token : string) : Env :=
  mkEnv now now now token "2024-05-01 10:00".

(** A graph store that runs the next call and fails on the one after. *)
Definition failing_second : World :=
  with_faults [None; Some ServiceUnavailable] fresh_world.

(** * Properties *)

(** ** hashlib.sha256 on known digests *)

Example sha256_empty :
  SHA256.hexdigest "" = "e3b0c44298fc1c149afbf4c8996fb92427ae41e4649b934ca495991b7852b855".
Proof. vm_compute. reflexivity. Qed.

Example sha256_abc :
  SHA256.hexdigest "abc" = "ba7816bf8f01cfea414140de5dae2223b00361a396177a9cb410ff61f20015ad".
Proof. vm_compute. reflexivity. Qed.

Example sha256_two_blocks :
  SHA256.hexdigest "aaaaaaaaaaaaaaaaaaaaaaaaaaaaaaaaaaaaaaaaaaaaaaaaaaaaaaaaaaaaaaaaaaaaaa"
  = "6bd5e5034855a11241f0dee8fc72850ffd9955b28347a86428b5fa19119f6ad0".
Proof. vm_compute. reflexivity. Qed.


(** ** The monad and the driver *)

Lemma bind_run {S A B} (m : M S A) (f : A -> M S B) (s : S) :
  (m ≫= f) s =
  match m s with
  | (Return a, s') => f a s'
  | (Raise e, s') => (Raise e, s')
  end.
Proof. reflexivity. Qed.

Lemma try_except_no_raise {S A} (body : M S A) (handler : Exception -> M S A) (s : S) :
  (forall e s', exists a s'', handler e s' = (Return a, s'')) ->
  exists a s', try_except body handler s = (Return a, s').
Proof.
  intros Hh. unfold try_except.
  destruct (body s) as [[a|e] s']; [by eexists _, _ | apply Hh].
Qed.

Lemma answers_next n w :
  answers (S n) w = true ->
  (faults (driver (agent w)) = [] \/
   exists rest, faults (driver (agent w)) = None :: rest) /\
  forall g', answers n (after_query g' w) = true.
Proof.
  unfold answers, after_query. simpl.
  destruct (faults (driver (agent w))) as [|[e|] rest]; simpl; intros H.
  - split; [by left |]. intros _. by destruct n.
  - discriminate.
  - split; [right; by eexists | done].
Qed.

Lemma answers_after_query n g' w :
  answers (S n) w = true -> answers n (after_query g' w) = true.
Proof. intros H. apply answers_next in H as [_ H]. apply H. Qed.

Lemma execute_query_answers q kwargs w :
  answers 1 w = true -> missing_parameters q kwargs = [] ->
  execute_query q kwargs w =
  (Return (mkEagerResult (snd (effect q (graph_of w)))),
   after_query (fst (effect q (graph_of w))) w).
Proof.
  intros H Hbound. apply answers_next in H as [[H | [rest H]] _];
    unfold execute_query, after_query, graph_of; rewrite H, Hbound;
    by destruct (effect q (graph (driver (agent w)))).
Qed.

Lemma execute_query_refused q kwargs w name names :
  answers 1 w = true -> missing_parameters q kwargs = name :: names ->
  execute_query q kwargs w = (Raise (ParameterMissing (name :: names)), after_fault w).
Proof.
  intros H Hmissing. apply answers_next in H as [[H | [rest H]] _];
    unfold execute_query, after_fault, graph_of; by rewrite H, Hmissing.
Qed.

Lemma execute_query_fault q kwargs w e rest :
  faults (driver (agent w)) = Some e :: rest ->
  execute_query q kwargs w = (Raise e, after_fault w).
Proof.
  intros H. unfold execute_query, after_fault, graph_of. by rewrite H.
Qed.

Lemma answers_0 w : answers 0 w = true.
Proof. reflexivity. Qed.

Lemma answers_le n m w : (m <= n)%nat -> answers n w = true -> answers m w = true.
Proof.
  unfold answers. intros Hle H.
  rewrite forallb_forall in *. intros f Hf. apply H.
  apply list_elem_of_In in Hf. apply list_elem_of_In.
  apply list_elem_of_lookup in Hf as [i Hi]. apply list_elem_of_lookup. exists i.
  rewrite lookup_take_Some in Hi. destruct Hi as [Hi Hlt].
  rewrite lookup_take_Some. split; [done | lia].
Qed.

(** ** Sessions *)

Lemma validate_session_absent now token w :
  sessions_of w !! token = None -> validate_session now token w = (Return false, w).
Proof. unfold validate_session, sessions_of. by intros ->. Qed.

Lemma validate_session_expired now token issued w :
  sessions_of w !! token = Some issued ->
  now - issued > session_timeout (agent w) ->
  validate_session now token w = (Return false, with_sessions (delete token (sessions_of w)) w).
Proof.
  unfold validate_session, sessions_of. intros -> Hgt.
  by rewrite bool_decide_eq_true_2.
Qed.

Lemma validate_session_live now token issued w :
  sessions_of w !! token = Some issued ->
  ~ (now - issued > session_timeout (agent w)) ->
  validate_session now token w = (Return true, w).
Proof.
  unfold validate_session, sessions_of. intros -> Hle.
  by rewrite bool_decide_eq_false_2.
Qed.

Lemma sessions_of_with_sessions t w : sessions_of (with_sessions t w) = t.
Proof. reflexivity. Qed.

Lemma timedelta_24h : timedelta_hours 24 = 86400000000.
Proof. reflexivity. Qed.

(** C3: [validate_session] returns false on a token that is not in the
    session table (so on one never issued); on a token of the table whose
    age [now - issued] exceeds the 24 hour timeout it deletes the entry,
    touches nothing else, and returns false; otherwise it returns true. *)
Theorem validate_session_spec (now : Z) (token : string) (w : World) :
  configured w ->
  (sessions_of w !! token = None ->
   validate_session now token w = (Return false, w)) /\
  (forall issued, sessions_of w !! token = Some issued ->
     now - issued > timedelta_hours 24 ->
     exists w', validate_session now token w = (Return false, w') /\
       sessions_of w' = delete token (sessions_of w) /\
       sessions_of w' !! token = None /\
       (forall other, other <> token -> sessions_of w' !! other = sessions_of w !! other) /\
       driver (agent w') = driver (agent w) /\ stdout w' = stdout w) /\
  (forall issued, sessions_of w !! token = Some issued ->
     now - issued <= timedelta_hours 24 ->
     validate_session now token w = (Return true, w)).
Proof.
  unfold configured. intros Hcfg. repeat split.
  - apply validate_session_absent.
  - intros issued Hin Hgt.
    exists (with_sessions (delete token (sessions_of w)) w). repeat split.
    + apply (validate_session_expired _ _ issued); [done | by rewrite Hcfg].
    + rewrite sessions_of_with_sessions. apply lookup_delete_eq.
    + intros other Hne. rewrite sessions_of_with_sessions. by apply lookup_delete_ne.
  - intros issued Hin Hle.
    apply (validate_session_live _ _ issued); [done | rewrite Hcfg; lia].
Qed.

(** C8: on a token of the table that has not expired, [validate_session]
    returns true and leaves the whole state as it was: the issue time of
    the token is not refreshed, and a later validation is decided by the
    time since issuance whatever validations came in between. *)
Theorem validate_session_no_refresh (now : Z) (token : string) (issued : Z) (w : World) :
  sessions_of w !! token = Some issued ->
  ~ (now - issued > session_timeout (agent w)) ->
  validate_session now token w = (Return true, w) /\
  sessions_of (snd (validate_session now token w)) = sessions_of w /\
  sessions_of (snd (validate_session now token w)) !! token = Some issued /\
  forall later,
    fst (validate_session later token (snd (validate_session now token w)))
    = Return (bool_decide (later - issued <= session_timeout (agent w))).
Proof.
  intros Hin Hle.
  rewrite (validate_session_live _ _ _ _ Hin Hle). simpl.
  repeat split; [done |]. intros later.
  destruct (decide (later - issued > session_timeout (agent w))) as [Hgt | Hngt].
  - rewrite (validate_session_expired _ _ _ _ Hin Hgt). simpl.
    rewrite bool_decide_eq_false_2; [done | lia].
  - rewrite (validate_session_live _ _ _ _ Hin Hngt). simpl.
    rewrite bool_decide_eq_true_2; [done | lia].
Qed.

(** ** The Cypher queries *)

Lemma truthy_filter {A} (p : A -> bool) (l : list A) :
  truthy (filter (fun x => p x) l) = existsb p l.
Proof.
  induction l as [|x l IH]; [done |].
  rewrite filter_cons. simpl. case_decide as Hp.
  - by destruct (p x).
  - destruct (p x); [exfalso; by apply Hp | done].
Qed.

Lemma username_rows_truthy {A} (username : string) (l : list A) :
  truthy (map (fun _ => username_row username) l) = truthy l.
Proof. by destruct l. Qed.

Lemma update_where_none p f g :
  existsb p (nodes g) = false -> update_where p f g = g.
Proof.
  unfold update_where. destruct g as [ns es k]. simpl. intros H. f_equal.
  induction ns as [|n ns IH]; [done |].
  simpl in *. apply orb_false_iff in H as [-> H]. by rewrite IH.
Qed.

Lemma update_where_lookup p f g i n :
  nodes g !! i = Some n ->
  nodes (update_where p f g) !! i = Some (if p n then f n else n).
Proof. unfold update_where. simpl. intros H. by rewrite list_lookup_fmap, H. Qed.

Lemma set_prop_other k v n k' :
  k' <> k -> node_props (set_prop k v n) !! k' = node_props n !! k'.
Proof. intros H. unfold set_prop. simpl. by rewrite lookup_insert_ne. Qed.

Lemma set_prop_same k v n : node_props (set_prop k v n) !! k = Some v.
Proof. unfold set_prop. simpl. apply lookup_insert_eq. Qed.

Lemma match_user_set_active_rows now username password g :
  snd (match_user_set_active now username password g) =
  map (fun _ => username_row username)
      (filter (fun n => is_user_with username password n) (nodes g)).
Proof. reflexivity. Qed.

(** ** authenticate_user *)

#[global] Arguments _hash_password : simpl never.

Lemma authenticate_user_answers db_now token now username password w :
  answers 1 w = true ->
  authenticate_user db_now token now username password w =
  let g' := fst (match_user_set_active db_now username (_hash_password password) (graph_of w)) in
  if credentials_match username password (graph_of w)
  then (Return (Some token),
        with_sessions (<[token := now]> (sessions_of w)) (after_query g' w))
  else (Return None, after_query g' w).
Proof.
  intros H. unfold authenticate_user, try_except.
  rewrite bind_run, (execute_query_answers _ _ _ H) by reflexivity.
  cbn [effect records result_truthy andb].
  rewrite match_user_set_active_rows, username_rows_truthy, truthy_filter.
  unfold credentials_match. cbn zeta.
  by destruct (existsb _ _).
Qed.

Lemma authenticate_user_fault db_now token now username password w e rest :
  faults (driver (agent w)) = Some e :: rest ->
  authenticate_user db_now token now username password w =
  (Return None, with_line ("Authentication error: " +:+ exc_str e) (after_fault w)).
Proof.
  intros H. unfold authenticate_user, try_except.
  by rewrite bind_run, (execute_query_fault _ _ _ _ _ H).
Qed.

Lemma answers_1_cases w :
  answers 1 w = true \/ exists e rest, faults (driver (agent w)) = Some e :: rest.
Proof.
  unfold answers. destruct (faults (driver (agent w))) as [|[e|] rest]; simpl; eauto.
Qed.

Lemma missing_user_no_match username password g :
  user_exists username g = false -> credentials_match username password g = false.
Proof.
  unfold user_exists, credentials_match, is_user_with. destruct g as [ns es k]. simpl.
  induction ns as [|n ns IH]; [done |]. simpl.
  intros H. apply orb_false_iff in H as [-> H]. by rewrite IH.
Qed.

Lemma auth_failure_no_match f username password w :
  auth_failure f username password w ->
  answers 1 w = true -> credentials_match username password (graph_of w) = false.
Proof.
  destruct f as [| |e]; simpl.
  - by intros (_ & _ & H) _.
  - intros [_ H] _. by apply missing_user_no_match.
  - intros [rest H] Ha. unfold answers in Ha. by rewrite H in Ha.
Qed.

(** C7: [authenticate_user] returns [None] when the password does not
    match, when the user is missing and when the driver raises: the caller
    receives the same value in the three cases. The exception of the
    driver is caught and printed, and no call raises. Nothing is written
    to the graph or to the session table. *)
Theorem authenticate_user_failures_alike (f : AuthFailure) (db_now : Z) (token : string)
    (now : Z) (username password : string) (w : World) :
  auth_failure f username password w ->
  let r := authenticate_user db_now token now username password w in
  fst r = Return None /\
  stdout (snd r) =
    match f with
    | BackendFailure e => stdout w ++ ["Authentication error: " +:+ exc_str e]
    | _ => stdout w
    end /\
  graph_of (snd r) = graph_of w /\
  sessions_of (snd r) = sessions_of w.
Proof.
  intros Hf. destruct (answers_1_cases w) as [Ha | (e & rest & He)].
  - pose proof (auth_failure_no_match _ _ _ _ Hf Ha) as Hno.
    cbv zeta. rewrite (authenticate_user_answers _ _ _ _ _ _ Ha). cbv zeta.
    rewrite Hno. cbn [fst snd]. repeat split.
    + destruct f as [| |e]; [done | done |].
      destruct Hf as [rest H]. unfold answers in Ha. by rewrite H in Ha.
    + unfold match_user_set_active. cbn [fst]. unfold credentials_match in Hno.
      by rewrite (update_where_none _ _ _ Hno).
  - cbv zeta. rewrite (authenticate_user_fault _ _ _ _ _ _ _ _ He). cbn [fst snd].
    repeat split. destruct f as [| |e'].
    + destruct Hf as [Ha _]. unfold answers in Ha. by rewrite He in Ha.
    + destruct Hf as [Ha _]. unfold answers in Ha. by rewrite He in Ha.
    + destruct Hf as [rest' H]. rewrite He in H. by injection H as -> _.
Qed.

(** C9: [authenticate_user] never raises; when it returns [None] (wrong
    password, missing user or an exception of the driver) the session
    table is as before; when it returns a token, the table is the old
    one with that token bound to [now]. For a token that was not in the
    table, the table changes exactly when a token is returned. *)
Theorem authenticate_user_session_table (db_now : Z) (token : string) (now : Z)
    (username password : string) (w : World) :
  let r := authenticate_user db_now token now username password w in
  (fst r = Return None \/ fst r = Return (Some token)) /\
  (fst r = Return None -> sessions_of (snd r) = sessions_of w) /\
  (fst r = Return (Some token) ->
     sessions_of (snd r) = <[token := now]> (sessions_of w) /\
     sessions_of (snd r) !! token = Some now /\
     forall other, other <> token -> sessions_of (snd r) !! other = sessions_of w !! other) /\
  (sessions_of w !! token = None ->
     (sessions_of (snd r) <> sessions_of w <-> fst r = Return (Some token))).
Proof.
  cbv zeta. destruct (answers_1_cases w) as [Ha | (e & rest & He)].
  - rewrite (authenticate_user_answers _ _ _ _ _ _ Ha). cbv zeta.
    destruct (credentials_match username password (graph_of w)); cbn [fst snd].
    + split; [by right |]. split; [done |]. split.
      * intros _. rewrite sessions_of_with_sessions. split; [done |].
        split; [apply lookup_insert_eq |].
        intros other Hne. by rewrite lookup_insert_ne.
      * intros Hfresh. rewrite sessions_of_with_sessions. split; [done |].
        intros _ Heq. change (sessions_of (after_query _ w)) with (sessions_of w) in Heq.
        assert (sessions_of w !! token = Some now) as Hin
          by (rewrite <- Heq; apply lookup_insert_eq).
        congruence.
    + split; [by left |]. split; [done |]. split; [done |].
      intros _. split; [intros H; by destruct H | done].
  - rewrite (authenticate_user_fault _ _ _ _ _ _ _ _ He). cbn [fst snd].
    split; [by left |]. split; [done |]. split; [done |].
    intros _. split; [intros H; by destruct H | done].
Qed.

(** ** create_user *)

Lemma merge_user_rows now username password g :
  truthy (snd (merge_user now username password g)) = true.
Proof.
  unfold merge_user. destruct (existsb (is_user username) (nodes g)) eqn:Hex; [| done].
  cbn [snd]. by rewrite username_rows_truthy, truthy_filter.
Qed.

Lemma create_user_answers now username password w :
  answers 1 w = true ->
  create_user now username password w =
  (Return true,
   after_query (fst (merge_user now username (_hash_password password) (graph_of w))) w).
Proof.
  intros H. unfold create_user, try_except.
  rewrite bind_run, (execute_query_answers _ _ _ H) by reflexivity.
  unfold mret, M_ret. cbn [effect records result_truthy]. by rewrite merge_user_rows.
Qed.

Lemma create_user_fault now username password w e rest :
  faults (driver (agent w)) = Some e :: rest ->
  create_user now username password w =
  (Return false, with_line ("Error creating user: " +:+ exc_str e) (after_fault w)).
Proof.
  intros H. unfold create_user, try_except.
  by rewrite bind_run, (execute_query_fault _ _ _ _ _ H).
Qed.

Lemma merge_user_existing now username password g :
  user_exists username g = true ->
  fst (merge_user now username password g) =
  update_where (is_user username) (set_prop "last_active" (PTime now)) g.
Proof. unfold user_exists, merge_user. by intros ->. Qed.

(** C5: on a user that exists, and whatever the password given,
    [create_user] returns true and only sets [last_active] on the nodes of
    that user: every node keeps its id, its labels and all its other
    properties, [password] and [created_at] among them; the other nodes,
    the edges and the session table are untouched. *)
Theorem create_user_existing (now : Z) (username password : string) (w : World) :
  answers 1 w = true ->
  user_exists username (graph_of w) = true ->
  exists w', create_user now username password w = (Return true, w') /\
    sessions_of w' = sessions_of w /\ stdout w' = stdout w /\
    edges (graph_of w') = edges (graph_of w) /\
    next_id (graph_of w') = next_id (graph_of w) /\
    length (nodes (graph_of w')) = length (nodes (graph_of w)) /\
    forall i n, nodes (graph_of w) !! i = Some n ->
      exists n', nodes (graph_of w') !! i = Some n' /\
        node_id n' = node_id n /\ node_labels n' = node_labels n /\
        node_props n' !! "password" = node_props n !! "password" /\
        node_props n' !! "created_at" = node_props n !! "created_at" /\
        (forall k, k <> "last_active" -> node_props n' !! k = node_props n !! k) /\
        (is_user username n = true -> node_props n' !! "last_active" = Some (PTime now)) /\
        (is_user username n = false -> n' = n).
Proof.
  intros Ha Hex. eexists. split; [by apply create_user_answers |].
  change (graph_of (after_query ?g w)) with g.
  rewrite (merge_user_existing _ _ _ _ Hex).
  repeat split.
  - unfold update_where. simpl. by rewrite length_map.
  - intros i n Hi. eexists. split; [by apply update_where_lookup |].
    destruct (is_user username n) eqn:Hu.
    + repeat split; try done.
      * by apply set_prop_other.
      * by apply set_prop_other.
      * intros k Hk. by apply set_prop_other.
      * intros _. apply set_prop_same.
    + by repeat split.
Qed.

(** ** Signup and login *)

Lemma is_user_set_last_active username v n :
  is_user username (set_prop "last_active" v n) = is_user username n.
Proof.
  unfold is_user, has_label, has_prop, set_prop. simpl.
  by rewrite lookup_insert_ne.
Qed.

Lemma is_user_with_set_last_active username digest v n :
  is_user_with username digest (set_prop "last_active" v n) = is_user_with username digest n.
Proof.
  unfold is_user_with. rewrite is_user_set_last_active.
  unfold has_prop, set_prop. simpl. by rewrite lookup_insert_ne.
Qed.

Lemma existsb_update_where (q p : Node -> bool) (f : Node -> Node) g :
  (forall n, q (f n) = q n) ->
  existsb q (nodes (update_where p f g)) = existsb q (nodes g).
Proof.
  intros Hq. unfold update_where. simpl.
  induction (nodes g) as [|n ns IH]; [done |].
  simpl. rewrite IH. by destruct (p n); rewrite ?Hq.
Qed.

Lemma credentials_match_after_login now username digest u p g :
  credentials_match u p (fst (match_user_set_active now username digest g)) =
  credentials_match u p g.
Proof.
  unfold credentials_match, match_user_set_active. cbn [fst].
  apply existsb_update_where. intros n. apply is_user_with_set_last_active.
Qed.

Lemma credentials_match_after_merge now username password g :
  credentials_match username password
    (fst (merge_user now username (_hash_password password) g)) =
  negb (user_exists username g) || credentials_match username password g.
Proof.
  unfold merge_user, user_exists.
  destruct (existsb (is_user username) (nodes g)) eqn:Hex; cbn [fst negb orb].
  - unfold credentials_match. apply existsb_update_where.
    intros n. apply is_user_with_set_last_active.
  - unfold credentials_match. cbn [nodes]. rewrite existsb_app. simpl.
    assert (is_user_with username (_hash_password password)
              (mkNode (next_id g) ["User"]
                 (<["username" := PStr username]>
                  (<["password" := PStr (_hash_password password)]>
                   (<["created_at" := PTime now]>
                    (<["last_active" := PTime now]> ∅))))) = true) as Hnew.
    { unfold is_user_with, is_user, has_label, has_prop. simpl.
      rewrite lookup_insert_eq, lookup_insert_ne, lookup_insert_eq by done.
      by rewrite !bool_decide_eq_true_2. }
    by rewrite Hnew, orb_true_r.
Qed.

Lemma handle_login_answers db_now token now username password w :
  answers 1 w = true -> token <> "" ->
  handle_login db_now token now username password w =
  let g' := fst (match_user_set_active db_now username (_hash_password password) (graph_of w)) in
  if credentials_match username password (graph_of w)
  then (Return true,
        set_login username token
          (with_sessions (<[token := now]> (sessions_of w)) (after_query g' w)))
  else (Return false, after_query g' w).
Proof.
  intros Ha Htok. unfold handle_login.
  rewrite bind_run, (authenticate_user_answers _ _ _ _ _ _ Ha). cbv zeta.
  destruct (credentials_match username password (graph_of w)); [| done].
  by rewrite bool_decide_eq_false_2.
Qed.

Lemma handle_signup_answers db_now0 db_now token now username password w :
  answers 2 w = true -> token <> "" ->
  handle_signup db_now0 db_now token now username password w =
  handle_login db_now token now username password
    (after_query (fst (merge_user db_now0 username (_hash_password password) (graph_of w))) w).
Proof.
  intros Ha Htok. unfold handle_signup.
  by rewrite bind_run, (create_user_answers _ _ _ _ (answers_le 2 1 w ltac:(lia) Ha)).
Qed.

Lemma validate_fresh_token later token now w :
  configured w ->
  sessions_of w !! token = Some now ->
  later - now <= timedelta_hours 24 ->
  validate_session later token w = (Return true, w).
Proof.
  unfold configured. intros Hcfg Hin Hle.
  apply (validate_session_live _ _ now); [done | rewrite Hcfg; lia].
Qed.

Lemma handle_login_success db_now token now username password w :
  answers 1 w = true -> token <> "" ->
  credentials_match username password (graph_of w) = true ->
  exists w', handle_login db_now token now username password w = (Return true, w') /\
    st.session_token (session_state w') = Some token /\
    st.username (session_state w') = Some username /\
    st.authenticated (session_state w') = true /\
    sessions_of w' = <[token := now]> (sessions_of w) /\
    session_timeout (agent w') = session_timeout (agent w) /\
    (forall n, answers (S n) w = true -> answers n w' = true) /\
    credentials_match username password (graph_of w') = true.
Proof.
  intros Ha Htok Hm. eexists. split.
  { rewrite (handle_login_answers _ _ _ _ _ _ Ha Htok). cbv zeta. by rewrite Hm. }
  repeat split.
  - intros n Hn. by apply answers_after_query.
  - change (graph_of (set_login _ _ (with_sessions _ (after_query ?g w)))) with g.
    by rewrite credentials_match_after_login.
Qed.

(** C2, as the code has it: when the name is free, or taken with the same
    password digest, and the driver answers, [handle_signup] succeeds and
    the token it stores validates at once; a following [handle_login] with
    the same credentials succeeds too, and its token validates at once and
    for the next 24 hours. *)
Theorem signup_then_login (db_now0 db_now1 db_now2 : Z) (token1 token2 : string)
    (now1 now2 : Z) (username password : string) (w : World) :
  configured w ->
  answers 3 w = true ->
  token1 <> "" -> token2 <> "" ->
  user_exists username (graph_of w) = false \/
  credentials_match username password (graph_of w) = true ->
  exists w1 w2,
    handle_signup db_now0 db_now1 token1 now1 username password w = (Return true, w1) /\
    st.session_token (session_state w1) = Some token1 /\
    fst (validate_session now1 token1 w1) = Return true /\
    handle_login db_now2 token2 now2 username password w1 = (Return true, w2) /\
    st.session_token (session_state w2) = Some token2 /\
    fst (validate_session now2 token2 w2) = Return true /\
    forall later, later - now2 <= timedelta_hours 24 ->
      fst (validate_session later token2 w2) = Return true.
Proof.
  intros Hcfg Ha Ht1 Ht2 Hfree.
  set (wA := after_query
               (fst (merge_user db_now0 username (_hash_password password) (graph_of w))) w).
  assert (answers 2 wA = true) as HaA by (by apply answers_after_query).
  assert (credentials_match username password (graph_of wA) = true) as HmA.
  { change (graph_of wA) with
      (fst (merge_user db_now0 username (_hash_password password) (graph_of w))).
    rewrite credentials_match_after_merge.
    destruct Hfree as [-> | ->]; [done | apply orb_true_r]. }
  destruct (handle_login_success db_now1 token1 now1 username password wA
              (answers_le 2 1 wA ltac:(lia) HaA) Ht1 HmA)
    as (w1 & Hrun1 & Htok1 & _ & _ & Hs1 & Hto1 & Hans1 & Hm1).
  destruct (handle_login_success db_now2 token2 now2 username password w1
              (Hans1 1%nat HaA) Ht2 Hm1)
    as (w2 & Hrun2 & Htok2 & _ & _ & Hs2 & Hto2 & _ & _).
  assert (configured w1) as Hcfg1 by (unfold configured; by rewrite Hto1).
  assert (configured w2) as Hcfg2 by (unfold configured; by rewrite Hto2).
  assert (forall later, later - now2 <= timedelta_hours 24 ->
            fst (validate_session later token2 w2) = Return true) as Hval2.
  { intros later Hle. rewrite (validate_fresh_token later token2 now2); [done | done | | done].
    rewrite Hs2. apply lookup_insert_eq. }
  exists w1, w2. repeat split; try done.
  - rewrite handle_signup_answers; [exact Hrun1 | | done].
    apply (answers_le 3 2 w); [lia | done].
  - rewrite (validate_fresh_token now1 token1 now1); [done | done | | ].
    + rewrite Hs1. apply lookup_insert_eq.
    + unfold timedelta_hours. lia.
  - apply Hval2. unfold timedelta_hours. lia.
Qed.

(** Signup on a name that is taken under another password digest fails:
    [create_user] reports success and the login that follows is refused. *)
Lemma signup_taken_name db_now0 db_now token now username password w :
  answers 2 w = true -> token <> "" ->
  user_exists username (graph_of w) = true ->
  credentials_match username password (graph_of w) = false ->
  fst (create_user db_now0 username password w) = Return true /\
  fst (handle_signup db_now0 db_now token now username password w) = Return false.
Proof.
  intros Ha Htok Hex Hno. split.
  - by rewrite (create_user_answers _ _ _ _ (answers_le 2 1 w ltac:(lia) Ha)).
  - rewrite (handle_signup_answers _ _ _ _ _ _ _ Ha Htok).
    rewrite handle_login_answers; [| by apply answers_after_query | done].
    cbv zeta.
    change (graph_of (after_query ?g w)) with g.
    by rewrite credentials_match_after_merge, Hex, Hno.
Qed.

(** ** The timeout is set once *)

Lemma init_configured d flag name token out :
  configured (mkWorld (st.mkSessionState (initialize (MemoryAgent_init d)) flag name token) out).
Proof. reflexivity. Qed.

Lemma validate_session_timeout now token w :
  session_timeout (agent (snd (validate_session now token w))) = session_timeout (agent w).
Proof.
  unfold validate_session.
  destruct (user_sessions (agent w) !! token) as [t|]; [| done].
  by destruct (bool_decide _).
Qed.

Lemma create_user_timeout now username password w :
  session_timeout (agent (snd (create_user now username password w)))
  = session_timeout (agent w).
Proof.
  destruct (answers_1_cases w) as [Ha | (e & rest & He)].
  - by rewrite (create_user_answers _ _ _ _ Ha).
  - by rewrite (create_user_fault _ _ _ _ _ _ He).
Qed.

Lemma authenticate_user_timeout db_now token now username password w :
  session_timeout (agent (snd (authenticate_user db_now token now username password w)))
  = session_timeout (agent w).
Proof.
  destruct (answers_1_cases w) as [Ha | (e & rest & He)].
  - rewrite (authenticate_user_answers _ _ _ _ _ _ Ha). cbv zeta.
    by destruct (credentials_match _ _ _).
  - by rewrite (authenticate_user_fault _ _ _ _ _ _ _ _ He).
Qed.

Lemma logout_timeout w :
  session_timeout (agent (snd (logout w))) = session_timeout (agent w).
Proof. reflexivity. Qed.

(** ** Logout *)

Lemma validate_session_agent now token w1 w2 :
  agent w1 = agent w2 ->
  fst (validate_session now token w1) = fst (validate_session now token w2).
Proof.
  intros H. unfold validate_session. rewrite H.
  destruct (user_sessions (agent w2) !! token) as [t|]; [| done].
  by destruct (bool_decide _).
Qed.

(** C1, as the code has it: the logout branch clears the three login
    fields of the UI state and nothing else. The session table is left as
    it was, so [validate_session] answers on every token, the one logged
    out included, as it did before: a token that had not expired still
    validates. *)
Theorem logout_keeps_session_table (w : World) :
  exists w', logout w = (Return tt, w') /\
    st.authenticated (session_state w') = false /\
    st.username (session_state w') = None /\
    st.session_token (session_state w') = None /\
    agent w' = agent w /\ stdout w' = stdout w /\
    sessions_of w' = sessions_of w /\
    (forall now token,
       fst (validate_session now token w') = fst (validate_session now token w)) /\
    (forall now token, unexpired now token w ->
       fst (validate_session now token w') = Return true).
Proof.
  eexists. split; [reflexivity |]. repeat split.
  - intros now token. by apply validate_session_agent.
  - intros now token (issued & Hin & Hle).
    rewrite (validate_session_agent now token _ w) by done.
    by rewrite (validate_session_live _ _ _ _ Hin Hle).
Qed.

(** ** store_user_memory *)




(** ** get_user_preferences *)

Lemma filter_none {A} (P : A -> Prop) `{forall x, Decision (P x)} (l : list A) :
  (forall x, x ∈ l -> ~ P x) -> filter P l = [].
Proof.
  induction l as [|x l IH]; [done |]. intros Hall.
  rewrite filter_cons, decide_False by (apply Hall; left).
  apply IH. intros y Hy. apply Hall. by right.
Qed.

Lemma format_preferences_records rows :
  _format_preferences (mkEagerResult rows) =
  match rows with
  | [] => Return ∅
  | _ :: _ => Raise (TypeError "list indices must be integers or slices, not str")
  end.
Proof. by destruct rows. Qed.

Lemma get_user_preferences_answers username w :
  answers 1 w = true ->
  get_user_preferences username w = (Raise not_awaitable, after_query (graph_of w) w).
Proof.
  intros H. unfold get_user_preferences.
  rewrite !bind_run, (execute_query_answers _ _ _ H) by reflexivity. reflexivity.
Qed.

Lemma get_user_preferences_fault username w e rest :
  faults (driver (agent w)) = Some e :: rest ->
  get_user_preferences username w = (Raise e, after_fault w).
Proof.
  intros H. unfold get_user_preferences.
  by rewrite !bind_run, (execute_query_fault _ _ _ _ _ H).
Qed.

Lemma get_user_preferences_never_returns username w :
  exists e, fst (get_user_preferences username w) = Raise e.
Proof.
  destruct (answers_1_cases w) as [Ha | (e & rest & He)].
  - rewrite (get_user_preferences_answers _ _ Ha). by eexists.
  - rewrite (get_user_preferences_fault _ _ _ _ He). by eexists.
Qed.

(** C4: the code does not return the snapshot that the claim describes.
    [get_user_preferences] awaits what the synchronous driver returned, so
    it raises [TypeError] once the query has run, for alice, who has no
    recorded facts, and for bob, who has no node, alike; on no input and
    in no state does it return. Without the [await], [_format_preferences]
    would raise on the records of alice as well, since it reads
    [result[0]], the list of records, as one record; and for bob it would
    return the empty dict, which has none of the three lists. *)
Theorem get_user_preferences_raises :
  user_exists "alice" (graph_of alice_world) = true /\
  no_recorded_facts "alice" (graph_of alice_world) = true /\
  user_exists "bob" (graph_of alice_world) = false /\
  answers 1 alice_world = true /\
  fst (get_user_preferences "alice" alice_world) = Raise not_awaitable /\
  fst (get_user_preferences "bob" alice_world) = Raise not_awaitable /\
  (forall username w, exists e, fst (get_user_preferences username w) = Raise e) /\
  (forall username w, answers 1 w = true ->
     get_user_preferences username w = (Raise not_awaitable, after_query (graph_of w) w)) /\
  _format_preferences
    (mkEagerResult (snd (collect_preferences "alice" (graph_of alice_world)))) =
    Raise (TypeError "list indices must be integers or slices, not str") /\
  _format_preferences
    (mkEagerResult (snd (collect_preferences "bob" (graph_of alice_world)))) = Return ∅.
Proof.
  assert (answers 1 alice_world = true) as Ha by (vm_compute; reflexivity).
  split; [vm_compute; reflexivity |]. split; [vm_compute; reflexivity |].
  split; [vm_compute; reflexivity |]. split; [exact Ha |].
  split; [by rewrite (get_user_preferences_answers _ _ Ha) |].
  split; [by rewrite (get_user_preferences_answers _ _ Ha) |].
  split; [apply get_user_preferences_never_returns |].
  split; [apply get_user_preferences_answers |].
  rewrite !format_preferences_records. split; vm_compute; reflexivity.
Qed.

(** ** _store_preferences *)

Lemma lift_print_run {L} line (l : L) w :
  lift (print line) (l, w) = (Return tt, (l, with_line line w)).
Proof. reflexivity. Qed.

(** What the call of the driver in [_store_preferences] raises. *)
Lemma store_query_raises username text w :
  execute_query (mkCypher ["username"; "text"] (create_interest username text))
                ["parameters"] w =
  (Raise (refusal w), after_fault w).
Proof.
  unfold refusal. destruct (answers_1_cases w) as [Ha | (e & rest & He)].
  - rewrite (execute_query_refused _ _ _ "username" ["text"] Ha) by reflexivity.
    apply answers_next in Ha as [[-> | [rest ->]] _]; reflexivity.
  - rewrite (execute_query_fault _ _ _ _ _ He). by rewrite He.
Qed.

(** The first entity ends the loop: it has no [text], or its query raises. *)
Lemma store_entities_cons username entity rest params w :
  store_entities username (entity :: rest) (params, w) =
  let w3 := with_line ("Entity properties: " +:+ repr_dict (properties entity))
              (with_line ("Username: " +:+ username)
                 (with_line (nl +:+ "--- Debug Info ---") w)) in
  match assoc "text" (properties entity) with
  | None => (Raise (KeyError "text"), (params, w3))
  | Some text =>
      let ps := [("username", username); ("text", text)] in
      let w5 := with_line ("Parameters: " +:+ repr_dict ps)
                  (with_line ("Query: " +:+ interest_query) w3) in
      (Raise (refusal w), (Some ps, after_fault w5))
  end.
Proof.
  cbn [store_entities]. do 3 (rewrite bind_run, lift_print_run).
  rewrite bind_run. cbv zeta.
  destruct (assoc "text" (properties entity)) as [text|]; [| reflexivity].
  cbn [mret M_ret]. rewrite bind_run. cbn [set_local snd].
  do 2 (rewrite bind_run, lift_print_run).
  rewrite bind_run. unfold lift. cbn [fst snd].
  by rewrite store_query_raises.
Qed.

Lemma store_entities_graph username entities params w :
  exists r p1 w1,
    store_entities username entities (params, w) = (r, (p1, w1)) /\
    graph_of w1 = graph_of w.
Proof.
  destruct entities as [|entity rest]; [by eexists _, _, _ |].
  rewrite store_entities_cons. cbv zeta.
  destruct (assoc "text" (properties entity)); by eexists _, _, _.
Qed.

Lemma print_relationships_graph rels : forall w,
  exists w1, print_relationships rels w = (Return tt, w1) /\ graph_of w1 = graph_of w.
Proof.
  induction rels as [|rel rest IH]; intros w; [by eexists |].
  cbn [print_relationships]. rewrite bind_run. cbn [print].
  destruct (IH (with_line ("Processing relationship: " +:+ rel_str rel) w))
    as (w1 & Hrun & Hg).
  by exists w1.
Qed.

Lemma store_data_graph username extracted_data : forall params w,
  exists r p1 w1,
    store_data username extracted_data (params, w) = (r, (p1, w1)) /\
    graph_of w1 = graph_of w.
Proof.
  induction extracted_data as [|data rest IH]; intros params w; [by eexists _, _, _ |].
  cbn [store_data]. rewrite bind_run.
  assert (exists r1 p1 w1,
            match data_entities data with
            | Some entities => store_entities username entities
            | None => mret tt
            end (params, w) = (r1, (p1, w1)) /\ graph_of w1 = graph_of w)
    as (r1 & p1 & w1 & -> & H1).
  { destruct (data_entities data) as [entities|];
      [apply store_entities_graph | by eexists _, _, _]. }
  destruct r1 as [[]|e]; [| by eexists _, _, _].
  rewrite bind_run.
  assert (exists w2, match data_relationships data with
                     | Some rels => lift (print_relationships rels)
                     | None => mret tt
                     end (p1, w1) = (Return tt, (p1, w2)) /\ graph_of w2 = graph_of w1)
    as (w2 & -> & H2).
  { destruct (data_relationships data) as [rels|]; [| by eexists].
    destruct (print_relationships_graph rels w1) as (w2 & Hrun & Hg).
    exists w2. split; [| done]. unfold lift. cbn [fst snd]. by rewrite Hrun. }
  destruct (IH p1 w2) as (r & p3 & w3 & -> & H3).
  exists r, p3, w3. split; [done | congruence].
Qed.

(** Whatever it is given and whatever the driver does, [_store_preferences]
    leaves the graph as it was. *)
Lemma store_preferences_graph username extracted_data w :
  graph_of (snd (_store_preferences username extracted_data w)) = graph_of w.
Proof.
  destruct (store_data_graph username extracted_data None w) as (r & p1 & w1 & Hrun & Hg).
  unfold _store_preferences, with_locals, try_except. rewrite Hrun.
  destruct r as [[]|e]; [done |].
  rewrite bind_run, lift_print_run, bind_run. cbn [get_local fst].
  by destruct p1.
Qed.

(** *** Graphs that grow *)

Lemma create_linked_fold rel label props (us : list Node) : forall g,
  fold_left
    (fun g' u =>
       mkGraph (nodes g' ++ [mkNode (next_id g') [label] props])
               (edges g' ++ [mkEdge (node_id u) rel (next_id g')])
               (S (next_id g')))
    us g =
  mkGraph (nodes g ++ map (fun i => mkNode i [label] props) (seq (next_id g) (length us)))
          (edges g ++ zip_with (fun u i => mkEdge (node_id u) rel i) us
                                (seq (next_id g) (length us)))
          (next_id g + length us).
Proof.
  induction us as [|u us IH]; intros g.
  - simpl. rewrite !app_nil_r, Nat.add_0_r. by destruct g.
  - cbn [fold_left]. rewrite IH. cbn [nodes edges next_id length seq map zip_with].
    rewrite <- !app_assoc. cbn [app]. f_equal. lia.
Qed.

Lemma is_user_preference_node username i props :
  is_user username (mkNode i ["Preference"] props) = false.
Proof.
  unfold is_user, has_label. cbn [node_labels].
  rewrite bool_decide_eq_false_2; [done |].
  intros H. apply list_elem_of_singleton in H. discriminate.
Qed.

Lemma filter_users_app username (ns new : list Node) :
  Forall (fun n => node_labels n = ["Preference"]) new ->
  filter (fun n => is_user username n) (ns ++ new) = filter (fun n => is_user username n) ns.
Proof.
  intros Hnew. rewrite filter_app.
  rewrite (filter_none _ new); [by rewrite app_nil_r |].
  intros n Hn Hu. rewrite Forall_forall in Hnew. specialize (Hnew n Hn).
  destruct n as [i ls ps]. simpl in Hnew. subst ls.
  by rewrite is_user_preference_node in Hu.
Qed.

Lemma extends_by_user_count username m g g' :
  extends_by username m g g' -> user_count username g' = user_count username g.
Proof.
  intros (new & newe & Hn & _ & _ & _ & Hlab & _). unfold user_count.
  by rewrite Hn, filter_users_app.
Qed.

Lemma extends_by_refl username g : extends_by username 0 g g.
Proof.
  exists [], []. rewrite !app_nil_r, Nat.add_0_r. by repeat split.
Qed.

Lemma extends_by_trans username m1 m2 g g1 g2 :
  extends_by username m1 g g1 -> extends_by username m2 g1 g2 ->
  extends_by username (m1 + m2) g g2.
Proof.
  intros (new1 & newe1 & Hn1 & He1 & Hk1 & Hid1 & Hlab1 & Hdst1 & Hint1)
         (new2 & newe2 & Hn2 & He2 & Hk2 & Hid2 & Hlab2 & Hdst2 & Hint2).
  exists (new1 ++ new2), (newe1 ++ newe2).
  split; [by rewrite Hn2, Hn1, app_assoc |].
  split; [by rewrite He2, He1, app_assoc |].
  split; [lia |].
  split; [by rewrite map_app, seq_app, Hid1, Hid2, Hk1 |].
  split; [by apply Forall_app |].
  split; [by rewrite map_app, seq_app, Hdst1, Hdst2, Hk1 |].
  apply Forall_app. split; [done |].
  eapply Forall_impl; [exact Hint2 |]. intros e [Ht (u & Hu & Huser & Hsrc)].
  split; [done |]. exists u. split; [| done].
  rewrite Hn1 in Hu. apply elem_of_app in Hu as [Hu | Hu]; [done |].
  rewrite Forall_forall in Hlab1. specialize (Hlab1 u Hu).
  destruct u as [i ls ps]. simpl in Hlab1. subst ls.
  by rewrite is_user_preference_node in Huser.
Qed.

Lemma wf_graph_empty : wf_graph empty_graph.
Proof. split; constructor. Qed.

Lemma update_where_ids p k v g :
  map node_id (nodes (update_where p (set_prop k v) g)) = map node_id (nodes g).
Proof.
  unfold update_where. cbn [nodes]. rewrite map_map. apply map_ext.
  intros n. by destruct (p n).
Qed.

Lemma update_where_wf p k v g :
  wf_graph g -> wf_graph (update_where p (set_prop k v) g).
Proof.
  intros [Hnd Hlt]. split; [by rewrite update_where_ids |].
  unfold update_where. cbn [nodes next_id].
  apply Forall_forall. intros n Hn.
  apply list_elem_of_In, in_map_iff in Hn as (n0 & <- & Hn0).
  rewrite Forall_forall in Hlt. apply list_elem_of_In in Hn0. specialize (Hlt n0 Hn0).
  by destruct (p n0).
Qed.

Lemma append_node_wf g n :
  wf_graph g -> node_id n = next_id g ->
  wf_graph (mkGraph (nodes g ++ [n]) (edges g) (S (next_id g))).
Proof.
  intros [Hnd Hlt] Hid. rewrite Forall_forall in Hlt. split; cbn [nodes next_id].
  - rewrite map_app. apply NoDup_app. split; [done |]. split; [| apply NoDup_singleton].
    intros i Hi Hi'. apply list_elem_of_singleton in Hi'. subst i.
    apply list_elem_of_In, in_map_iff in Hi as (n0 & Heq & Hn0).
    apply list_elem_of_In in Hn0. specialize (Hlt n0 Hn0). cbn [map] in Heq. lia.
  - apply Forall_app. split.
    + apply Forall_forall. intros n0 Hn0. specialize (Hlt n0 Hn0). lia.
    + apply Forall_singleton. lia.
Qed.

Lemma merge_user_wf now username password g :
  wf_graph g -> wf_graph (fst (merge_user now username password g)).
Proof.
  intros Hwf. unfold merge_user.
  destruct (existsb (is_user username) (nodes g)); cbn [fst].
  - by apply update_where_wf.
  - by apply append_node_wf.
Qed.

Lemma match_user_set_active_wf now username password g :
  wf_graph g -> wf_graph (fst (match_user_set_active now username password g)).
Proof. intros Hwf. by apply update_where_wf. Qed.

Lemma extends_by_wf username m g g' :
  wf_graph g -> extends_by username m g g' -> wf_graph g'.
Proof.
  intros [Hnd Hlt] (new & newe & Hn & _ & Hk & Hid & _). rewrite Forall_forall in Hlt.
  split; rewrite Hn.
  - rewrite map_app, Hid. apply NoDup_app. split; [done |]. split; [| apply NoDup_seq].
    intros i Hi Hi'. apply elem_of_seq in Hi'.
    apply list_elem_of_In, in_map_iff in Hi as (n0 & <- & Hn0).
    apply list_elem_of_In in Hn0. specialize (Hlt n0 Hn0). lia.
  - rewrite Hk. apply Forall_app. split.
    + apply Forall_forall. intros n0 Hn0. specialize (Hlt n0 Hn0). lia.
    + apply Forall_forall. intros n0 Hn0.
      assert (node_id n0 ∈ seq (next_id g) m) as Hin
        by (rewrite <- Hid; apply list_elem_of_In, in_map; by apply list_elem_of_In).
      apply elem_of_seq in Hin. lia.
Qed.

(** C6: the code records no fact at all. The call of the driver in
    [_store_preferences] passes the dict of parameters as the keyword
    argument [parameters], so [$username] and [$text] are not bound, the
    query is refused, and the handler prints the error and returns. Two
    calls for alice with the fact "likes hiking" leave no Preference node
    and no INTERESTED_IN edge, where the claim counts two of each; and no
    call, on any input, changes the graph. *)
Theorem store_preferences_twice_writes_nothing :
  user_count "alice" (graph_of alice_world) = 1%nat /\
  answers 2 alice_world = true /\
  (let w1 := snd (_store_preferences "alice" likes_hiking alice_world) in
   let w2 := snd (_store_preferences "alice" likes_hiking w1) in
   fst (_store_preferences "alice" likes_hiking alice_world) = Return tt /\
   fst (_store_preferences "alice" likes_hiking w1) = Return tt /\
   graph_of w2 = graph_of alice_world /\
   preference_count (graph_of w2) = 0%nat /\
   interest_count "alice" (graph_of w2) = 0%nat /\
   "Error storing preferences: " +:+ exc_str (ParameterMissing ["username"; "text"])
     ∈ stdout w1) /\
  (forall username extracted_data w,
     graph_of (snd (_store_preferences username extracted_data w)) = graph_of w).
Proof.
  split; [vm_compute; reflexivity |]. split; [vm_compute; reflexivity |].
  split; [| apply store_preferences_graph]. cbv zeta.
  split; [vm_compute; reflexivity |]. split; [vm_compute; reflexivity |].
  rewrite !store_preferences_graph.
  split; [reflexivity |]. split; [vm_compute; reflexivity |].
  split; [vm_compute; reflexivity |].
  apply (bool_decide_unpack _). by vm_compute.
Qed.

(** ** The scenario, run *)

Lemma validate_session_spec_witness :
  configured alice_world /\
  validate_session 5000 "T0" alice_world = (Return false, alice_world) /\
  validate_session (1002 + timedelta_hours 24) "T1" alice_world = (Return true, alice_world) /\
  fst (validate_session (1003 + timedelta_hours 24) "T1" alice_world) = Return false.
Proof.
  assert (configured alice_world) as Hcfg by (vm_compute; reflexivity).
  split; [exact Hcfg |]. split; [| split].
  - apply (validate_session_spec 5000 "T0" alice_world Hcfg).
    vm_compute. reflexivity.
  - apply (proj2 (proj2 (validate_session_spec (1002 + timedelta_hours 24) "T1"
                           alice_world Hcfg)) 1002).
    + vm_compute. reflexivity.
    + vm_compute. discriminate.
  - destruct (proj1 (proj2 (validate_session_spec (1003 + timedelta_hours 24) "T1"
                              alice_world Hcfg)) 1002) as (w' & Hrun & _).
    + vm_compute. reflexivity.
    + vm_compute. reflexivity.
    + rewrite Hrun. reflexivity.
Defined.

Lemma validate_session_no_refresh_witness :
  sessions_of alice_world !! "T1" = Some 1002 /\
  validate_session 1500 "T1" alice_world = (Return true, alice_world).
Proof.
  assert (sessions_of alice_world !! "T1" = Some 1002) as Hin by (vm_compute; reflexivity).
  split; [exact Hin |].
  apply (validate_session_no_refresh 1500 "T1" 1002 alice_world Hin).
  vm_compute. discriminate.
Defined.

Lemma authenticate_user_failures_alike_witness :
  fst (authenticate_user 2000 "T2" 2001 "alice" "wrong" alice_world) = Return None /\
  fst (authenticate_user 2000 "T2" 2001 "bob" "s3cret" alice_world) = Return None /\
  fst (authenticate_user 2000 "T2" 2001 "alice" "s3cret"
         (outage ServiceUnavailable alice_world)) = Return None.
Proof.
  split; [| split].
  - apply (authenticate_user_failures_alike WrongPassword).
    vm_compute. by repeat split.
  - apply (authenticate_user_failures_alike MissingUser).
    vm_compute. by repeat split.
  - apply (authenticate_user_failures_alike (BackendFailure ServiceUnavailable)).
    exists []. reflexivity.
Defined.

Lemma create_user_existing_witness :
  answers 1 alice_world = true /\
  user_exists "alice" (graph_of alice_world) = true /\
  fst (create_user 3000 "alice" "another" alice_world) = Return true.
Proof.
  assert (answers 1 alice_world = true) as Ha by (vm_compute; reflexivity).
  assert (user_exists "alice" (graph_of alice_world) = true) as Hex
    by (vm_compute; reflexivity).
  split; [exact Ha |]. split; [exact Hex |].
  destruct (create_user_existing 3000 "alice" "another" alice_world Ha Hex)
    as (w' & Hrun & _).
  rewrite Hrun. reflexivity.
Defined.

Lemma signup_then_login_witness :
  configured fresh_world /\ answers 3 fresh_world = true /\
  user_exists "alice" (graph_of fresh_world) = false /\
  fst (handle_signup 1000 1001 "T1" 1002 "alice" "s3cret" fresh_world) = Return true.
Proof.
  assert (configured fresh_world) as Hcfg by reflexivity.
  assert (answers 3 fresh_world = true) as Ha by reflexivity.
  assert (user_exists "alice" (graph_of fresh_world) = false) as Hfree by reflexivity.
  split; [exact Hcfg |]. split; [exact Ha |]. split; [exact Hfree |].
  destruct (signup_then_login 1000 1001 2000 "T1" "T2" 1002 2001 "alice" "s3cret"
              fresh_world Hcfg Ha ltac:(discriminate) ltac:(discriminate)
              (or_introl Hfree)) as (w1 & w2 & Hrun & _).
  rewrite Hrun. reflexivity.
Defined.

(** ** Where the code departs from the specification *)

(** C1 as stated fails: the token that signup issued still validates after
    the logout branch ran. *)
Lemma logout_does_not_revoke :
  st.session_token (session_state alice_world) = Some "T1" /\
  st.session_token (session_state (snd (logout alice_world))) = None /\
  fst (validate_session 1003 "T1" (snd (logout alice_world))) = Return true.
Proof. vm_compute. by repeat split. Qed.

(** C2 as stated fails: signup under a name that is taken with another
    password is refused, and so is the login that follows. *)
Lemma signup_taken_name_fails :
  fst (handle_signup 3000 3001 "T3" 3002 "alice" "hunter2" alice_world) = Return false /\
  fst (handle_login 3003 "T4" 3004 "alice" "hunter2"
         (snd (handle_signup 3000 3001 "T3" 3002 "alice" "hunter2" alice_world)))
  = Return false.
Proof. vm_compute. by split. Qed.

(** * Further properties *)

(** ** _hash_password *)

Lemma hex_length bs : String.length (SHA256.hex bs) = (2 * length bs)%nat.
Proof. induction bs as [|b bs IH]; simpl; [done | rewrite IH; lia]. Qed.

Lemma be_bytes_length n x : length (SHA256.be_bytes n x) = n.
Proof. induction n as [|n IH]; simpl; [done | by rewrite IH]. Qed.

Lemma be_bytes_range n x : Forall (fun b => 0 <= b < 256) (SHA256.be_bytes n x).
Proof.
  induction n as [|n IH]; simpl; constructor; [| done].
  apply Z.mod_pos_bound. lia.
Qed.

Lemma round_length st kw : length st = 8%nat -> length (SHA256.round st kw) = 8%nat.
Proof.
  intros H. do 9 (destruct st as [|? st]; try discriminate). reflexivity.
Qed.

Lemma rounds_length kws : forall st,
  length st = 8%nat -> length (fold_left SHA256.round kws st) = 8%nat.
Proof.
  induction kws as [|kw kws IH]; intros st H; simpl; [done |].
  by apply IH, round_length.
Qed.

Lemma compress_length st block :
  length st = 8%nat -> length (SHA256.compress st block) = 8%nat.
Proof.
  intros H. unfold SHA256.compress. cbv zeta.
  rewrite length_zip_with, rounds_length by done. lia.
Qed.

Lemma compress_all_length blocks : forall st,
  length st = 8%nat -> length (fold_left SHA256.compress blocks st) = 8%nat.
Proof.
  induction blocks as [|b blocks IH]; intros st H; simpl; [done |].
  by apply IH, compress_length.
Qed.

Lemma words_bytes_length (st : list Z) :
  length (concat (map (SHA256.be_bytes 4) st)) = (4 * length st)%nat.
Proof.
  induction st as [|x st IH]; [done |].
  cbn [map concat]. rewrite length_app, be_bytes_length, IH. simpl. lia.
Qed.

Lemma words_bytes_range (st : list Z) :
  Forall (fun b => 0 <= b < 256) (concat (map (SHA256.be_bytes 4) st)).
Proof.
  induction st as [|x st IH]; [constructor |].
  cbn [map concat]. apply Forall_app. split; [apply be_bytes_range | done].
Qed.

Lemma hex_digit_alphabet d : 0 <= d < 16 -> SHA256.hex_digit d ∈ hex_alphabet.
Proof.
  intros H.
  assert (d = 0 \/ d = 1 \/ d = 2 \/ d = 3 \/ d = 4 \/ d = 5 \/ d = 6 \/ d = 7 \/
          d = 8 \/ d = 9 \/ d = 10 \/ d = 11 \/ d = 12 \/ d = 13 \/ d = 14 \/ d = 15)
    as Hd by lia.
  clear H.
  repeat (destruct Hd as [Hd | Hd];
          [subst d; apply (bool_decide_unpack _); by vm_compute |]).
  subst d. apply (bool_decide_unpack _). by vm_compute.
Qed.

Lemma hex_alphabet_only bs :
  Forall (fun b => 0 <= b < 256) bs ->
  Forall (fun c => c ∈ hex_alphabet) (list_ascii_of_string (SHA256.hex bs)).
Proof.
  induction 1 as [|b bs Hb Hbs IH]; [constructor |].
  cbn [SHA256.hex list_ascii_of_string].
  constructor; [| constructor; [| done]]; apply hex_digit_alphabet.
  - split; [apply Z.div_pos; lia | apply Z.div_lt_upper_bound; lia].
  - apply Z.mod_pos_bound. lia.
Qed.

(** X1: the digest [_hash_password] stores has always 64 characters, all
    of them lower-case hexadecimal digits, whatever the password: the
    empty one and one longer than a block included. *)
Theorem hash_password_hex64 (password : string) :
  String.length (_hash_password password) = 64%nat /\
  Forall (fun c => c ∈ hex_alphabet) (list_ascii_of_string (_hash_password password)).
Proof.
  unfold _hash_password, SHA256.hexdigest, SHA256.digest. cbv zeta. split.
  - rewrite hex_length, words_bytes_length, compress_all_length; [done | reflexivity].
  - apply hex_alphabet_only, words_bytes_range.
Qed.

(** ** What a call leaves untouched *)

Lemma same_sessions_and_ui_refl w : same_sessions_and_ui w w.
Proof. by repeat split. Qed.

Lemma same_sessions_and_ui_trans w1 w2 w3 :
  same_sessions_and_ui w1 w2 -> same_sessions_and_ui w2 w3 -> same_sessions_and_ui w1 w3.
Proof.
  intros (H1 & H2 & H3 & H4 & H5 & H6 & H7) (K1 & K2 & K3 & K4 & K5 & K6 & K7).
  repeat split; congruence.
Qed.

(** ** The graph stays well formed *)

Lemma appended_refl g : appended g g.
Proof.
  exists [], []. rewrite !app_nil_r. cbn [length]. rewrite Nat.add_0_r.
  by repeat split.
Qed.

Lemma appended_trans g g1 g2 : appended g g1 -> appended g1 g2 -> appended g g2.
Proof.
  intros (new1 & newe1 & Hn1 & He1 & Hk1 & Hid1 & Hlab1 & Hed1)
         (new2 & newe2 & Hn2 & He2 & Hk2 & Hid2 & Hlab2 & Hed2).
  exists (new1 ++ new2), (newe1 ++ newe2).
  split; [by rewrite Hn2, Hn1, app_assoc |].
  split; [by rewrite He2, He1, app_assoc |].
  split; [rewrite length_app; lia |].
  split; [by rewrite map_app, length_app, seq_app, Hid1, Hid2, Hk1 |].
  split; [by apply Forall_app |].
  apply Forall_app. split.
  - eapply Forall_impl; [exact Hed1 |]. intros e [(u & Hu & Hsrc) Hdst].
    split; [| lia]. exists u. split; [| done]. rewrite Hn2. apply elem_of_app. by left.
  - eapply Forall_impl; [exact Hed2 |]. intros e [Hsrc Hdst]. split; [done | lia].
Qed.

Lemma has_label_user_false label i props :
  label <> "User" -> has_label "User" (mkNode i [label] props) = false.
Proof.
  intros Hne. unfold has_label. cbn [node_labels].
  apply bool_decide_eq_false_2. intros H. apply list_elem_of_singleton in H. congruence.
Qed.

Lemma zip_edges_range rel (g g' : Graph) (us : list Node) : forall k : nat,
  Forall (fun u => u ∈ nodes g') us ->
  (next_id g <= k)%nat -> (k + length us <= next_id g')%nat ->
  Forall (fun e => (exists u, u ∈ nodes g' /\ edge_src e = node_id u) /\
                   (next_id g <= edge_dst e < next_id g')%nat)
         (zip_with (fun u i => mkEdge (node_id u) rel i) us (seq k (length us))).
Proof.
  induction us as [|u us IH]; intros k Hus Hlo Hhi; [constructor |].
  apply Forall_cons in Hus as [Hu Hus]. cbn [length seq zip_with] in *.
  constructor.
  - split; [by exists u |]. cbn [edge_dst]. lia.
  - apply IH; [done | lia | lia].
Qed.

Lemma create_linked_appended username rel label props g :
  label <> "User" -> appended g (create_linked username rel label props g).
Proof.
  intros Hne. unfold create_linked. rewrite create_linked_fold.
  set (us := filter (fun n => is_user username n) (nodes g)).
  set (new := map (fun i => mkNode i [label] props) (seq (next_id g) (length us))).
  set (newe := zip_with (fun u i => mkEdge (node_id u) rel i) us
                        (seq (next_id g) (length us))).
  assert (length new = length us) as Hlen
    by (unfold new; by rewrite length_map, length_seq).
  exists new, newe. cbn [nodes edges next_id]. rewrite Hlen.
  split; [reflexivity |]. split; [reflexivity |].
  split; [reflexivity |]. split; [| split].
  - unfold new. rewrite map_map. cbn [node_id]. apply map_id.
  - apply Forall_forall. intros n Hn.
    apply list_elem_of_In, in_map_iff in Hn as (i & <- & _).
    by apply has_label_user_false.
  - apply (zip_edges_range rel g
             (mkGraph (nodes g ++ new) (edges g ++ newe) (next_id g + length us))
             us (next_id g)); cbn [nodes next_id]; [| lia | lia].
    apply Forall_forall. intros u Hu. apply list_elem_of_filter in Hu as [_ Hu].
    apply elem_of_app. by left.
Qed.

Lemma extends_by_appended username m g g' : extends_by username m g g' -> appended g g'.
Proof.
  intros (new & newe & Hn & He & Hk & Hid & Hlab & Hdst & Hint).
  assert (length new = m) as Hlen
    by (rewrite <- (length_map node_id), Hid; apply length_seq).
  exists new, newe. rewrite Hlen.
  split; [done |]. split; [done |]. split; [done |]. split; [done |]. split.
  - eapply Forall_impl; [exact Hlab |]. intros [i ls ps] Hl. simpl in Hl. subst ls.
    by apply has_label_user_false.
  - apply Forall_forall. intros e He'. split.
    + rewrite Forall_forall in Hint. destruct (Hint e He') as [_ (u & Hu & _ & Hsrc)].
      exists u. split; [| done]. rewrite Hn. apply elem_of_app. by left.
    + assert (edge_dst e ∈ seq (next_id g) m) as Hin
        by (rewrite <- Hdst; apply list_elem_of_In, in_map; by apply list_elem_of_In).
      apply elem_of_seq in Hin. lia.
Qed.

Lemma appended_users name g g' :
  appended g g' ->
  filter (fun n => is_user name n) (nodes g') = filter (fun n => is_user name n) (nodes g).
Proof.
  intros (new & newe & Hn & _ & _ & _ & Hlab & _).
  rewrite Hn, filter_app, (filter_none _ new); [by rewrite app_nil_r |].
  intros n Hn' Hu. rewrite Forall_forall in Hlab. specialize (Hlab n Hn').
  unfold is_user in Hu. by rewrite Hlab in Hu.
Qed.

Lemma appended_wf g g' : wf_graph g -> appended g g' -> wf_graph g'.
Proof.
  intros [Hnd Hlt] (new & newe & Hn & _ & Hk & Hid & _). rewrite Forall_forall in Hlt.
  split; rewrite Hn.
  - rewrite map_app, Hid. apply NoDup_app. split; [done |]. split; [| apply NoDup_seq].
    intros i Hi Hi'. apply elem_of_seq in Hi'.
    apply list_elem_of_In, in_map_iff in Hi as (n0 & <- & Hn0).
    apply list_elem_of_In in Hn0. specialize (Hlt n0 Hn0). lia.
  - rewrite Hk. apply Forall_app. split.
    + apply Forall_forall. intros n0 Hn0. specialize (Hlt n0 Hn0). lia.
    + apply Forall_forall. intros n0 Hn0.
      assert (node_id n0 ∈ seq (next_id g) (length new)) as Hin
        by (rewrite <- Hid; apply list_elem_of_In, in_map; by apply list_elem_of_In).
      apply elem_of_seq in Hin. lia.
Qed.

Lemma appended_graph_ok g g' : graph_ok g -> appended g g' -> graph_ok g'.
Proof.
  intros (Hwf & Hcl & Huniq) Happ.
  pose proof (appended_wf _ _ Hwf Happ) as Hwf'.
  split; [done |]. split.
  - destruct Happ as (new & newe & Hn & He & Hk & Hid & Hlab & Hed).
    unfold edges_closed. rewrite He. apply Forall_app. split.
    + eapply Forall_impl; [exact Hcl |]. intros e [Hs Hd]. lia.
    + eapply Forall_impl; [exact Hed |]. intros e [(u & Hu & Hsrc) Hdst].
      destruct Hwf' as [_ Hlt]. rewrite Forall_forall in Hlt. specialize (Hlt u Hu). lia.
  - intros name. unfold user_count. rewrite (appended_users name _ _ Happ). apply Huniq.
Qed.

Lemma filter_update_where (q p : Node -> bool) (f : Node -> Node) g :
  (forall n, q (f n) = q n) ->
  length (filter (fun n => q n) (nodes (update_where p f g))) =
  length (filter (fun n => q n) (nodes g)).
Proof.
  intros Hq. unfold update_where. cbn [nodes].
  induction (nodes g) as [|n ns IH]; [done |].
  cbn [map]. rewrite !filter_cons.
  assert (q (if p n then f n else n) = q n) as Heq by (destruct (p n); by rewrite ?Hq).
  rewrite Heq. destruct (decide (q n)); simpl; by rewrite IH.
Qed.

Lemma touch_graph_ok p now g :
  graph_ok g -> graph_ok (update_where p (set_prop "last_active" (PTime now)) g).
Proof.
  intros (Hwf & Hcl & Huniq). split; [by apply update_where_wf |]. split; [done |].
  intros name. unfold user_count.
  rewrite (filter_update_where (is_user name)); [apply Huniq |].
  intros n. apply is_user_set_last_active.
Qed.

Lemma merge_user_graph_ok now username password g :
  graph_ok g -> graph_ok (fst (merge_user now username password g)).
Proof.
  intros Hok. pose proof Hok as (Hwf & Hcl & Huniq). unfold merge_user.
  destruct (existsb (is_user username) (nodes g)) eqn:Hex; cbn [fst];
    [by apply touch_graph_ok |].
  split; [by apply append_node_wf |]. split.
  - eapply Forall_impl; [exact Hcl |]. intros e [Hs Hd]. cbn [next_id]. lia.
  - intros name. unfold user_count. cbn [nodes]. rewrite filter_app, length_app.
    destruct (decide (name = username)) as [-> | Hne].
    + rewrite (filter_none _ (nodes g)).
      * rewrite filter_cons. case_decide; simpl; lia.
      * intros n Hn Hu. apply not_true_iff_false in Hex. apply Hex.
        apply existsb_exists. exists n. split; [by apply list_elem_of_In |].
        by destruct (is_user username n).
    + rewrite (filter_none _ [_]); [specialize (Huniq name); unfold user_count in Huniq;
                                    simpl; lia |].
      intros n Hn Hu. apply list_elem_of_singleton in Hn. subst n.
      unfold is_user, has_prop in Hu. cbn [node_props andb] in Hu.
      rewrite lookup_insert_eq in Hu.
      apply andb_prop_elim in Hu as [_ Hu]. apply bool_decide_unpack in Hu. congruence.
Qed.

(** ** Every run of _store_preferences *)

Lemma extends_by_more username j1 j2 g g1 g2 :
  extends_by username (j1 * user_count username g) g g1 ->
  extends_by username (j2 * user_count username g1) g1 g2 ->
  extends_by username ((j1 + j2) * user_count username g) g g2.
Proof.
  intros H1 H2. rewrite (extends_by_user_count _ _ _ _ H1) in H2.
  rewrite Nat.mul_add_distr_r. by eapply extends_by_trans.
Qed.

Lemma print_relationships_any rels : forall w,
  exists w', print_relationships rels w = (Return tt, w') /\
             session_state w' = session_state w.
Proof.
  induction rels as [|rel rest IH]; intros w; [by eexists |].
  cbn [print_relationships]. rewrite bind_run. cbn [print].
  destruct (IH (with_line ("Processing relationship: " +:+ rel_str rel) w))
    as (w' & Hrun & Hst).
  exists w'. split; [exact Hrun | by rewrite Hst].
Qed.

Lemma same_sessions_and_ui_state w w' :
  session_state w' = session_state w -> same_sessions_and_ui w w'.
Proof. intros H. unfold same_sessions_and_ui, agent. rewrite H. by repeat split. Qed.

Lemma store_entities_any username entities : forall params w,
  exists r params' w' j,
    store_entities username entities (params, w) = (r, (params', w')) /\
    (j <= length entities)%nat /\
    extends_by username (j * user_count username (graph_of w)) (graph_of w) (graph_of w') /\
    same_sessions_and_ui w w' /\
    (params <> None -> params' <> None) /\
    (params = None ->
       match entities with
       | [] => r = Return tt /\ params' = None /\ w' = w
       | entity :: _ =>
           match assoc "text" (properties entity) with
           | None => r = Raise (KeyError "text") /\ params' = None /\
                     graph_of w' = graph_of w
           | Some _ => params' <> None
           end
       end).
Proof.
  intros params w. destruct entities as [|entity rest].
  - exists (Return tt), params, w, 0%nat. split; [reflexivity |]. split; [done |].
    split; [apply extends_by_refl |]. split; [apply same_sessions_and_ui_refl |]. done.
  - rewrite store_entities_cons. cbv zeta.
    destruct (assoc "text" (properties entity)) as [t|] eqn:Ht.
    + eexists _, _, _, 0%nat. split; [reflexivity |]. split; [lia |].
      split; [apply extends_by_refl |]. split; [by repeat split |]. done.
    + eexists _, _, _, 0%nat. split; [reflexivity |]. split; [lia |].
      split; [apply extends_by_refl |]. split; [by repeat split |]. done.
Qed.

Lemma store_data_any username extracted_data : forall params w,
  exists r params' w' j,
    store_data username extracted_data (params, w) = (r, (params', w')) /\
    (j <= length (all_entities extracted_data))%nat /\
    extends_by username (j * user_count username (graph_of w)) (graph_of w) (graph_of w') /\
    same_sessions_and_ui w w' /\
    (params <> None -> params' <> None) /\
    (params = None ->
       match all_entities extracted_data with
       | [] => r = Return tt /\ params' = None /\ graph_of w' = graph_of w
       | entity :: _ =>
           match assoc "text" (properties entity) with
           | None => (exists e, r = Raise e) /\ params' = None /\
                     graph_of w' = graph_of w
           | Some _ => params' <> None
           end
       end).
Proof.
  induction extracted_data as [|data rest IH]; intros params w.
  - exists (Return tt), params, w, 0%nat. split; [reflexivity |]. split; [done |].
    split; [apply extends_by_refl |]. split; [apply same_sessions_and_ui_refl |]. done.
  - cbn [store_data all_entities flat_map]. rewrite bind_run.
    set (entities := default [] (data_entities data)).
    assert (exists r1 p1 w1 j1,
              match data_entities data with
              | Some es => store_entities username es
              | None => mret tt
              end (params, w) = (r1, (p1, w1)) /\
              (j1 <= length entities)%nat /\
              extends_by username (j1 * user_count username (graph_of w))
                         (graph_of w) (graph_of w1) /\
              same_sessions_and_ui w w1 /\
              (params <> None -> p1 <> None) /\
              (params = None ->
                 match entities with
                 | [] => r1 = Return tt /\ p1 = None /\ w1 = w
                 | entity :: _ =>
                     match assoc "text" (properties entity) with
                     | None => r1 = Raise (KeyError "text") /\ p1 = None /\
                               graph_of w1 = graph_of w
                     | Some _ => p1 <> None
                     end
                 end))
      as (r1 & p1 & w1 & j1 & Hrun1 & Hj1 & Hext1 & Hsame1 & Hb1 & Hn1).
    { subst entities. destruct (data_entities data) as [es|]; cbn [default].
      - apply store_entities_any.
      - exists (Return tt), params, w, 0%nat. split; [reflexivity |]. split; [done |].
        split; [apply extends_by_refl |]. split; [apply same_sessions_and_ui_refl |].
        done. }
    rewrite Hrun1. rewrite length_app.
    destruct r1 as [[]|e1].
    + rewrite bind_run.
      assert (exists w2, match data_relationships data with
                         | Some rels => lift (print_relationships rels)
                         | None => mret tt
                         end (p1, w1) = (Return tt, (p1, w2)) /\
                         session_state w2 = session_state w1) as (w2 & Hrun2 & Hst2).
      { destruct (data_relationships data) as [rels|]; [| by exists w1].
        destruct (print_relationships_any rels w1) as (w2 & Hrun & Hst).
        exists w2. split; [| done]. unfold lift. cbn [fst snd]. by rewrite Hrun. }
      rewrite Hrun2.
      destruct (IH p1 w2) as (r & params' & w' & j & Hrun & Hj & Hext & Hsame & Hb & Hn).
      assert (graph_of w2 = graph_of w1) as Hg2 by (unfold graph_of, agent; by rewrite Hst2).
      exists r, params', w', (j1 + j)%nat. split; [exact Hrun |].
      split; [unfold all_entities in Hj; lia |].
      split; [| split; [| split]].
      * apply (extends_by_more username j1 j (graph_of w) (graph_of w1) (graph_of w'));
          [done | by rewrite <- Hg2].
      * eapply same_sessions_and_ui_trans; [exact Hsame1 |].
        eapply same_sessions_and_ui_trans; [| exact Hsame].
        by apply same_sessions_and_ui_state.
      * intros Hp. by apply Hb, Hb1.
      * intros Hp. specialize (Hn1 Hp). destruct entities as [|entity es]; cbn [app].
        -- destruct Hn1 as (_ & -> & ->). specialize (Hn eq_refl). rewrite Hg2 in Hn.
           exact Hn.
        -- destruct (assoc "text" (properties entity)); [by apply Hb | by destruct Hn1].
    + exists (Raise e1), p1, w1, j1. split; [reflexivity |]. split; [lia |].
      split; [done |]. split; [done |]. split; [done |].
      intros Hp. specialize (Hn1 Hp). destruct entities as [|entity es]; cbn [app].
      * by destruct Hn1.
      * destruct (assoc "text" (properties entity)); [done |].
        destruct Hn1 as (_ & -> & Hg). split; [by eexists | done].
Qed.

Lemma extends_by_0 username g g' : extends_by username 0 g g' -> g' = g.
Proof.
  intros (new & newe & Hn & He & Hk & Hid & _ & Hdst & _).
  destruct new; [| discriminate]. destruct newe; [| discriminate].
  rewrite app_nil_r in Hn, He. rewrite Nat.add_0_r in Hk.
  destruct g, g'. simpl in *. by subst.
Qed.

Lemma store_preferences_any username extracted_data w :
  exists r w' j,
    _store_preferences username extracted_data w = (r, w') /\
    (j <= length (all_entities extracted_data))%nat /\
    extends_by username (j * user_count username (graph_of w)) (graph_of w) (graph_of w') /\
    same_sessions_and_ui w w' /\
    r = match all_entities extracted_data with
        | [] => Return tt
        | entity :: _ =>
            match assoc "text" (properties entity) with
            | None => Raise (UnboundLocalError "params")
            | Some _ => Return tt
            end
        end /\
    (r = Raise (UnboundLocalError "params") -> graph_of w' = graph_of w).
Proof.
  destruct (store_data_any username extracted_data None w)
    as (r & params' & w' & j & Hrun & Hj & Hext & Hsame & _ & Hn).
  specialize (Hn eq_refl).
  unfold _store_preferences, with_locals, try_except. rewrite Hrun.
  destruct r as [[]|e].
  - exists (Return tt), w', j. split; [reflexivity |]. split; [done |].
    split; [done |]. split; [done |]. split; [| done].
    destruct (all_entities extracted_data) as [|entity es]; [done |].
    destruct (assoc "text" (properties entity)); [done |].
    by destruct Hn as [[e He] _].
  - rewrite bind_run, lift_print_run, bind_run. cbn [get_local fst].
    destruct params' as [ps|].
    + rewrite lift_print_run. cbn [snd]. eexists (Return tt), _, j.
      split; [reflexivity |]. split; [done |]. split; [exact Hext |].
      split; [by destruct Hsame as (? & ? & ? & ? & ? & ? & ?) |]. split; [| done].
      destruct (all_entities extracted_data) as [|entity es]; [by destruct Hn |].
      destruct (assoc "text" (properties entity)); [done | by destruct Hn as (_ & ? & _)].
    + unfold raise. cbn [snd]. eexists (Raise (UnboundLocalError "params")), _, j.
      split; [reflexivity |]. split; [done |]. split; [exact Hext |].
      split; [by destruct Hsame as (? & ? & ? & ? & ? & ? & ?) |].
      destruct (all_entities extracted_data) as [|entity es]; [by destruct Hn |].
      destruct (assoc "text" (properties entity)); [by destruct Hn |].
      split; [done |]. intros _. by destruct Hn as (_ & _ & Hg).
Qed.

Lemma no_user_count username g :
  user_exists username g = false -> user_count username g = 0%nat.
Proof.
  unfold user_exists, user_count. rewrite <- truthy_filter.
  by destruct (filter _ _).
Qed.

(** X2: [_store_preferences] raises exactly when the first entity it
    visits has no [text]: the [KeyError] comes before [params] was ever
    assigned, and the handler, which prints [params], raises
    [UnboundLocalError] in its turn; the graph is then as before. In every
    other case (the query of the first entity raises and is handled, or
    there is no entity at all) it returns normally. *)
Theorem store_preferences_result (username : string) (extracted_data : list Data)
    (w : World) :
  fst (_store_preferences username extracted_data w) =
    match all_entities extracted_data with
    | [] => Return tt
    | entity :: _ =>
        match assoc "text" (properties entity) with
        | None => Raise (UnboundLocalError "params")
        | Some _ => Return tt
        end
    end /\
  (fst (_store_preferences username extracted_data w) = Raise (UnboundLocalError "params") ->
   graph_of (snd (_store_preferences username extracted_data w)) = graph_of w).
Proof.
  destruct (store_preferences_any username extracted_data w)
    as (r & w' & j & Hrun & _ & _ & _ & Hr & Hg).
  rewrite Hrun. cbn [fst snd]. by split.
Qed.

(** X3: whatever happens in a call of [_store_preferences] (any fault of
    the driver, any entity without [text]), the graph it leaves is the one
    it found plus, at most, Preference nodes under fresh ids and
    INTERESTED_IN edges from the user, at most one of each per entity and
    user node (C6 shows that there is none): nothing is deleted or
    changed, and the session table and the UI state are untouched. For a
    username without User node the graph is left as it was. *)
Theorem store_preferences_only_appends (username : string) (extracted_data : list Data)
    (w : World) :
  let w' := snd (_store_preferences username extracted_data w) in
  (exists j, (j <= length (all_entities extracted_data))%nat /\
     extends_by username (j * user_count username (graph_of w)) (graph_of w) (graph_of w')) /\
  same_sessions_and_ui w w' /\
  (user_exists username (graph_of w) = false -> graph_of w' = graph_of w).
Proof.
  destruct (store_preferences_any username extracted_data w)
    as (r & w' & j & Hrun & Hj & Hext & Hsame & _).
  cbv zeta. rewrite Hrun. cbn [snd]. split; [by exists j |]. split; [done |].
  intros Hno. rewrite (no_user_count _ _ Hno), Nat.mul_0_r in Hext.
  by apply extends_by_0 in Hext.
Qed.

(** ** Every run of store_user_memory *)

Lemma extract_preferences_return result username text w s :
  schema (agent w) = Some s ->
  exists data, extract_preferences (Return result) username text w = (Return data, w) /\
    all_entities data = graph_nodes result /\
    truthy data = truthy (graph_nodes result) || truthy (graph_relationships result).
Proof.
  intros Hs. unfold extract_preferences. rewrite bind_run. unfold getattr. rewrite Hs.
  rewrite bind_run. unfold outcome. cbv zeta.
  destruct (graph_nodes result) as [|n ns], (graph_relationships result) as [|r rs];
    cbn [truthy app]; eexists; (split; [reflexivity |]); split; try done;
    cbn [all_entities flat_map data_entities default app]; by rewrite ?app_nil_r.
Qed.

Lemma extract_preferences_cases run username text w :
  (exists e, extract_preferences run username text w = (Raise e, w)) \/
  (exists result s data, run = Return result /\ schema (agent w) = Some s /\
     extract_preferences run username text w = (Return data, w) /\
     all_entities data = graph_nodes result).
Proof.
  destruct (schema (agent w)) as [s|] eqn:Hs.
  - destruct run as [result | e].
    + right. destruct (extract_preferences_return result username text w s Hs)
        as (data & Hrun & Hall & _). by exists result, s, data.
    + left. exists e. unfold extract_preferences. rewrite bind_run. unfold getattr.
      by rewrite Hs.
  - left. eexists. unfold extract_preferences. rewrite bind_run. unfold getattr.
    by rewrite Hs.
Qed.

Lemma store_user_memory_answers result now username text w s t :
  schema (agent w) = Some s -> retriever (agent w) = Some t ->
  answers 1 w = true ->
  exists w' j,
    store_user_memory (Return result) now username text w = (Return tt, w') /\
    (j <= length (graph_nodes result))%nat /\
    extends_by username (j * user_count username (graph_of w))
      (fst (create_memory username text now (graph_of w))) (graph_of w') /\
    same_sessions_and_ui w w' /\
    (truthy (graph_nodes result) || truthy (graph_relationships result) = false ->
     w' = after_query (fst (create_memory username text now (graph_of w))) w).
Proof.
  intros Hs Ht Ha.
  destruct (extract_preferences_return result username text w s Hs)
    as (data & Hx & Hall & Htruthy).
  set (g1 := fst (create_memory username text now (graph_of w))).
  assert (user_count username g1 = user_count username (graph_of w)) as Hk.
  { assert ("Memory" <> "User") as Hne by done.
    unfold user_count, g1, create_memory. cbn [fst].
    by rewrite (appended_users _ _ _ (create_linked_appended _ _ _ _ _ Hne)). }
  unfold store_user_memory, try_except, store_user_memory_try.
  rewrite bind_run, Hx, bind_run. unfold getattr at 1. rewrite Ht.
  rewrite bind_run, (execute_query_answers _ _ _ Ha) by reflexivity. cbn [effect]. fold g1.
  destruct (truthy data) eqn:Hd.
  - destruct (store_preferences_any username data (after_query g1 w))
      as (r & w' & j & Hrun & Hj & Hext & Hsame & _).
    rewrite Hrun. rewrite Hall in Hj.
    change (graph_of (after_query g1 w)) with g1 in Hext. rewrite Hk in Hext.
    destruct r as [[]|e].
    + exists w', j. split; [reflexivity |]. split; [done |]. split; [done |].
      split; [| intros Hf; rewrite <- Htruthy in Hf; congruence].
      eapply same_sessions_and_ui_trans; [| exact Hsame]. by repeat split.
    + eexists _, j. split; [reflexivity |]. split; [done |]. split; [exact Hext |].
      split; [| intros Hf; rewrite <- Htruthy in Hf; congruence].
      eapply same_sessions_and_ui_trans; [| eapply same_sessions_and_ui_trans;
                                              [exact Hsame |]]; by repeat split.
  - exists (after_query g1 w), 0%nat. split; [reflexivity |]. split; [lia |].
    split; [apply extends_by_refl |]. split; [by repeat split | done].
Qed.

Lemma no_user_filter username g :
  user_exists username g = false -> filter (fun n => is_user username n) (nodes g) = [].
Proof.
  unfold user_exists. rewrite <- truthy_filter. by destruct (filter _ _).
Qed.

Lemma create_linked_no_user username rel label props g :
  user_exists username g = false -> create_linked username rel label props g = g.
Proof. intros H. unfold create_linked. by rewrite (no_user_filter _ _ H). Qed.

Lemma store_user_memory_any run now username text w :
  exists w', store_user_memory run now username text w = (Return tt, w') /\
    appended (graph_of w) (graph_of w') /\
    same_sessions_and_ui w w' /\
    (user_exists username (graph_of w) = false -> graph_of w' = graph_of w).
Proof.
  destruct (extract_preferences_cases run username text w)
    as [[e Hx] | (result & s & data & -> & Hs & Hx & _)].
  { eexists. split.
    - unfold store_user_memory, try_except, store_user_memory_try.
      rewrite bind_run, Hx. reflexivity.
    - split; [apply appended_refl |]. split; [by repeat split | done]. }
  destruct (retriever (agent w)) as [t|] eqn:Ht.
  - destruct (answers_1_cases w) as [Ha | (e & rest & He)].
    + destruct (store_user_memory_answers result now username text w s t Hs Ht Ha)
        as (w' & j & Hrun & _ & Hext & Hsame & _).
      exists w'. split; [exact Hrun |]. split; [| split; [done |]].
      * eapply appended_trans; [| by eapply extends_by_appended].
        unfold create_memory. cbn [fst]. by apply create_linked_appended.
      * intros Hno. rewrite (no_user_count _ _ Hno), Nat.mul_0_r in Hext.
        apply extends_by_0 in Hext. rewrite Hext. unfold create_memory. cbn [fst].
        by apply create_linked_no_user.
    + eexists. split.
      * unfold store_user_memory, try_except, store_user_memory_try.
        rewrite bind_run, Hx, bind_run. unfold getattr at 1. rewrite Ht.
        rewrite bind_run, (execute_query_fault _ _ _ _ _ He). reflexivity.
      * split; [apply appended_refl |]. split; [by repeat split | done].
  - eexists. split.
    + unfold store_user_memory, try_except, store_user_memory_try.
      rewrite bind_run, Hx, bind_run. unfold getattr at 1. rewrite Ht. reflexivity.
    + split; [apply appended_refl |]. split; [by repeat split | done].
Qed.

(** X4: once the agent is initialised, the extractor has returned and the
    driver has answered the first query, [store_user_memory] has written
    one Memory node, with the text and the timestamp, and one REMEMBERS
    edge for each User node of that name, and they stay whatever the
    preference step does next (it may fail or raise): what follows them in
    the graph are Preference nodes and INTERESTED_IN edges only. *)
Theorem store_user_memory_writes_memory (result : Neo4jGraph) (now : Z)
    (username text : string) (w : World) (s : SchemaConfig) (t : Text2CypherRetriever) :
  schema (agent w) = Some s -> retriever (agent w) = Some t ->
  answers 1 w = true ->
  let g := graph_of w in
  let w' := snd (store_user_memory (Return result) now username text w) in
  let users := filter (fun n => is_user username n) (nodes g) in
  let ids := seq (next_id g) (length users) in
  exists prefs pref_edges,
    nodes (graph_of w') =
      nodes g ++
      map (fun i => mkNode i ["Memory"]
                      (<["text" := PStr text]> (<["timestamp" := PTime now]> ∅))) ids ++
      prefs /\
    edges (graph_of w') =
      edges g ++ zip_with (fun u i => mkEdge (node_id u) "REMEMBERS" i) users ids ++
      pref_edges /\
    Forall (fun n => node_labels n = ["Preference"]) prefs /\
    Forall (fun e => edge_type e = "INTERESTED_IN") pref_edges /\
    (length prefs <= length (graph_nodes result) * length users)%nat /\
    length pref_edges = length prefs /\
    same_sessions_and_ui w w'.
Proof.
  intros Hs Ht Ha. cbv zeta.
  destruct (store_user_memory_answers result now username text w s t Hs Ht Ha)
    as (w' & j & Hrun & Hj & Hext & Hsame & _).
  rewrite Hrun. cbn [snd].
  destruct Hext as (new & newe & Hn & He & _ & Hid & Hlab & Hdst & Hint).
  exists new, newe.
  unfold create_memory, create_linked in Hn, He. cbn [fst] in Hn, He.
  rewrite create_linked_fold in Hn, He. cbn [nodes edges] in Hn, He.
  rewrite <- app_assoc in Hn, He.
  split; [exact Hn |]. split; [exact He |]. split; [done |]. split.
  - eapply Forall_impl; [exact Hint |]. by intros e [Htype _].
  - assert (length new = (j * user_count username (graph_of w))%nat) as Hlen
      by (rewrite <- (length_map node_id), Hid; apply length_seq).
    assert (length newe = (j * user_count username (graph_of w))%nat) as Hlen'
      by (rewrite <- (length_map edge_dst), Hdst; apply length_seq).
    unfold user_count in *. split; [| split; [lia | done]].
    rewrite Hlen. apply Nat.mul_le_mono_r. done.
Qed.

(** X5: for a username that has no User node, [store_user_memory] returns
    without writing anything to the graph, whatever the extractor and the
    driver do; and when the agent is initialised, the driver answers and
    nothing was extracted, it does not print anything either: the memory
    is dropped in silence. *)
Theorem store_user_memory_unknown_user (run : Result Neo4jGraph) (now : Z)
    (username text : string) (w : World) :
  user_exists username (graph_of w) = false ->
  exists w', store_user_memory run now username text w = (Return tt, w') /\
    graph_of w' = graph_of w /\
    same_sessions_and_ui w w' /\
    (forall result, run = Return result ->
       truthy (graph_nodes result) || truthy (graph_relationships result) = false ->
       schema (agent w) <> None -> retriever (agent w) <> None ->
       answers 1 w = true ->
       stdout w' = stdout w).
Proof.
  intros Hno.
  destruct (store_user_memory_any run now username text w)
    as (w' & Hrun & _ & Hsame & Hg).
  exists w'. split; [exact Hrun |]. split; [by apply Hg |]. split; [done |].
  intros result -> Hnothing Hs Ht Ha.
  destruct (schema (agent w)) as [s|] eqn:Hs'; [| done].
  destruct (retriever (agent w)) as [t|] eqn:Ht'; [| done].
  destruct (store_user_memory_answers result now username text w s t Hs' Ht' Ha)
    as (w'' & j & Hrun' & _ & _ & _ & Hw).
  rewrite Hrun in Hrun'. injection Hrun' as <-. by rewrite (Hw Hnothing).
Qed.

(** ** What every call keeps *)

Lemma create_user_graph now username password w :
  graph_of (snd (create_user now username password w)) = graph_of w \/
  graph_of (snd (create_user now username password w)) =
    fst (merge_user now username (_hash_password password) (graph_of w)).
Proof.
  destruct (answers_1_cases w) as [Ha | (e & rest & He)].
  - right. by rewrite (create_user_answers _ _ _ _ Ha).
  - left. by rewrite (create_user_fault _ _ _ _ _ _ He).
Qed.

Lemma authenticate_user_graph db_now token now username password w :
  graph_of (snd (authenticate_user db_now token now username password w)) = graph_of w \/
  graph_of (snd (authenticate_user db_now token now username password w)) =
    fst (match_user_set_active db_now username (_hash_password password) (graph_of w)).
Proof.
  destruct (answers_1_cases w) as [Ha | (e & rest & He)].
  - right. rewrite (authenticate_user_answers _ _ _ _ _ _ Ha). cbv zeta.
    by destruct (credentials_match _ _ _).
  - left. by rewrite (authenticate_user_fault _ _ _ _ _ _ _ _ He).
Qed.

Lemma handle_login_agent db_now token now username password w :
  agent (snd (handle_login db_now token now username password w)) =
  agent (snd (authenticate_user db_now token now username password w)).
Proof.
  unfold handle_login. rewrite bind_run.
  destruct (authenticate_user db_now token now username password w) as [[[t|]|e] w1];
    try done.
  by destruct (bool_decide (t = "")).
Qed.

Lemma handle_signup_agent db_now0 db_now token now username password w :
  let w1 := snd (create_user db_now0 username password w) in
  agent (snd (handle_signup db_now0 db_now token now username password w)) = agent w1 \/
  agent (snd (handle_signup db_now0 db_now token now username password w)) =
    agent (snd (handle_login db_now token now username password w1)).
Proof.
  cbv zeta. unfold handle_signup. rewrite bind_run.
  destruct (create_user db_now0 username password w) as [[[]|e] w1]; cbn [snd]; auto.
Qed.

Lemma get_user_preferences_agent username w :
  graph_of (snd (get_user_preferences username w)) = graph_of w /\
  same_sessions_and_ui w (snd (get_user_preferences username w)) /\
  stdout (snd (get_user_preferences username w)) = stdout w.
Proof.
  destruct (answers_1_cases w) as [Ha | (e & rest & He)].
  - rewrite (get_user_preferences_answers _ _ Ha). cbn [snd]. by repeat split.
  - rewrite (get_user_preferences_fault _ _ _ _ He). cbn [snd]. by repeat split.
Qed.

Lemma validate_session_driver now token w :
  driver (agent (snd (validate_session now token w))) = driver (agent w).
Proof.
  unfold validate_session.
  destruct (user_sessions (agent w) !! token) as [t|]; [| done].
  by destruct (bool_decide _).
Qed.

Lemma run_call_graph_ok c w :
  graph_ok (graph_of w) -> graph_ok (graph_of (run_call c w)).
Proof.
  intros Hok. destruct c; cbn [run_call].
  - destruct (create_user_graph now username password w) as [-> | ->];
      [done | by apply merge_user_graph_ok].
  - destruct (authenticate_user_graph db_now token now username password w) as [-> | ->];
      [done | by apply touch_graph_ok].
  - unfold graph_of. by rewrite validate_session_driver.
  - by rewrite (proj1 (get_user_preferences_agent username w)).
  - destruct (store_user_memory_any run now username text w) as (w' & -> & Happ & _).
    by apply (appended_graph_ok (graph_of w)).
  - destruct (store_preferences_any username extracted_data w)
      as (r & w' & j & -> & _ & Hext & _).
    apply (appended_graph_ok (graph_of w)); [done | by eapply extends_by_appended].
  - unfold graph_of. rewrite handle_login_agent.
    destruct (authenticate_user_graph db_now token now username password w) as [H | H];
      unfold graph_of in H; rewrite H; [done | by apply touch_graph_ok].
  - assert (graph_ok (graph_of (snd (create_user db_now0 username password w)))) as Hok1.
    { destruct (create_user_graph db_now0 username password w) as [-> | ->];
        [done | by apply merge_user_graph_ok]. }
    destruct (handle_signup_agent db_now0 db_now token now username password w) as [H | H];
      unfold graph_of; rewrite H; [done |].
    rewrite handle_login_agent.
    destruct (authenticate_user_graph db_now token now username password
                (snd (create_user db_now0 username password w))) as [H' | H'];
      unfold graph_of in H'; rewrite H'; [done | by apply touch_graph_ok].
  - done.
Qed.

Lemma store_preferences_timeout username extracted_data w :
  session_timeout (agent (snd (_store_preferences username extracted_data w)))
  = session_timeout (agent w).
Proof.
  destruct (store_preferences_any username extracted_data w)
    as (r & w' & j & -> & _ & _ & Hsame & _).
  by destruct Hsame as (_ & ? & _).
Qed.

Lemma run_call_timeout c w :
  session_timeout (agent (run_call c w)) = session_timeout (agent w).
Proof.
  destruct c; cbn [run_call].
  - apply create_user_timeout.
  - apply authenticate_user_timeout.
  - apply validate_session_timeout.
  - by destruct (get_user_preferences_agent username w) as (_ & (_ & ? & _) & _).
  - destruct (store_user_memory_any run now username text w) as (w' & -> & _ & Hsame & _).
    by destruct Hsame as (_ & ? & _).
  - apply store_preferences_timeout.
  - rewrite handle_login_agent. apply authenticate_user_timeout.
  - destruct (handle_signup_agent db_now0 db_now token now username password w) as [H | H];
      rewrite H; [apply create_user_timeout |].
    rewrite handle_login_agent, authenticate_user_timeout. apply create_user_timeout.
  - done.
Qed.

(** X7: whatever calls are made, in whatever order and with whatever
    faults of the driver, the graph stays well formed: node ids stay
    unique and below the counter, every edge joins two ids handed out,
    and no username gets a second User node; and the session timeout
    stays what it was. *)
Theorem calls_keep_graph_ok (calls : list Call) (w : World) :
  graph_ok (graph_of w) ->
  graph_ok (graph_of (run_calls calls w)) /\
  session_timeout (agent (run_calls calls w)) = session_timeout (agent w).
Proof.
  unfold run_calls. revert w. induction calls as [|c calls IH]; intros w Hok; [done |].
  cbn [fold_left].
  destruct (IH (run_call c w) (run_call_graph_ok c w Hok)) as [Hok' Ht].
  split; [done |]. by rewrite Ht, run_call_timeout.
Qed.

(** ** Sessions over many calls *)

Lemma authenticate_user_sessions db_now token now username password w :
  sessions_of (snd (authenticate_user db_now token now username password w)) = sessions_of w \/
  sessions_of (snd (authenticate_user db_now token now username password w)) =
    <[token := now]> (sessions_of w).
Proof.
  destruct (answers_1_cases w) as [Ha | (e & rest & He)].
  - rewrite (authenticate_user_answers _ _ _ _ _ _ Ha). cbv zeta.
    destruct (credentials_match _ _ _); [by right | by left].
  - left. by rewrite (authenticate_user_fault _ _ _ _ _ _ _ _ He).
Qed.

Lemma create_user_sessions now username password w :
  sessions_of (snd (create_user now username password w)) = sessions_of w.
Proof.
  destruct (answers_1_cases w) as [Ha | (e & rest & He)].
  - by rewrite (create_user_answers _ _ _ _ Ha).
  - by rewrite (create_user_fault _ _ _ _ _ _ He).
Qed.

Lemma validate_session_sessions now token w :
  sessions_of (snd (validate_session now token w)) = sessions_of w \/
  sessions_of (snd (validate_session now token w)) = delete token (sessions_of w).
Proof.
  unfold validate_session, sessions_of.
  destruct (user_sessions (agent w) !! token) as [t|]; [| by left].
  destruct (bool_decide _); [by right | by left].
Qed.

Lemma run_call_absent token c w :
  draws token c = false ->
  sessions_of w !! token = None -> sessions_of (run_call c w) !! token = None.
Proof.
  intros Hd Hnone. destruct c; cbn [run_call draws] in *.
  - by rewrite create_user_sessions.
  - apply bool_decide_eq_false in Hd.
    destruct (authenticate_user_sessions db_now token0 now username password w) as [-> | ->];
      [done | by rewrite lookup_insert_ne].
  - destruct (validate_session_sessions now token0 w) as [-> | ->]; [done |].
    destruct (decide (token0 = token)) as [-> | Hne];
      [apply lookup_delete_eq | by rewrite lookup_delete_ne].
  - destruct (get_user_preferences_agent username w) as (_ & (Hs & _) & _).
    unfold sessions_of. by rewrite Hs.
  - destruct (store_user_memory_any run now username text w) as (w' & -> & _ & Hsame & _).
    destruct Hsame as (Hs & _). unfold sessions_of. cbn [snd]. by rewrite Hs.
  - destruct (store_preferences_any username extracted_data w)
      as (r & w' & j & -> & _ & _ & Hsame & _).
    destruct Hsame as (Hs & _). unfold sessions_of. cbn [snd]. by rewrite Hs.
  - apply bool_decide_eq_false in Hd. unfold sessions_of. rewrite handle_login_agent.
    destruct (authenticate_user_sessions db_now token0 now username password w) as [H | H];
      unfold sessions_of in H; rewrite H; [done | by rewrite lookup_insert_ne].
  - apply bool_decide_eq_false in Hd.
    pose proof (create_user_sessions db_now0 username password w) as Hc.
    destruct (handle_signup_agent db_now0 db_now token0 now username password w) as [H | H];
      unfold sessions_of in *; rewrite H; [by rewrite Hc |].
    rewrite handle_login_agent.
    destruct (authenticate_user_sessions db_now token0 now username password
                (snd (create_user db_now0 username password w))) as [H' | H'];
      unfold sessions_of in H'; rewrite H', Hc; [done | by rewrite lookup_insert_ne].
  - done.
Qed.

Lemma run_calls_absent token calls : forall w,
  forallb (fun c => negb (draws token c)) calls = true ->
  sessions_of w !! token = None -> sessions_of (run_calls calls w) !! token = None.
Proof.
  unfold run_calls. induction calls as [|c calls IH]; intros w Hd Hnone; [done |].
  cbn [forallb] in Hd. apply andb_true_iff in Hd as [Hc Hd]. cbn [fold_left].
  apply IH; [done |]. apply run_call_absent; [by apply negb_true_iff | done].
Qed.

(** X8: a token that is not in the session table, because it was never
    issued or because [validate_session] met it expired and deleted it,
    does not validate again, at whatever time and whatever calls are made
    in between, as long as no login draws that very token. *)
Theorem absent_token_stays_invalid (token : string) (calls : list Call) (w : World) :
  forallb (fun c => negb (draws token c)) calls = true ->
  (sessions_of w !! token = None ->
   forall later, fst (validate_session later token (run_calls calls w)) = Return false) /\
  (forall now issued,
     sessions_of w !! token = Some issued -> now - issued > session_timeout (agent w) ->
     forall later,
       fst (validate_session later token
              (run_calls (CallValidateSession now token :: calls) w)) = Return false).
Proof.
  intros Hd. split.
  - intros Hnone later.
    by rewrite validate_session_absent by (by apply run_calls_absent).
  - intros now issued Hin Hgt later.
    change (run_calls (CallValidateSession now token :: calls) w)
      with (run_calls calls (snd (validate_session now token w))).
    rewrite validate_session_absent; [done |].
    apply run_calls_absent; [done |].
    rewrite (validate_session_expired _ _ _ _ Hin Hgt). cbn [snd].
    rewrite sessions_of_with_sessions. apply lookup_delete_eq.
Qed.

Lemma wrong_password_step db_now token now username password w :
  credentials_match username password (graph_of w) = false ->
  fst (authenticate_user db_now token now username password w) = Return None /\
  graph_of (snd (authenticate_user db_now token now username password w)) = graph_of w /\
  sessions_of (snd (authenticate_user db_now token now username password w)) = sessions_of w.
Proof.
  intros Hno. destruct (answers_1_cases w) as [Ha | (e & rest & He)].
  - rewrite (authenticate_user_answers _ _ _ _ _ _ Ha). cbv zeta. rewrite Hno.
    cbn [fst snd]. split; [done |]. split; [| done].
    unfold match_user_set_active. cbn [fst]. unfold credentials_match in Hno.
    by rewrite (update_where_none _ _ _ Hno).
  - by rewrite (authenticate_user_fault _ _ _ _ _ _ _ _ He).
Qed.

(** X9: a wrong password is refused however often it is tried: after any
    number of attempts with credentials that match no User node, whether
    the driver answered them or not, the graph and the session table are
    as before, and the next attempt is refused too. There is no lockout
    and no trace of the attempts but what was printed. *)
Theorem wrong_password_refused_every_time (username password : string)
    (tries : list (Z * string * Z)) (w : World) :
  credentials_match username password (graph_of w) = false ->
  let w' := run_calls (attempts username password tries) w in
  graph_of w' = graph_of w /\ sessions_of w' = sessions_of w /\
  forall db_now token now,
    fst (authenticate_user db_now token now username password w') = Return None.
Proof.
  cbv zeta. unfold run_calls, attempts. revert w.
  induction tries as [|[[db_now token] now] tries IH]; intros w Hno.
  - split; [done |]. split; [done |]. intros db_now token now.
    by apply wrong_password_step.
  - cbn [map fold_left run_call fst snd].
    destruct (wrong_password_step db_now token now username password w Hno)
      as (_ & Hg & Hs).
    destruct (IH (snd (authenticate_user db_now token now username password w)))
      as (Hg' & Hs' & Hnext); [by rewrite Hg |].
    split; [by rewrite Hg' |]. split; [by rewrite Hs' |]. exact Hnext.
Qed.

(** ** create_user, more closely *)

(** X10: [create_user] never raises, and what it returns is whether the
    call of the driver ran: True for a new user and for one that exists
    alike, False after a fault. After a fault the graph is as before and
    one line is printed; the session table and the UI state are never
    touched. *)
Theorem create_user_result (now : Z) (username password : string) (w : World) :
  let w' := snd (create_user now username password w) in
  fst (create_user now username password w) = Return (answers 1 w) /\
  same_sessions_and_ui w w' /\
  (answers 1 w = true -> stdout w' = stdout w) /\
  (answers 1 w = false ->
   graph_of w' = graph_of w /\
   exists e, stdout w' = stdout w ++ ["Error creating user: " +:+ exc_str e]).
Proof.
  cbv zeta. destruct (answers_1_cases w) as [Ha | (e & rest & He)].
  - rewrite (create_user_answers _ _ _ _ Ha), Ha. cbn [fst snd].
    split; [done |]. split; [by repeat split |]. split; [done | discriminate].
  - rewrite (create_user_fault _ _ _ _ _ _ He). cbn [fst snd].
    assert (answers 1 w = false) as -> by (unfold answers; by rewrite He).
    split; [done |]. split; [by repeat split |]. split; [discriminate |].
    intros _. split; [done | by exists e].
Qed.

(** X11: for a name that is free, with the driver answering, [create_user]
    adds one User node under the next id and nothing else: its properties
    are the username, the digest of the password (not the password),
    and [created_at] and [last_active], both the server's time. The name
    then has one node, and the credentials match. *)
Theorem create_user_new (now : Z) (username password : string) (w : World) :
  answers 1 w = true ->
  user_exists username (graph_of w) = false ->
  let g := graph_of w in
  let g' := graph_of (snd (create_user now username password w)) in
  exists u,
    nodes g' = nodes g ++ [u] /\ edges g' = edges g /\ next_id g' = S (next_id g) /\
    node_id u = next_id g /\ node_labels u = ["User"] /\
    dom (node_props u) = {["username"; "password"; "created_at"; "last_active"]} /\
    node_props u !! "username" = Some (PStr username) /\
    node_props u !! "password" = Some (PStr (_hash_password password)) /\
    node_props u !! "created_at" = Some (PTime now) /\
    node_props u !! "last_active" = Some (PTime now) /\
    user_count username g' = 1%nat /\
    credentials_match username password g' = true.
Proof.
  intros Ha Hno. cbv zeta. rewrite (create_user_answers _ _ _ _ Ha).
  change (graph_of (snd (_, after_query ?g w))) with g.
  assert (credentials_match username password
            (fst (merge_user now username (_hash_password password) (graph_of w))) = true)
    as Hm by (by rewrite credentials_match_after_merge, Hno).
  revert Hm. unfold merge_user. unfold user_exists in Hno. rewrite Hno. cbn [fst].
  intros Hm. eexists. cbn [nodes edges next_id].
  split; [reflexivity |]. split; [reflexivity |]. split; [reflexivity |].
  cbn [node_id node_labels node_props].
  split; [reflexivity |]. split; [reflexivity |].
  split; [rewrite !dom_insert_L, dom_empty_L; set_solver |].
  split; [by simplify_map_eq |]. split; [by simplify_map_eq |].
  split; [by simplify_map_eq |]. split; [by simplify_map_eq |].
  split; [| exact Hm].
  unfold user_count. cbn [nodes]. rewrite filter_app.
  rewrite (no_user_filter username (graph_of w)) by exact Hno.
  cbn [app]. rewrite filter_cons, decide_True; [done |].
  unfold is_user, has_label, has_prop. cbn [node_labels node_props].
  rewrite lookup_insert_eq.
  rewrite !bool_decide_eq_true_2; [done | done | apply list_elem_of_here].
Qed.

(** ** The login and signup handlers *)

Lemma handle_login_cases db_now token now username password w :
  token <> "" ->
  (credentials_match username password (graph_of w) = true /\ answers 1 w = true /\
   handle_login db_now token now username password w =
   (Return true,
    set_login username token
      (with_sessions (<[token := now]> (sessions_of w))
         (after_query (fst (match_user_set_active db_now username
                              (_hash_password password) (graph_of w))) w)))) \/
  (exists w', handle_login db_now token now username password w = (Return false, w') /\
     same_sessions_and_ui w w' /\ graph_of w' = graph_of w).
Proof.
  intros Htok. destruct (answers_1_cases w) as [Ha | (e & rest & He)].
  - rewrite (handle_login_answers _ _ _ _ _ _ Ha Htok). cbv zeta.
    destruct (credentials_match username password (graph_of w)) eqn:Hm.
    + by left.
    + right. eexists. split; [reflexivity |]. split; [by repeat split |].
      unfold match_user_set_active. cbn [fst]. unfold credentials_match in Hm.
      change (graph_of (after_query ?g w)) with g.
      by rewrite (update_where_none _ _ _ Hm).
  - right. eexists. split.
    + unfold handle_login.
      by rewrite bind_run, (authenticate_user_fault _ _ _ _ _ _ _ _ He).
    + split; by repeat split.
Qed.

(** X12: [handle_login] never raises. It returns True only when the driver
    answered and some User node carries this username and the digest of
    this password; the UI state is then authenticated under that username
    with the drawn token, which the session table binds to [now].
    Otherwise it returns False and leaves the UI state, the session table
    and the graph as they were. *)
Theorem handle_login_outcome (db_now : Z) (token : string) (now : Z)
    (username password : string) (w : World) :
  token <> "" ->
  let w' := snd (handle_login db_now token now username password w) in
  (fst (handle_login db_now token now username password w) = Return true /\
   credentials_match username password (graph_of w) = true /\ answers 1 w = true /\
   st.authenticated (session_state w') = true /\
   st.username (session_state w') = Some username /\
   st.session_token (session_state w') = Some token /\
   sessions_of w' = <[token := now]> (sessions_of w)) \/
  (fst (handle_login db_now token now username password w) = Return false /\
   same_sessions_and_ui w w' /\ graph_of w' = graph_of w /\
   (answers 1 w = true -> credentials_match username password (graph_of w) = false)).
Proof.
  intros Htok. cbv zeta.
  destruct (handle_login_cases db_now token now username password w Htok)
    as [(Hm & Ha & Hrun) | (w' & Hrun & Hsame & Hg)].
  - left. rewrite Hrun. by repeat split.
  - right. rewrite Hrun. cbn [fst snd]. split; [done |]. split; [done |].
    split; [done |]. intros Ha.
    rewrite (handle_login_answers _ _ _ _ _ _ Ha Htok) in Hrun. cbv zeta in Hrun.
    by destruct (credentials_match username password (graph_of w)).
Qed.

(** X13: a signup may fail after it has created the account. When the
    name is free, the driver runs the query of [create_user] and raises on
    the one of the login, [handle_signup] returns False with the UI state
    and the session table as before, yet the User node is there: a later
    [handle_login] with the same credentials succeeds. *)
Theorem signup_fails_after_creating (db_now0 db_now : Z) (token : string) (now : Z)
    (username password : string) (w : World) (e : Exception)
    (rest : list (option Exception)) :
  faults (driver (agent w)) = None :: Some e :: rest ->
  user_exists username (graph_of w) = false ->
  let w' := snd (handle_signup db_now0 db_now token now username password w) in
  fst (handle_signup db_now0 db_now token now username password w) = Return false /\
  same_sessions_and_ui w w' /\
  stdout w' = stdout w ++ ["Authentication error: " +:+ exc_str e] /\
  user_count username (graph_of w') = 1%nat /\
  credentials_match username password (graph_of w') = true /\
  forall db_now' token' now',
    token' <> "" -> answers 1 w' = true ->
    fst (handle_login db_now' token' now' username password w') = Return true.
Proof.
  intros Hf Hno. cbv zeta.
  assert (answers 1 w = true) as Ha by (unfold answers; by rewrite Hf).
  set (gm := fst (merge_user db_now0 username (_hash_password password) (graph_of w))).
  assert (faults (driver (agent (after_query gm w))) = Some e :: rest) as Hf'
    by (unfold after_query; cbn; by rewrite Hf).
  assert (handle_signup db_now0 db_now token now username password w =
          (Return false,
           with_line ("Authentication error: " +:+ exc_str e)
                     (after_fault (after_query gm w)))) as Hrun.
  { unfold handle_signup. rewrite bind_run, (create_user_answers _ _ _ _ Ha). fold gm.
    unfold handle_login.
    by rewrite bind_run, (authenticate_user_fault _ _ _ _ _ _ _ _ Hf'). }
  rewrite Hrun. cbn [fst snd].
  assert (credentials_match username password gm = true) as Hm
    by (unfold gm; by rewrite credentials_match_after_merge, Hno).
  split; [done |]. split; [by repeat split |]. split; [done |].
  change (graph_of (with_line _ (after_fault (after_query gm w)))) with gm.
  split; [| split; [done |]].
  - unfold gm, merge_user. unfold user_exists in Hno. rewrite Hno. cbn [fst].
    unfold user_count. cbn [nodes]. rewrite filter_app.
    rewrite (no_user_filter username (graph_of w)) by exact Hno.
    cbn [app]. rewrite filter_cons, decide_True; [done |].
    unfold is_user, has_label, has_prop. cbn [node_labels node_props].
    rewrite lookup_insert_eq.
    rewrite !bool_decide_eq_true_2; [done | done | apply list_elem_of_here].
  - intros db_now' token' now' Htok Ha'.
    rewrite (handle_login_answers _ _ _ _ _ _ Ha' Htok). cbv zeta.
    change (graph_of (with_line _ (after_fault (after_query gm w)))) with gm.
    by rewrite Hm.
Qed.

(** ** get_user_preferences, more closely *)

(** X14: [get_user_preferences] only reads: in every run the graph, the
    session table, the UI state and the output are as before. It has no
    handler of its own: an exception of the driver reaches the caller. *)
Theorem get_user_preferences_reads_only (username : string) (w : World) :
  let w' := snd (get_user_preferences username w) in
  graph_of w' = graph_of w /\ same_sessions_and_ui w w' /\ stdout w' = stdout w /\
  forall e rest, faults (driver (agent w)) = Some e :: rest ->
    fst (get_user_preferences username w) = Raise e.
Proof.
  cbv zeta. destruct (get_user_preferences_agent username w) as (Hg & Hsame & Hout).
  split; [done |]. split; [done |]. split; [done |].
  intros e rest He. by rewrite (get_user_preferences_fault _ _ _ _ He).
Qed.

(** ** Strings *)

Lemma prefix_spec needle : forall hay,
  String.prefix needle hay = true <-> exists suf, hay = needle +:+ suf.
Proof.
  induction needle as [|c needle IH]; intros hay.
  - split; [intros _; by exists hay | by destruct hay].
  - destruct hay as [|d hay]; cbn [String.prefix].
    + split; [done | by intros [suf Hs]].
    + destruct (ascii_dec c d) as [-> | Hne].
      * rewrite IH. split; intros [suf Hs]; exists suf.
        -- cbn. by rewrite Hs.
        -- cbn in Hs. by injection Hs.
      * split; [done |]. intros [suf Hs]. cbn in Hs. injection Hs as Hc _. congruence.
Qed.

Lemma contains_spec needle hay :
  contains needle hay = true <-> exists pre suf, hay = pre +:+ needle +:+ suf.
Proof.
  split.
  - induction hay as [|c hay IH]; cbn [contains]; intros H.
    + rewrite orb_false_r in H. apply prefix_spec in H as [suf Hs]. by exists "", suf.
    + apply orb_true_iff in H as [H | H].
      * apply prefix_spec in H as [suf Hs]. by exists "", suf.
      * destruct (IH H) as (pre & suf & Hs). exists (String c pre), suf. cbn. by rewrite Hs.
  - intros (pre & suf & Hs). revert hay Hs.
    induction pre as [|c pre IH]; intros hay Hs.
    + cbn in Hs. destruct hay; cbn [contains]; apply orb_true_iff; left;
        apply prefix_spec; by exists suf.
    + cbn in Hs. subst hay. cbn [contains]. apply orb_true_iff. right. by apply IH.
Qed.

Lemma lower_app a b : lower (a +:+ b) = lower a +:+ lower b.
Proof. induction a as [|c a IH]; [done |]. simpl. by rewrite IH. Qed.

Lemma lower_char_idemp c : lower_char (lower_char c) = lower_char c.
Proof. by destruct c as [[] [] [] [] [] [] [] []]. Qed.

Lemma lower_idemp s : lower (lower s) = lower s.
Proof. induction s as [|c s IH]; [done |]. simpl. by rewrite lower_char_idemp, IH. Qed.

Lemma weather_keywords_lower k : k ∈ weather_keywords -> lower k = k.
Proof.
  unfold weather_keywords. intros H.
  repeat (apply elem_of_cons in H as [-> | H]; [reflexivity |]).
  by apply elem_of_nil in H.
Qed.

(** X15: a message is taken for a weather query exactly when its lower-case
    form contains one of the nine keywords as a piece of text, not as a
    word: so a keyword inside any text, in any mix of upper and lower
    case, makes it one (the hot of a hotel, the rain of a train), and the
    case of the message never matters. *)
Theorem is_weather_query_spec (message : string) :
  (is_weather_query message = true <->
   exists keyword pre suf,
     keyword ∈ weather_keywords /\ lower message = pre +:+ keyword +:+ suf) /\
  (forall keyword pre suf,
     keyword ∈ weather_keywords -> lower message = lower (pre +:+ keyword +:+ suf) ->
     is_weather_query message = true) /\
  is_weather_query (lower message) = is_weather_query message.
Proof.
  assert (is_weather_query message = true <->
          exists keyword pre suf,
            keyword ∈ weather_keywords /\ lower message = pre +:+ keyword +:+ suf) as Hspec.
  { unfold is_weather_query. rewrite existsb_exists. split.
    - intros (k & Hk & Hc). apply contains_spec in Hc as (pre & suf & Hs).
      exists k, pre, suf. split; [by apply list_elem_of_In | done].
    - intros (k & pre & suf & Hk & Hs). exists k. split; [by apply list_elem_of_In |].
      apply contains_spec. by exists pre, suf. }
  split; [exact Hspec |]. split.
  - intros k pre suf Hk Hs. apply Hspec. exists k, (lower pre), (lower suf).
    split; [done |]. by rewrite Hs, !lower_app, (weather_keywords_lower k Hk).
  - unfold is_weather_query. by rewrite lower_idemp.
Qed.

(** ** process_message *)

Lemma process_message_weather message w :
  is_weather_query message = true ->
  process_message message w = (Raise (session_state_missing "weather_agent"), w).
Proof. intros H. unfold process_message. rewrite bind_run. cbn [get]. by rewrite H. Qed.

Lemma process_message_answers message w :
  is_weather_query message = false -> answers 1 w = true ->
  process_message message w = (Raise not_awaitable, after_query (graph_of w) w).
Proof.
  intros Hq Ha. unfold process_message. rewrite bind_run. cbn [get]. rewrite Hq.
  rewrite bind_run. destruct (st.username (session_state w)) as [name|].
  - by rewrite (get_user_preferences_answers _ _ Ha).
  - rewrite !bind_run, (execute_query_answers _ _ _ Ha) by reflexivity. reflexivity.
Qed.

Lemma process_message_fault message w e rest :
  is_weather_query message = false ->
  faults (driver (agent w)) = Some e :: rest ->
  process_message message w = (Raise e, after_fault w).
Proof.
  intros Hq He. unfold process_message. rewrite bind_run. cbn [get]. rewrite Hq.
  rewrite bind_run. destruct (st.username (session_state w)) as [name|].
  - by rewrite (get_user_preferences_fault _ _ _ _ He).
  - by rewrite !bind_run, (execute_query_fault _ _ _ _ _ He).
Qed.

Lemma process_message_never_returns message w :
  exists e, fst (process_message message w) = Raise e.
Proof.
  destruct (is_weather_query message) eqn:Hq.
  - rewrite (process_message_weather _ _ Hq). by eexists.
  - destruct (answers_1_cases w) as [Ha | (e & rest & He)].
    + rewrite (process_message_answers _ _ Hq Ha). by eexists.
    + rewrite (process_message_fault _ _ _ _ Hq He). by eexists.
Qed.

Lemma process_message_reads_only message w :
  graph_of (snd (process_message message w)) = graph_of w /\
  same_sessions_and_ui w (snd (process_message message w)) /\
  stdout (snd (process_message message w)) = stdout w.
Proof.
  destruct (is_weather_query message) eqn:Hq.
  - rewrite (process_message_weather _ _ Hq). cbn [snd]. by repeat split.
  - destruct (answers_1_cases w) as [Ha | (e & rest & He)].
    + rewrite (process_message_answers _ _ Hq Ha). cbn [snd]. by repeat split.
    + rewrite (process_message_fault _ _ _ _ Hq He). cbn [snd]. by repeat split.
Qed.

(** X16: [process_message] answers no message: on every message and in
    every state it raises. On a message that holds a weather keyword,
    inside a word or in capitals alike, it raises [AttributeError] on the
    weather agent that [main.py] never sets, before any call of the
    driver, and the state is as before. On every other message it calls
    [get_user_preferences], which raises: the [TypeError] of the [await]
    when the driver answered, and else what the driver raised. In no case
    is the graph, the session table or the UI state changed. *)
Theorem process_message_never_answers (message : string) (w : World) :
  (exists e, fst (process_message message w) = Raise e) /\
  (forall keyword pre suf,
     keyword ∈ weather_keywords -> lower message = lower (pre +:+ keyword +:+ suf) ->
     exists e, process_message message w = (Raise e, w) /\
               exc_class e = "AttributeError") /\
  (is_weather_query message = false ->
   (answers 1 w = true ->
    process_message message w = (Raise not_awaitable, after_query (graph_of w) w)) /\
   (forall e rest, faults (driver (agent w)) = Some e :: rest ->
    process_message message w = (Raise e, after_fault w))) /\
  graph_of (snd (process_message message w)) = graph_of w /\
  same_sessions_and_ui w (snd (process_message message w)).
Proof.
  split; [apply process_message_never_returns |]. split; [| split; [| split]].
  - intros k pre suf Hk Hs. exists (session_state_missing "weather_agent").
    split; [| reflexivity].
    apply process_message_weather.
    unfold is_weather_query. apply existsb_exists. exists k.
    split; [by apply list_elem_of_In |]. apply contains_spec.
    exists (lower pre), (lower suf).
    by rewrite Hs, !lower_app, (weather_keywords_lower k Hk).
  - intros Hq. split; [by apply process_message_answers |].
    intros e rest He. by apply (process_message_fault _ _ _ rest).
  - apply process_message_reads_only.
  - apply process_message_reads_only.
Qed.

(** ** The chat page *)

Lemma chat_turn_run date prompt ui :
  chat_turn date prompt ui =
  match process_message prompt (world ui) with
  | (Raise e, w') =>
      (Raise e,
       mkUi w' (chats_after_turn date (mkMessage "user" (Text prompt)) None (chats ui)))
  | (Return response, w') =>
      (Return (mkOutcome None true),
       mkUi w' (chats_after_turn date (mkMessage "user" (Text prompt))
                  (Some (mkMessage "assistant" (Reply response))) (chats ui)))
  end.
Proof.
  destruct ui as [w [ls nx cur hist]].
  unfold chat_turn. rewrite bind_run. unfold append_current at 1, modify.
  rewrite bind_run. unfold on_world at 1. cbn [world chats].
  destruct (process_message prompt w) as [[response|e] w']; [| reflexivity].
  rewrite bind_run. unfold append_current, modify.
  cbn [world chats current_chat lists next_list chat_history].
  rewrite bind_run. cbn [get chats current_chat lists next_list chat_history].
  unfold chats_after_turn, elements_of.
  cbn [world chats current_chat lists next_list chat_history].
  rewrite !lookup_insert_eq. cbn [default]. rewrite insert_insert_eq.
  unfold id. case_bool_decide; reflexivity.
Qed.

Lemma on_world_run {A} (m : M World A) ui :
  on_world m ui = (fst (m (world ui)), mkUi (snd (m (world ui))) (chats ui)).
Proof. unfold on_world. by destruct (m (world ui)). Qed.

Lemma chat_turn_world date prompt ui :
  world (snd (chat_turn date prompt ui)) = snd (process_message prompt (world ui)).
Proof.
  rewrite chat_turn_run. by destruct (process_message prompt (world ui)) as [[r|e] w'].
Qed.

Lemma chat_turn_chats date prompt ui :
  chats (snd (chat_turn date prompt ui)) =
  chats_after_turn date (mkMessage "user" (Text prompt))
    (match fst (process_message prompt (world ui)) with
     | Return response => Some (mkMessage "assistant" (Reply response))
     | Raise _ => None
     end) (chats ui).
Proof.
  rewrite chat_turn_run. by destruct (process_message prompt (world ui)) as [[r|e] w'].
Qed.


(** ** Runs of the script *)

Lemma user_exists_touch name p now g :
  user_exists name (update_where p (set_prop "last_active" (PTime now)) g) =
  user_exists name g.
Proof.
  unfold user_exists. apply existsb_update_where. intros n.
  apply is_user_set_last_active.
Qed.

Lemma user_exists_merge name now username password g :
  name <> username ->
  user_exists name (fst (merge_user now username password g)) = user_exists name g.
Proof.
  intros Hne. unfold merge_user.
  destruct (existsb (is_user username) (nodes g)); cbn [fst];
    [apply user_exists_touch |].
  unfold user_exists. cbn [nodes]. rewrite existsb_app. cbn [existsb].
  unfold is_user at 2, has_prop. cbn [node_props].
  rewrite lookup_insert_eq, bool_decide_eq_false_2 by congruence.
  by rewrite andb_false_r, !orb_false_r.
Qed.

Lemma user_exists_merge_mono name now username password g :
  user_exists name g = true ->
  user_exists name (fst (merge_user now username password g)) = true.
Proof.
  intros H. unfold merge_user.
  destruct (existsb (is_user username) (nodes g)); cbn [fst];
    [by rewrite user_exists_touch |].
  unfold user_exists in *. cbn [nodes]. by rewrite existsb_app, H.
Qed.

Lemma handle_login_users name db_now token now username password w :
  user_exists name (graph_of (snd (handle_login db_now token now username password w))) =
  user_exists name (graph_of w).
Proof.
  unfold graph_of. rewrite handle_login_agent.
  destruct (authenticate_user_graph db_now token now username password w) as [H | H];
    unfold graph_of in H; rewrite H; [done |].
  apply user_exists_touch.
Qed.

Lemma handle_signup_users name db_now0 db_now token now username password w :
  name <> username ->
  user_exists name (graph_of (snd (handle_signup db_now0 db_now token now username password w))) =
  user_exists name (graph_of w).
Proof.
  intros Hne.
  assert (user_exists name (graph_of (snd (create_user db_now0 username password w))) =
          user_exists name (graph_of w)) as H1.
  { destruct (create_user_graph db_now0 username password w) as [-> | ->];
      [done | by apply user_exists_merge]. }
  destruct (handle_signup_agent db_now0 db_now token now username password w) as [H | H];
    unfold graph_of in *; rewrite H; [done |].
  fold (graph_of (snd (handle_login db_now token now username password
                         (snd (create_user db_now0 username password w))))).
  by rewrite handle_login_users.
Qed.

Lemma handle_signup_users_mono name db_now0 db_now token now username password w :
  user_exists name (graph_of w) = true ->
  user_exists name (graph_of (snd (handle_signup db_now0 db_now token now username password w))) =
  true.
Proof.
  intros Hex.
  assert (user_exists name (graph_of (snd (create_user db_now0 username password w))) = true)
    as H1.
  { destruct (create_user_graph db_now0 username password w) as [-> | ->];
      [done | by apply user_exists_merge_mono]. }
  destruct (handle_signup_agent db_now0 db_now token now username password w) as [H | H];
    unfold graph_of in *; rewrite H; [done |].
  fold (graph_of (snd (handle_login db_now token now username password
                         (snd (create_user db_now0 username password w))))).
  by rewrite handle_login_users.
Qed.

Lemma validate_stored_token_driver now w :
  driver (agent (snd (validate_stored_token now w))) = driver (agent w).
Proof.
  unfold validate_stored_token. rewrite bind_run. cbn [get].
  destruct (st.session_token (session_state w)) as [t|]; [| done].
  apply validate_session_driver.
Qed.






Lemma login_form_world db_now token now username password w :
  snd (login_form db_now token now true username password w) = w \/
  nonempty username = true /\ nonempty password = true /\
  snd (login_form db_now token now true username password w) =
    snd (handle_login db_now token now username password w).
Proof.
  unfold login_form. cbn [andb].
  destruct (nonempty username); [| by left].
  destruct (nonempty password); [| by left].
  right. split; [done |]. split; [done |]. cbn [andb]. rewrite bind_run.
  destruct (handle_login db_now token now username password w) as [[[]|e] w1]; done.
Qed.

Lemma signup_form_world db_now0 db_now token now username password confirm w :
  snd (signup_form db_now0 db_now token now true username password confirm w) = w \/
  nonempty username = true /\ nonempty password = true /\ password = confirm /\
  snd (signup_form db_now0 db_now token now true username password confirm w) =
    snd (handle_signup db_now0 db_now token now username password w).
Proof.
  unfold signup_form. case_bool_decide as Hc; cbn [negb]; [| by left].
  destruct (nonempty username); [| by left].
  destruct (nonempty password); [| by left].
  right. split; [done |]. split; [done |]. split; [done |]. cbn [negb orb].
  rewrite bind_run.
  destruct (handle_signup db_now0 db_now token now username password w) as [[[]|e] w1]; done.
Qed.

Lemma nonempty_true s : nonempty s = true -> s <> "".
Proof. unfold nonempty. intros H. by apply negb_true_iff, bool_decide_eq_false in H. Qed.







(** ** The chat page, run from [main] *)

Lemma validate_stored_token_live now w :
  live_session now w -> validate_stored_token now w = (Return true, w).
Proof.
  intros (_ & t & Ht & issued & Hin & Hle).
  unfold validate_stored_token. rewrite bind_run. cbn [get]. rewrite Ht.
  by apply (validate_session_live _ _ issued).
Qed.

Lemma main_live env ev ui :
  live_session (env_now env) (world ui) ->
  main env ev ui =
  let c := chats ui in
  match ev with
  | EvLogout => (Return (mkOutcome None true), mkUi (snd (logout (world ui))) c)
  | EvNewChat =>
      (Return (mkOutcome None true),
       mkUi (world ui)
            (mkChats (<[next_list c := []]> (lists c)) (S (next_list c)) (next_list c)
                     (chat_history c)))
  | EvOpenChat idx =>
      match chat_history c !! idx with
      | Some chat =>
          (Return (mkOutcome None true),
           mkUi (world ui) (mkChats (lists c) (next_list c) (snd chat) (chat_history c)))
      | None => (Return (mkOutcome None false), ui)
      end
  | EvPrompt prompt =>
      if nonempty prompt then chat_turn (env_date env) prompt ui
      else (Return (mkOutcome None false), ui)
  | _ => (Return (mkOutcome None false), ui)
  end.
Proof.
  intros Hlive. pose proof Hlive as (Hauth & _).
  destruct ui as [w c]. cbn [world chats] in *.
  unfold main. rewrite bind_run. cbn [get world]. rewrite Hauth. cbn [negb].
  unfold chat_interface. rewrite bind_run, on_world_run. cbn [world chats].
  rewrite (validate_stored_token_live _ _ Hlive). cbn [fst snd negb].
  destruct ev; try reflexivity.
  - rewrite bind_run. cbn [get fst snd chats].
    by destruct (chat_history c !! idx).
  - by destruct (nonempty prompt).
Qed.

Lemma main_chats env ev ui :
  let c := chats ui in
  let c' := chats (snd (main env ev ui)) in
  c' = c \/
  (ev = EvNewChat /\
   c' = mkChats (<[next_list c := []]> (lists c)) (S (next_list c)) (next_list c)
                (chat_history c)) \/
  (exists idx chat, ev = EvOpenChat idx /\ chat_history c !! idx = Some chat /\
     c' = mkChats (lists c) (next_list c) (snd chat) (chat_history c)) \/
  (exists prompt, ev = EvPrompt prompt /\
     c' = chats_after_turn (env_date env) (mkMessage "user" (Text prompt)) None c).
Proof.
  cbv zeta. destruct ui as [w c]. cbn [chats].
  unfold main. rewrite bind_run. cbn [get world].
  destruct (st.authenticated (session_state w)); cbn [negb].
  - unfold chat_interface. rewrite bind_run, on_world_run. cbn [world chats].
    destruct (validate_stored_token (env_now env) w) as [[valid|e] w1];
      cbn [fst snd]; [| by left].
    destruct valid; cbn [negb]; [| by left].
    destruct ev; try (by left).
    + right. by left.
    + rewrite bind_run. cbn [get fst snd chats].
      destruct (chat_history c !! idx) as [chat|] eqn:Hidx; [| by left].
      right. right. left. by exists idx, chat.
    + destruct (nonempty prompt); [| by left].
      right. right. right. exists prompt. split; [done |].
      rewrite chat_turn_chats. cbn [world chats].
      by destruct (process_message_never_returns prompt w1) as [e ->].
  - unfold login_page. destruct ev; try (by left); rewrite on_world_run; by left.
Qed.




Lemma chat_turn_chats_messages date prompt ui :
  let c := chats ui in
  let r := fst (process_message prompt (world ui)) in
  let c' := chats (snd (chat_turn date prompt ui)) in
  current_chat c' = current_chat c /\
  elements_of c' (current_chat c) = elements_of c (current_chat c) ++ turn_messages prompt r /\
  chat_history c' = chat_history c ++ saved_by_turn date r c /\
  next_list c' = (next_list c + length (saved_by_turn date r c))%nat /\
  (forall l, l <> current_chat c -> l <> next_list c -> elements_of c' l = elements_of c l) /\
  (saved_by_turn date r c <> [] -> next_list c <> current_chat c ->
   elements_of c' (next_list c) = turn_messages prompt r).
Proof.
  cbv zeta. rewrite chat_turn_chats. unfold saved_by_turn, turn_messages.
  destruct ui as [w c]. cbn [world chats].
  destruct (fst (process_message prompt w)) as [response|e]; unfold chats_after_turn.
  - destruct (elements_of c (current_chat c)) as [|m l] eqn:Hl.
    + rewrite bool_decide_eq_true_2 by done.
      cbn [current_chat next_list chat_history lists length].
      split; [done |]. split.
      { unfold elements_of. cbn [lists].
        destruct (decide (next_list c = current_chat c)) as [-> | Hne].
        - by rewrite lookup_insert_eq.
        - by rewrite lookup_insert_ne, lookup_insert_eq. }
      split; [done |]. split; [lia |]. split.
      { intros l Hc Hn. unfold elements_of. cbn [lists].
        by rewrite !lookup_insert_ne. }
      intros _ _. unfold elements_of. cbn [lists]. by rewrite lookup_insert_eq.
    + rewrite bool_decide_eq_false_2
        by (rewrite !length_app; cbn [length]; lia).
      cbn [current_chat next_list chat_history lists length].
      split; [done |]. split.
      { unfold elements_of at 1. cbn [lists]. rewrite lookup_insert_eq. cbn [default].
        by rewrite <- app_assoc. }
      split; [by rewrite app_nil_r |]. split; [lia |]. split; [| done].
      intros l' Hc Hn. unfold elements_of. cbn [lists]. by rewrite lookup_insert_ne.
  - cbn [current_chat next_list chat_history lists].
    assert (match elements_of c (current_chat c) with
            | [] | _ => @nil (string * nat)
            end = []) as -> by (by destruct (elements_of c (current_chat c))).
    cbn [length].
    split; [done |]. split.
    { unfold elements_of at 1. cbn [lists]. by rewrite lookup_insert_eq. }
    split; [by rewrite app_nil_r |]. split; [lia |]. split; [| done].
    intros l Hc Hn. unfold elements_of. cbn [lists]. by rewrite lookup_insert_ne.
Qed.

Lemma main_prompt_live env prompt ui :
  live_session (env_now env) (world ui) -> prompt <> "" ->
  main env (EvPrompt prompt) ui = chat_turn (env_date env) prompt ui.
Proof.
  intros Hlive Hp. rewrite (main_live _ _ _ Hlive). cbv zeta.
  unfold nonempty. by rewrite bool_decide_eq_false_2.
Qed.

Lemma main_history env ev ui :
  chat_history (chats (snd (main env ev ui))) = chat_history (chats ui).
Proof.
  by destruct (main_chats env ev ui)
    as [-> | [(_ & ->) | [(idx & chat & _ & _ & ->) | (prompt & _ & ->)]]].
Qed.

Lemma runs_history steps : forall ui,
  chat_history (chats (runs steps ui)) = chat_history (chats ui).
Proof.
  unfold runs. induction steps as [|[env ev] steps IH]; intros ui; [done |].
  cbn [fold_left]. unfold run_main at 2. cbn [fst snd].
  by rewrite IH, main_history.
Qed.

(** X18: no reply is ever shown and no chat is ever saved. A prompt on a
    page whose session is live goes to the current chat, and then [main]
    raises what [process_message] raised: the reply is never appended and
    the lines that save a chat are never reached. Through any runs of the
    script, with whatever events, the chat history stays what it was; so
    with the history that [init_session_state] sets, the empty one, there
    is never a saved chat to open. *)
Theorem chat_never_saved (steps : list (Env * Event)) (ui : Ui) :
  chat_history (chats (runs steps ui)) = chat_history (chats ui) /\
  (forall env prompt,
     live_session (env_now env) (world ui) -> prompt <> "" ->
     let c := chats ui in
     let c' := chats (snd (main env (EvPrompt prompt) ui)) in
     (exists e, fst (main env (EvPrompt prompt) ui) = Raise e) /\
     current_chat c' = current_chat c /\
     elements_of c' (current_chat c) =
       elements_of c (current_chat c) ++ [mkMessage "user" (Text prompt)]) /\
  (chat_history (chats ui) = [] ->
   forall env idx,
     chats (snd (main env (EvOpenChat idx) (runs steps ui))) = chats (runs steps ui)).
Proof.
  split; [apply runs_history |]. split.
  - intros env prompt Hlive Hp. cbv zeta.
    rewrite (main_prompt_live _ _ _ Hlive Hp).
    destruct (chat_turn_chats_messages (env_date env) prompt ui) as (Hcur & Hel & _).
    cbv zeta in Hcur, Hel.
    destruct (process_message_never_returns prompt (world ui)) as [e He].
    rewrite He in Hel. split; [| done].
    exists e. rewrite chat_turn_run.
    destruct (process_message prompt (world ui)) as [[r|e'] w']; cbn [fst] in *;
      congruence.
  - intros Hnil env idx.
    destruct (main_chats env (EvOpenChat idx) (runs steps ui))
      as [H | [(Hev & _) | [(idx' & chat & _ & Hidx & _) | (prompt & Hev & _)]]];
      [done | done | | done].
    rewrite runs_history, Hnil in Hidx. done.
Qed.

Lemma main_keeps_current env ev ui :
  keeps_current ev = true -> elements_of (chats ui) (current_chat (chats ui)) <> [] ->
  let c' := chats (snd (main env ev ui)) in
  current_chat c' = current_chat (chats ui) /\
  elements_of c' (current_chat c') <> [] /\
  chat_history c' = chat_history (chats ui).
Proof.
  intros Hev Hne. cbv zeta.
  destruct (main_chats env ev ui)
    as [-> | [(-> & _) | [(idx & chat & -> & _) | (prompt & _ & ->)]]];
    [done | done | done |].
  unfold chats_after_turn.
  destruct (elements_of (chats ui) (current_chat (chats ui))) as [|m l] eqn:Hl; [done |].
  cbn [current_chat chat_history]. split; [done |]. split; [| done].
  unfold elements_of. cbn [lists]. by rewrite lookup_insert_eq.
Qed.

Lemma runs_keep_current steps : forall ui,
  forallb (fun step => keeps_current (snd step)) steps = true ->
  elements_of (chats ui) (current_chat (chats ui)) <> [] ->
  chat_history (chats (runs steps ui)) = chat_history (chats ui).
Proof.
  unfold runs. induction steps as [|[env ev] steps IH]; intros ui Hall Hne; [done |].
  cbn [forallb snd] in Hall. apply andb_true_iff in Hall as [Hev Hall].
  cbn [fold_left]. unfold run_main at 2. cbn [fst snd].
  destruct (main_keeps_current env ev ui Hev Hne) as (Hcur & Hne' & Hhist).
  cbv zeta in *. rewrite (IH _ Hall Hne'). exact Hhist.
Qed.

(** X20: when [process_message] raises on a prompt (as X16 shows it to
    do on every prompt), the exception leaves [main], the prompt stays in
    the chat without a reply, and nothing is saved. When this was the
    first prompt of the chat, the chat is then never saved: the history
    stays as it is through all later runs, until another chat is started
    or opened. *)
Theorem failed_first_prompt_never_saved (env : Env) (prompt : string) (e : Exception)
    (ui : Ui) (steps : list (Env * Event)) :
  live_session (env_now env) (world ui) -> prompt <> "" ->
  fst (process_message prompt (world ui)) = Raise e ->
  forallb (fun step => keeps_current (snd step)) steps = true ->
  let c := chats ui in
  let ui' := snd (main env (EvPrompt prompt) ui) in
  fst (main env (EvPrompt prompt) ui) = Raise e /\
  current_chat (chats ui') = current_chat c /\
  elements_of (chats ui') (current_chat c) =
    elements_of c (current_chat c) ++ [mkMessage "user" (Text prompt)] /\
  chat_history (chats ui') = chat_history c /\
  chat_history (chats (runs steps ui')) = chat_history c.
Proof.
  intros Hlive Hp Hr Hsteps. cbv zeta.
  rewrite (main_prompt_live _ _ _ Hlive Hp).
  destruct (chat_turn_chats_messages (env_date env) prompt ui)
    as (Hcur & Hel & Hhist & _).
  cbv zeta in *. rewrite Hr in Hel, Hhist. unfold turn_messages in Hel.
  assert (saved_by_turn (env_date env) (Raise e) (chats ui) = []) as Hnone.
  { unfold saved_by_turn.
    destruct (elements_of (chats ui) (current_chat (chats ui))); reflexivity. }
  rewrite Hnone, app_nil_r in Hhist.
  split.
  { rewrite chat_turn_run. destruct (process_message prompt (world ui)) as [[r|e'] w'];
      cbn [fst] in *; congruence. }
  split; [done |]. split; [done |]. split; [done |].
  rewrite runs_keep_current; [done | done |].
  rewrite Hcur, Hel.
  destruct (elements_of (chats ui) (current_chat (chats ui))); discriminate.
Qed.

Lemma validate_stored_token_dead now w :
  dead_session now w ->
  validate_stored_token now w = (Return false, with_sessions (without_token w) w) \/
  validate_stored_token now w = (Return false, w) /\ without_token w = sessions_of w.
Proof.
  unfold dead_session, without_token, validate_stored_token. rewrite bind_run. cbn [get].
  destruct (st.session_token (session_state w)) as [t|]; [| by right].
  destruct (sessions_of w !! t) as [issued|] eqn:Hin.
  - intros Hgt. left. by apply (validate_session_expired _ _ issued).
  - intros _. right. split; [by apply validate_session_absent |].
    by rewrite delete_id.
Qed.

(** X21: a run of [main] that finds the UI authenticated under a token
    that [validate_session] refuses (expired, unknown, or none) shows no
    chat page and handles no event of that run: the chats are as before.
    It only clears the authenticated flag and ends in [st.rerun()]; the
    username and the token stay in the UI state, the expired token is
    removed from the session table, and the graph is not touched. *)
Theorem dead_session_logs_out (env : Env) (ev : Event) (ui : Ui) :
  st.authenticated (session_state (world ui)) = true ->
  dead_session (env_now env) (world ui) ->
  exists w',
    main env ev ui = (Return (mkOutcome None true), mkUi w' (chats ui)) /\
    ui_fields w' = (false, st.username (session_state (world ui)),
                    st.session_token (session_state (world ui))) /\
    sessions_of w' = without_token (world ui) /\
    driver (agent w') = driver (agent (world ui)) /\ stdout w' = stdout (world ui).
Proof.
  intros Hauth Hdead. destruct ui as [w c]. cbn [world chats] in *.
  unfold main. rewrite bind_run. cbn [get world]. rewrite Hauth. cbn [negb].
  unfold chat_interface. rewrite bind_run, on_world_run. cbn [world chats].
  destruct (validate_stored_token_dead _ _ Hdead) as [-> | [-> Hs]];
    cbn [fst snd negb]; rewrite bind_run, on_world_run; cbn [fst snd world chats];
    eexists; (split; [reflexivity |]).
  - by repeat split.
  - rewrite Hs. by repeat split.
Qed.

Lemma handle_signup_fault db_now0 db_now token now username password w e rest :
  faults (driver (agent w)) = Some e :: rest ->
  graph_of (snd (handle_signup db_now0 db_now token now username password w)) = graph_of w.
Proof.
  intros He. unfold handle_signup.
  by rewrite bind_run, (create_user_fault _ _ _ _ _ _ He).
Qed.

Lemma main_world env ev ui :
  let w := world ui in
  let w' := world (snd (main env ev ui)) in
  graph_of w' = graph_of w \/
  (st.authenticated (session_state w) = false /\
   exists u p, ev = EvLogin u p /\
     w' = snd (handle_login (env_db_now env) (env_token env) (env_now env) u p w)) \/
  (st.authenticated (session_state w) = false /\
   exists u p, ev = EvSignup u p p /\ u <> "" /\ p <> "" /\
     w' = snd (handle_signup (env_db_now0 env) (env_db_now env) (env_token env)
                 (env_now env) u p w)).
Proof.
  cbv zeta. destruct ui as [w c]. cbn [world].
  unfold main. rewrite bind_run. cbn [get world].
  destruct (st.authenticated (session_state w)) eqn:Hauth; cbn [negb].
  - left. unfold chat_interface. rewrite bind_run, on_world_run. cbn [world chats].
    pose proof (validate_stored_token_driver (env_now env) w) as Hd.
    destruct (validate_stored_token (env_now env) w) as [[valid|e] w1];
      cbn [fst snd] in *; unfold graph_of; [| cbn [world]; by rewrite Hd].
    destruct valid; cbn [negb].
    + destruct ev; rewrite ?bind_run, ?on_world_run;
        cbn [get fst snd chats world new_list set_current modify];
        try (by rewrite <- Hd).
      * destruct (chat_history c !! idx); by rewrite <- Hd.
      * destruct (nonempty prompt); [| by rewrite <- Hd].
        rewrite chat_turn_world. cbn [world].
        pose proof (proj1 (process_message_reads_only prompt w1)) as Hg.
        unfold graph_of in Hg. by rewrite Hg, Hd.
    + rewrite bind_run, on_world_run. cbn [fst snd world]. by rewrite <- Hd.
  - unfold login_page. destruct ev; try (by left).
    + rewrite on_world_run. cbn [snd world].
      destruct (login_form_world (env_db_now env) (env_token env) (env_now env)
                  username password w) as [-> | (_ & _ & ->)]; [by left |].
      right. left. split; [done |]. by exists username, password.
    + rewrite on_world_run. cbn [snd world].
      destruct (signup_form_world (env_db_now0 env) (env_db_now env) (env_token env)
                  (env_now env) new_username new_password confirm_password w)
        as [-> | (Hu & Hp & <- & ->)]; [by left |].
      right. right. split; [done |]. exists new_username, new_password.
      split; [done |]. split; [by apply nonempty_true |]. split; [by apply nonempty_true |].
      done.
Qed.

(** X22: what a run of [main] does to the users of the graph. No user is
    ever removed. A username is registered by the run only from the login
    page, by a signup form submitted with this username, which is not
    empty, and a password that is not empty and was typed the same twice,
    and only when the call of the driver ran. Logging in, the chat page
    and a refused form register nobody. *)
Theorem main_registers_only_on_signup (env : Env) (ev : Event) (ui : Ui) (name : string) :
  let g := graph_of (world ui) in
  let g' := graph_of (world (snd (main env ev ui))) in
  (user_exists name g = true -> user_exists name g' = true) /\
  (user_exists name g = false -> user_exists name g' = true ->
   st.authenticated (session_state (world ui)) = false /\ name <> "" /\
   answers 1 (world ui) = true /\
   exists password, password <> "" /\ ev = EvSignup name password password).
Proof.
  cbv zeta.
  destruct (main_world env ev ui)
    as [Hg | [(Hauth & u & p & Hev & Hw) | (Hauth & u & p & Hev & Hu & Hp & Hw)]];
    cbv zeta in *.
  - rewrite Hg. split; [done | congruence].
  - rewrite Hw, handle_login_users. split; [done | congruence].
  - rewrite Hw. split; [apply handle_signup_users_mono |].
    intros Hno Hyes. destruct (decide (name = u)) as [-> | Hne].
    + split; [done |]. split; [done |]. split; [| by exists p].
      destruct (answers_1_cases (world ui)) as [Ha | (e & rest & He)]; [done |].
      rewrite (handle_signup_fault _ _ _ _ _ _ _ _ _ He) in Hyes. congruence.
    + rewrite handle_signup_users in Hyes by done. congruence.
Qed.

(** ** WeatherAgent.get_user_location_preferences *)

Lemma city_interests_str interests :
  forallb type_is_str interests = true ->
  city_interests interests = Return (List.filter city_typed interests).
Proof.
  induction interests as [|i rest IH]; [done |].
  cbn [forallb]. intros H. apply andb_true_iff in H as [Hi Hrest].
  cbn [city_interests List.filter]. rewrite (IH Hrest).
  unfold type_is_str in Hi. unfold type_lower, city_typed.
  destruct (i !! "type") as [[s|t]|]; try done.
Qed.

Lemma city_interests_not_str interests :
  forallb type_is_str interests = false ->
  exists e, city_interests interests = Raise e /\ exc_class e = "AttributeError".
Proof.
  induction interests as [|i rest IH]; [done |].
  cbn [forallb]. intros H. cbn [city_interests]. unfold type_lower.
  unfold type_is_str in H at 1.
  destruct (i !! "type") as [[s|t]|]; cbn [andb] in H.
  - destruct (IH H) as (e & -> & He). by exists e.
  - eexists. split; reflexivity.
  - destruct (IH H) as (e & -> & He). by exists e.
Qed.

(** X23: [get_user_location_preferences] never returns either: its first
    step is [get_user_preferences], whose exception it lets through, the
    [TypeError] of the [await] when the driver answered and else what the
    driver raised; and it writes nothing. The comprehension that it would
    apply to the interests keeps those whose [type] is a string that
    holds "city" in any capitals, drops an interest without [type], and
    raises [AttributeError] when some [type] is no string. *)
Theorem get_user_location_preferences_raises (username : string) (w : World) :
  (exists e, fst (get_user_location_preferences username w) = Raise e) /\
  (answers 1 w = true ->
   get_user_location_preferences username w =
   (Raise not_awaitable, after_query (graph_of w) w)) /\
  (forall e rest, faults (driver (agent w)) = Some e :: rest ->
   get_user_location_preferences username w = (Raise e, after_fault w)) /\
  graph_of (snd (get_user_location_preferences username w)) = graph_of w /\
  (forall interests,
     (forallb type_is_str interests = true ->
      city_interests interests = Return (List.filter city_typed interests)) /\
     (forallb type_is_str interests = false ->
      exists e, city_interests interests = Raise e /\ exc_class e = "AttributeError")).
Proof.
  assert (answers 1 w = true ->
          get_user_location_preferences username w =
          (Raise not_awaitable, after_query (graph_of w) w)) as Hanswers.
  { intros Ha. unfold get_user_location_preferences.
    by rewrite bind_run, (get_user_preferences_answers _ _ Ha). }
  assert (forall e rest, faults (driver (agent w)) = Some e :: rest ->
          get_user_location_preferences username w = (Raise e, after_fault w)) as Hfault.
  { intros e rest He. unfold get_user_location_preferences.
    by rewrite bind_run, (get_user_preferences_fault _ _ _ _ He). }
  split; [| split; [done |]; split; [done |]; split].
  - destruct (answers_1_cases w) as [Ha | (e & rest & He)].
    + rewrite (Hanswers Ha). by eexists.
    + rewrite (Hfault _ _ He). by eexists.
  - destruct (answers_1_cases w) as [Ha | (e & rest & He)].
    + by rewrite (Hanswers Ha).
    + by rewrite (Hfault _ _ He).
  - intros interests. split; [apply city_interests_str | apply city_interests_not_str].
Qed.

(** * The further properties on the scenario *)

Lemma graph_ok_empty : graph_ok empty_graph.
Proof.
  split; [apply wf_graph_empty |]. split; [constructor |].
  intros name. unfold user_count. cbn. lia.
Qed.

Lemma store_user_memory_writes_memory_witness :
  schema (agent alice_world) = Some schema_config /\
  retriever (agent alice_world) = Some text2cypher_retriever /\
  answers 1 alice_world = true /\
  exists prefs,
    nodes (graph_of (snd (store_user_memory (Return hiking_graph) 3000 "alice"
                            "I like hiking" alice_world))) =
    nodes (graph_of alice_world) ++
    [mkNode 1 ["Memory"] (<["text" := PStr "I like hiking"]> (<["timestamp" := PTime 3000]> ∅))] ++
    prefs.
Proof.
  assert (schema (agent alice_world) = Some schema_config) as Hs by (vm_compute; reflexivity).
  assert (retriever (agent alice_world) = Some text2cypher_retriever) as Hr
    by (vm_compute; reflexivity).
  assert (answers 1 alice_world = true) as Ha by (vm_compute; reflexivity).
  split; [exact Hs |]. split; [exact Hr |]. split; [exact Ha |].
  destruct (store_user_memory_writes_memory hiking_graph 3000 "alice" "I like hiking"
              alice_world schema_config text2cypher_retriever Hs Hr Ha)
    as (prefs & pref_edges & Hn & _).
  exists prefs. rewrite Hn. reflexivity.
Defined.

Lemma store_user_memory_unknown_user_witness :
  user_exists "bob" (graph_of alice_world) = false /\
  fst (store_user_memory (Return hiking_graph) 3000 "bob" "I like hiking" alice_world) =
    Return tt /\
  graph_of (snd (store_user_memory (Return hiking_graph) 3000 "bob" "I like hiking"
                   alice_world)) = graph_of alice_world.
Proof.
  assert (user_exists "bob" (graph_of alice_world) = false) as Hno
    by (vm_compute; reflexivity).
  split; [exact Hno |].
  destruct (store_user_memory_unknown_user (Return hiking_graph) 3000 "bob" "I like hiking"
              alice_world Hno) as (w' & Hrun & Hg & _).
  rewrite Hrun. split; [reflexivity | exact Hg].
Defined.

Lemma calls_keep_graph_ok_witness :
  graph_ok (graph_of fresh_world) /\
  graph_ok (graph_of (run_calls [CallCreateUser 1000 "alice" "s3cret";
                                 CallStorePreferences "alice" two_facts;
                                 CallCreateUser 2000 "alice" "other"] fresh_world)).
Proof.
  split; [exact graph_ok_empty |].
  apply (calls_keep_graph_ok _ fresh_world graph_ok_empty).
Defined.

Lemma absent_token_stays_invalid_witness :
  forallb (fun c => negb (draws "T0" c))
          [CallHandleLogin 2000 "T2" 2001 "alice" "s3cret"; CallLogout] = true /\
  sessions_of alice_world !! "T0" = None /\
  fst (validate_session 2500 "T0"
         (run_calls [CallHandleLogin 2000 "T2" 2001 "alice" "s3cret"; CallLogout]
                    alice_world)) = Return false.
Proof.
  assert (forallb (fun c => negb (draws "T0" c))
            [CallHandleLogin 2000 "T2" 2001 "alice" "s3cret"; CallLogout] = true) as Hd
    by reflexivity.
  assert (sessions_of alice_world !! "T0" = None) as Hno by (vm_compute; reflexivity).
  split; [exact Hd |]. split; [exact Hno |].
  apply (proj1 (absent_token_stays_invalid "T0" _ alice_world Hd) Hno).
Defined.

Lemma wrong_password_refused_every_time_witness :
  credentials_match "alice" "wrong" (graph_of alice_world) = false /\
  fst (authenticate_user 2004 "T4" 2005 "alice" "wrong"
         (run_calls (attempts "alice" "wrong" [(2000, "T2", 2001); (2002, "T3", 2003)])
                    alice_world)) = Return None.
Proof.
  assert (credentials_match "alice" "wrong" (graph_of alice_world) = false) as Hno
    by (vm_compute; reflexivity).
  split; [exact Hno |].
  apply (wrong_password_refused_every_time "alice" "wrong"
           [(2000, "T2", 2001); (2002, "T3", 2003)] alice_world Hno).
Defined.

Lemma create_user_new_witness :
  answers 1 alice_world = true /\
  user_exists "bob" (graph_of alice_world) = false /\
  user_count "bob" (graph_of (snd (create_user 3000 "bob" "hunter2" alice_world))) = 1%nat /\
  credentials_match "bob" "hunter2"
    (graph_of (snd (create_user 3000 "bob" "hunter2" alice_world))) = true.
Proof.
  assert (answers 1 alice_world = true) as Ha by (vm_compute; reflexivity).
  assert (user_exists "bob" (graph_of alice_world) = false) as Hno
    by (vm_compute; reflexivity).
  split; [exact Ha |]. split; [exact Hno |].
  destruct (create_user_new 3000 "bob" "hunter2" alice_world Ha Hno)
    as (u & _ & _ & _ & _ & _ & _ & _ & _ & _ & _ & Hc & Hm).
  split; [exact Hc | exact Hm].
Defined.

Lemma handle_login_outcome_witness :
  "T2" <> "" /\
  fst (handle_login 2000 "T2" 2001 "alice" "s3cret" alice_world) = Return true /\
  sessions_of (snd (handle_login 2000 "T2" 2001 "alice" "s3cret" alice_world)) !! "T2" =
    Some 2001.
Proof.
  assert ("T2" <> "") as Ht by discriminate.
  split; [exact Ht |].
  destruct (handle_login_outcome 2000 "T2" 2001 "alice" "s3cret" alice_world Ht)
    as [(Hr & _ & _ & _ & _ & _ & Hs) | (_ & _ & _ & Hno)].
  - split; [exact Hr |]. rewrite Hs. apply lookup_insert_eq.
  - assert (credentials_match "alice" "s3cret" (graph_of alice_world) = true) as Hyes
      by (vm_compute; reflexivity).
    rewrite Hno in Hyes; [discriminate | vm_compute; reflexivity].
Defined.

Lemma signup_fails_after_creating_witness :
  faults (driver (agent failing_second)) = [None; Some ServiceUnavailable] /\
  user_exists "alice" (graph_of failing_second) = false /\
  fst (handle_signup 1000 1001 "T1" 1002 "alice" "s3cret" failing_second) = Return false /\
  credentials_match "alice" "s3cret"
    (graph_of (snd (handle_signup 1000 1001 "T1" 1002 "alice" "s3cret" failing_second))) =
    true.
Proof.
  assert (faults (driver (agent failing_second)) = [None; Some ServiceUnavailable]) as Hf
    by reflexivity.
  assert (user_exists "alice" (graph_of failing_second) = false) as Hno by reflexivity.
  split; [exact Hf |]. split; [exact Hno |].
  destruct (signup_fails_after_creating 1000 1001 "T1" 1002 "alice" "s3cret" failing_second
              ServiceUnavailable [] Hf Hno) as (Hr & _ & _ & _ & Hm & _).
  split; [exact Hr | exact Hm].
Defined.


Lemma failed_first_prompt_never_saved_witness :
  live_session 2000 (world alice_ui) /\ "What is the weather in Rome?" <> "" /\
  fst (process_message "What is the weather in Rome?" (world alice_ui)) =
    Raise (session_state_missing "weather_agent") /\
  let ui' := snd (main (run_at 2000 "T2") (EvPrompt "What is the weather in Rome?") alice_ui) in
  fst (main (run_at 2000 "T2") (EvPrompt "What is the weather in Rome?") alice_ui) =
    Raise (session_state_missing "weather_agent") /\
  chat_history (chats (runs [(run_at 2100 "T2", EvPrompt "Plan a trip to Rome");
                             (run_at 2200 "T2", EvLogout)] ui')) = [].
Proof.
  assert (live_session 2000 (world alice_ui)) as Hl.
  { split; [vm_compute; reflexivity |]. exists "T1". split; [vm_compute; reflexivity |].
    exists 1002. split; [vm_compute; reflexivity | vm_compute; discriminate]. }
  assert ("What is the weather in Rome?" <> "") as Hp by discriminate.
  assert (fst (process_message "What is the weather in Rome?" (world alice_ui)) =
          Raise (session_state_missing "weather_agent")) as Hr by (vm_compute; reflexivity).
  split; [exact Hl |]. split; [exact Hp |]. split; [exact Hr |]. cbv zeta.
  destruct (failed_first_prompt_never_saved (run_at 2000 "T2")
              "What is the weather in Rome?" (session_state_missing "weather_agent") alice_ui
              [(run_at 2100 "T2", EvPrompt "Plan a trip to Rome");
               (run_at 2200 "T2", EvLogout)] Hl Hp Hr eq_refl)
    as (Hraise & _ & _ & _ & Hhist).
  split; [exact Hraise | exact Hhist].
Defined.

Lemma dead_session_logs_out_witness :
  st.authenticated (session_state (world alice_ui)) = true /\
  dead_session (1003 + timedelta_hours 24) (world alice_ui) /\
  let late := run_at (1003 + timedelta_hours 24) "T2" in
  fst (main late (EvPrompt "Plan a trip to Rome") alice_ui) = Return (mkOutcome None true) /\
  chats (snd (main late (EvPrompt "Plan a trip to Rome") alice_ui)) = chats alice_ui /\
  sessions_of (world (snd (main late (EvPrompt "Plan a trip to Rome") alice_ui))) !! "T1" =
    None.
Proof.
  assert (st.authenticated (session_state (world alice_ui)) = true) as Ha
    by (vm_compute; reflexivity).
  assert (dead_session (1003 + timedelta_hours 24) (world alice_ui)) as Hd
    by (vm_compute; reflexivity).
  split; [exact Ha |]. split; [exact Hd |]. cbv zeta.
  destruct (dead_session_logs_out (run_at (1003 + timedelta_hours 24) "T2")
              (EvPrompt "Plan a trip to Rome") alice_ui Ha Hd)
    as (w' & Hrun & _ & Hs & _).
  rewrite Hrun. cbn [fst snd world chats]. split; [reflexivity |]. split; [reflexivity |].
  rewrite Hs. vm_compute. reflexivity.
Defined.
